(** * digi_chatbot: the completion client and its audio/speech companions

    A shallow embedding of the two console programs of the repository,
    [main_add_chatconsole.py] and [main_voice_chat_console.py].  The two
    files are near duplicates; each gets a module of its own
    ([AddChatConsole], [VoiceChatConsole]) so that the places where they
    differ stay visible.

    Python values are embedded as the inductive type [pyval]; a Python
    [str] is a Rocq [string] (for the Thai literals of the sources this is
    their UTF-8 encoding, which agrees with Python on concatenation,
    [startswith] and [rstrip('/')]).  Everything the programs do to the
    outside (HTTP, the logger, the clock, the audio device, the speech
    services, the Streamlit session) is threaded through an explicit
    [world], and the answers of the outside are read from an [env]. *)

From Stdlib Require Import String Ascii List ZArith NArith Bool Lia Arith DecimalString.
Import ListNotations.
Open Scope string_scope.

(** ** Python values *)

(** What [json.loads] can produce and what the payload literals are built
    from.  A float is kept as mantissa and binary exponent; a dict is the
    list of its items in insertion order (keys distinct). *)
#[warnings="-register-all"]
Inductive pyval : Type :=
| PNone
| PBool (b : bool)
| PInt (z : Z)
| PFloat (mantissa exponent : Z)
| PStr (s : string)
| PList (items : list pyval)
| PDict (items : list (string * pyval)).

(** A value of [os.getenv]: [None] or a string. *)
Definition of_opt (o : option string) : pyval :=
  match o with
  | Some s => PStr s
  | None => PNone
  end.

(** Python truthiness of such a value: [None] and [''] are falsy. *)
Definition truthy (o : option string) : bool :=
  match o with
  | Some EmptyString => false
  | Some _ => true
  | None => false
  end.

(** [all([...])] over a list of such values. *)
Definition py_all (l : list (option string)) : bool := forallb truthy l.

Definition string_of_nat (n : nat) : string :=
  NilEmpty.string_of_uint (Nat.to_uint n).

(** [s.rstrip(c)] for a one-character argument: every trailing [c] goes. *)
Fixpoint rstrip (c : ascii) (s : string) : string :=
  match s with
  | EmptyString => EmptyString
  | String a s' =>
      match rstrip c s' with
      | EmptyString => if Ascii.eqb a c then EmptyString else String a EmptyString
      | r => String a r
      end
  end.

Definition startswith (s p : string) : bool := String.prefix p s.

(** [needle in hay] on strings. *)
Fixpoint py_in (needle hay : string) : bool :=
  if String.prefix needle hay then true
  else match hay with
       | EmptyString => false
       | String _ hay' => py_in needle hay'
       end.

(** A [string] holds the UTF-8 bytes of the Python string: a character is
    a byte that is not of the form [10xxxxxx] with the bytes of that form
    that follow it.  Prefixes, suffixes and substrings of characters are
    then prefixes, suffixes and substrings of bytes; only counting
    characters has to look at the bytes. *)
Definition continuation (a : ascii) : bool :=
  match a with
  | Ascii _ _ _ _ _ _ false true => true
  | _ => false
  end.

(** [s[:n]] on a string: its first [n] characters. *)
Fixpoint str_slice_to (n : nat) (s : string) : string :=
  match s with
  | EmptyString => EmptyString
  | String a s' =>
      if continuation a then String a (str_slice_to n s')
      else match n with
           | O => EmptyString
           | S n' => String a (str_slice_to n' s')
           end
  end.

Fixpoint dict_get (k : string) (items : list (string * pyval)) : option pyval :=
  match items with
  | [] => None
  | (k', v) :: rest => if String.eqb k k' then Some v else dict_get k rest
  end.

Definition has_key (k : string) (v : pyval) : bool :=
  match v with
  | PDict items => match dict_get k items with Some _ => true | None => false end
  | _ => false
  end.

(** ** Exceptions *)

(** The exception classes the handlers of the sources tell apart.
    [requests.exceptions.ConnectTimeout] derives from both [ConnectionError]
    and [Timeout]; every class here derives from [Exception]. *)
Inductive exn_kind : Type :=
| ReadTimeout
| ConnectTimeout
| ConnectionError
| UnknownValueError
| RequestError
| OtherError.

Inductive pyclass : Type :=
| cls_Timeout
| cls_ConnectionError
| cls_UnknownValueError
| cls_RequestError
| cls_Exception.

Record exn : Type := mkExn { exn_kind_of : exn_kind; exn_str : string }.

Definition isinstance (e : exn) (c : pyclass) : bool :=
  match c, exn_kind_of e with
  | cls_Exception, _ => true
  | cls_Timeout, (ReadTimeout | ConnectTimeout) => true
  | cls_ConnectionError, (ConnectTimeout | ConnectionError) => true
  | cls_UnknownValueError, UnknownValueError => true
  | cls_RequestError, RequestError => true
  | _, _ => false
  end.

(** [raise Exception(msg)] *)
Definition Exception (msg : string) : exn := mkExn OtherError msg.

(** ** The outside world *)

Inductive level : Type := INFO | WARNING | ERROR.

Record request : Type := mkRequest {
  req_url : string;
  req_headers : list (string * pyval);
  req_json : pyval;
  req_timeout : nat
}.

(** A [requests.Response]: [json ()] either decodes the body or raises. *)
Record response : Type := mkResponse {
  status_code : nat;
  text : string;
  json : exn + pyval
}.

Inductive role : Type := user | assistant.

Record chat_message : Type := mkMessage {
  msg_role : role;
  msg_content : pyval;
  msg_timestamp : string
}.

Inductive result_reason : Type :=
| SynthesizingAudioCompleted
| Canceled
| OtherReason (name : string).

Inductive cancellation_reason : Type :=
| CancelError
| CancelEndOfStream
| CancelCancelledByUser.

Record synthesis_result : Type := mkSynthesis {
  reason : result_reason;
  cancellation_reason_of : cancellation_reason;
  error_details : string
}.

(** Calls into the Azure speech SDK, in the order the program makes them. *)
Inductive sdk_call : Type :=
| SdkSpeechConfig (subscription region : option string)
| SdkSetVoice (voice : option string)
| SdkSynthesizer
| SdkSpeak (text : pyval).

Inductive ui_event : Type :=
| UiError (msg : string)
| UiRerun.

(** The answers of the outside.  An HTTP answer may depend on the requests
    sent before it; a clock reading on how many were taken before. *)
Record env : Type := mkEnv {
  http_post : list request -> request -> exn + response;
  now_strftime : nat -> string;
  py_repr : pyval -> string;
  subscript_error : pyval -> pyval -> exn;
  slice_error : pyval -> exn;
  attribute_error : pyval -> string -> exn;
  sdk_speech_config : option string -> option string -> exn + unit;
  sdk_set_voice : option string -> exn + unit;
  sdk_synthesizer : exn + unit;
  sdk_speak : pyval -> exn + synthesis_result;
  pa_init : exn + unit;
  pa_open : exn + unit;
  stream_read : nat -> exn + string;
  stream_stop : exn + unit;
  stream_close : exn + unit;
  pa_terminate : exn + unit;
  mktemp : exn + string;
  wave_write : string -> list string -> exn + unit;
  sr_audio_file : option string -> exn + string;
  sr_record : string -> exn + string;
  sr_recognize_google : string -> string -> exn + string
}.

(** What the program has done to the outside so far; lists are oldest
    first. *)
Record world : Type := mkWorld {
  w_log : list (level * string);
  w_posts : list request;
  w_sdk : list sdk_call;
  w_messages : list chat_message;
  w_logs : list string;
  w_ui : list ui_event;
  w_clock : nat;
  w_pa_live : nat;
  w_streams_open : nat;
  w_files : list (string * list string)
}.

Definition world0 : world := mkWorld [] [] [] [] [] [] 0 0 0 [].

(** ** State and exceptions *)

Definition M (A : Type) : Type := world -> (exn + A) * world.

Definition ret {A} (a : A) : M A := fun w => (inr a, w).

Definition bind {A B} (c : M A) (k : A -> M B) : M B :=
  fun w =>
    match c w with
    | (inr a, w') => k a w'
    | (inl e, w') => (inl e, w')
    end.

Definition raise {A} (e : exn) : M A := fun w => (inl e, w).

(** [try: c  except Exception as e: h e]; what [c] did before raising
    stays done. *)
Definition try_except {A} (c : M A) (h : exn -> M A) : M A :=
  fun w =>
    match c w with
    | (inr a, w') => (inr a, w')
    | (inl e, w') => h e w'
    end.

(** An outside answer that is either a value or a raised exception. *)
Definition lift {A} (r : exn + A) : M A :=
  match r with
  | inr a => ret a
  | inl e => raise e
  end.

Definition modify (f : world -> world) : M unit := fun w => (inr tt, f w).

Declare Scope py_scope.
Delimit Scope py_scope with py.
Notation "x <- c ;; k" := (bind c (fun x => k))
  (at level 61, c at next level, right associativity) : py_scope.
Notation "c ;; k" := (bind c (fun _ => k))
  (at level 61, right associativity) : py_scope.
Open Scope py_scope.

Definition add_log (x : level * string) (w : world) : world :=
  mkWorld (w_log w ++ [x]) (w_posts w) (w_sdk w) (w_messages w) (w_logs w)
          (w_ui w) (w_clock w) (w_pa_live w) (w_streams_open w) (w_files w).

Definition add_post (r : request) (w : world) : world :=
  mkWorld (w_log w) (w_posts w ++ [r]) (w_sdk w) (w_messages w) (w_logs w)
          (w_ui w) (w_clock w) (w_pa_live w) (w_streams_open w) (w_files w).

Definition add_sdk (c : sdk_call) (w : world) : world :=
  mkWorld (w_log w) (w_posts w) (w_sdk w ++ [c]) (w_messages w) (w_logs w)
          (w_ui w) (w_clock w) (w_pa_live w) (w_streams_open w) (w_files w).

Definition add_message (m : chat_message) (w : world) : world :=
  mkWorld (w_log w) (w_posts w) (w_sdk w) (w_messages w ++ [m]) (w_logs w)
          (w_ui w) (w_clock w) (w_pa_live w) (w_streams_open w) (w_files w).

Definition add_session_log (s : string) (w : world) : world :=
  mkWorld (w_log w) (w_posts w) (w_sdk w) (w_messages w) (w_logs w ++ [s])
          (w_ui w) (w_clock w) (w_pa_live w) (w_streams_open w) (w_files w).

Definition add_ui (u : ui_event) (w : world) : world :=
  mkWorld (w_log w) (w_posts w) (w_sdk w) (w_messages w) (w_logs w)
          (w_ui w ++ [u]) (w_clock w) (w_pa_live w) (w_streams_open w) (w_files w).

Definition tick (w : world) : world :=
  mkWorld (w_log w) (w_posts w) (w_sdk w) (w_messages w) (w_logs w)
          (w_ui w) (S (w_clock w)) (w_pa_live w) (w_streams_open w) (w_files w).

Definition set_audio (pa streams : nat) (w : world) : world :=
  mkWorld (w_log w) (w_posts w) (w_sdk w) (w_messages w) (w_logs w)
          (w_ui w) (w_clock w) pa streams (w_files w).

Definition add_file (f : string * list string) (w : world) : world :=
  mkWorld (w_log w) (w_posts w) (w_sdk w) (w_messages w) (w_logs w)
          (w_ui w) (w_clock w) (w_pa_live w) (w_streams_open w) (w_files w ++ [f]).

(** [logger.info], [logger.warning], [logger.error] *)
Definition logger (l : level) (msg : string) : M unit := modify (add_log (l, msg)).

(** [requests.post(url, headers=headers, json=payload, timeout=t)] *)
Definition requests_post (E : env) (r : request) : M response :=
  fun w => lift (http_post E (w_posts w) r) (add_post r w).

(** [datetime.now().strftime("%Y-%m-%d %H:%M:%S")] *)
Definition now (E : env) : M string :=
  fun w => (inr (now_strftime E (w_clock w)), tick w).

(** [str(v)], as an f-string field formats it. *)
Definition py_str (E : env) (v : pyval) : string :=
  match v with
  | PStr s => s
  | PNone => "None"
  | _ => py_repr E v
  end.

Definition fmt_opt (o : option string) : string :=
  match o with
  | Some s => s
  | None => "None"
  end.

(** [v[k]] for a string key and [v[0]].  What a failing subscript raises
    ([KeyError], [IndexError], [TypeError], with CPython's wording) is read
    from the outside. *)
Definition getitem_key (E : env) (v : pyval) (k : string) : M pyval :=
  match v with
  | PDict items =>
      match dict_get k items with
      | Some x => ret x
      | None => raise (subscript_error E v (PStr k))
      end
  | _ => raise (subscript_error E v (PStr k))
  end.

Definition getitem_0 (E : env) (v : pyval) : M pyval :=
  match v with
  | PList (x :: _) => ret x
  | PStr (String c _) => ret (PStr (String c EmptyString))
  | _ => raise (subscript_error E v (PInt 0))
  end.

(** [text[:50]] *)
Definition slice_to_50 (E : env) (v : pyval) : M pyval :=
  match v with
  | PStr s => ret (PStr (str_slice_to 50 s))
  | PList l => ret (PList (firstn 50 l))
  | _ => raise (slice_error E v)
  end.

(** ** Configuration *)

Record config : Type := mkConfig {
  azure_oai_endpoint : option string;
  azure_oai_key : option string;
  azure_oai_deployment : option string;
  azure_search_endpoint : option string;
  azure_search_key : option string;
  azure_search_index : option string;
  azure_api_version : option string;
  azure_speech_key : option string;
  azure_speech_region : option string;
  azure_speech_voice : option string
}.

(** [os.getenv(name, default)] *)
Definition getenv_default (getenv : string -> option string) (name default : string)
  : option string :=
  match getenv name with
  | Some s => Some s
  | None => Some default
  end.

(** ** Request bodies

    The four payload literals; the two files spell the first, second and
    fourth identically, the third exists in [main_add_chatconsole.py]
    only. *)

Definition system_prompt : string :=
  "You are a helpful Loan agent that responds in Thai language".

Definition chat_messages (query : string) : pyval :=
  PList [ PDict [("role", PStr "system"); ("content", PStr system_prompt)];
          PDict [("role", PStr "user"); ("content", PStr query)] ].

(** Structure 1 *)
Definition payload_azure_search (search_endpoint search_key search_index : option string)
  (query : string) : pyval :=
  PDict [
    ("messages", chat_messages query);
    ("temperature", PFloat 0 0);
    ("max_tokens", PInt 1000);
    ("data_sources", PList [ PDict [
       ("type", PStr "azure_search");
       ("parameters", PDict [
          ("endpoint", of_opt search_endpoint);
          ("index_name", of_opt search_index);
          ("authentication", PDict [("type", PStr "api_key"); ("key", of_opt search_key)]);
          ("query_type", PStr "simple");
          ("in_scope", PBool true);
          ("top_n_documents", PInt 5);
          ("role_information", PStr system_prompt) ]) ] ]) ].

(** Structure 2 *)
Definition payload_cognitive_search (search_endpoint search_key search_index : option string)
  (query : string) : pyval :=
  PDict [
    ("messages", chat_messages query);
    ("temperature", PFloat 0 0);
    ("max_tokens", PInt 1000);
    ("data_sources", PList [ PDict [
       ("type", PStr "AzureCognitiveSearch");
       ("parameters", PDict [
          ("endpoint", of_opt search_endpoint);
          ("index_name", of_opt search_index);
          ("authentication", PDict [("type", PStr "api_key"); ("key", of_opt search_key)]) ]) ] ]) ].

(** Structure 3 *)
Definition payload_simplified (search_endpoint search_key search_index : option string)
  (query : string) : pyval :=
  PDict [
    ("messages", chat_messages query);
    ("temperature", PFloat 0 0);
    ("max_tokens", PInt 1000);
    ("data_sources", PList [ PDict [
       ("type", PStr "azure_search");
       ("parameters", PDict [
          ("endpoint", of_opt search_endpoint);
          ("index_name", of_opt search_index);
          ("key", of_opt search_key) ]) ] ]) ].

(** The fallback without search integration *)
Definition payload_fallback (query : string) : pyval :=
  PDict [
    ("messages", chat_messages query);
    ("temperature", PFloat 0 0);
    ("max_tokens", PInt 1000) ].

(** A request body is search-enabled when it carries a [data_sources]
    block. *)
Definition search_enabled (payload : pyval) : bool := has_key "data_sources" payload.

Definition request_headers (api_key : option string) : list (string * pyval) :=
  [("Content-Type", PStr "application/json"); ("api-key", of_opt api_key)].

Definition completions_url (endpoint : string) (deployment api_version : option string)
  : string :=
  endpoint ++ "/openai/deployments/" ++ fmt_opt deployment
           ++ "/chat/completions?api-version=" ++ fmt_opt api_version.

(** [result['choices'][0]['message']['content']] *)
Definition extract_content (E : env) (result : pyval) : M pyval :=
  choices <- getitem_key E result "choices" ;;
  choice <- getitem_0 E choices ;;
  message <- getitem_key E choice "message" ;;
  getitem_key E message "content".

(** How one pass through the body of the [for] loop ends. *)
Inductive pass (A : Type) : Type :=
| Return (a : A)
| Continue (last_error : string).
Arguments Return {A} a.
Arguments Continue {A} last_error.

(** What the loop leaves behind: a value returned from inside it, or the
    loop ran out with [last_error] as it then stands. *)
Inductive loop_end (A : Type) : Type :=
| Returned (a : A)
| Exhausted (last_error : option string).
Arguments Returned {A} a.
Arguments Exhausted {A} last_error.

Definition all_failed_message (last_error : option string) : string :=
  "All API payload structures failed. Last error: " ++ fmt_opt last_error.

(** ** Speech synthesis, shared by both files *)

Definition sdk (c : sdk_call) {A} (answer : exn + A) : M A :=
  fun w => lift answer (add_sdk c w).

Definition fmt_cancellation_reason (r : cancellation_reason) : string :=
  match r with
  | CancelError => "CancellationReason.Error"
  | CancelEndOfStream => "CancellationReason.EndOfStream"
  | CancelCancelledByUser => "CancellationReason.CancelledByUser"
  end.

Definition fmt_result_reason (r : result_reason) : string :=
  match r with
  | SynthesizingAudioCompleted => "ResultReason.SynthesizingAudioCompleted"
  | Canceled => "ResultReason.Canceled"
  | OtherReason name => "ResultReason." ++ name
  end.

(** The statements of [text_to_speech] from the first [logger.info] to the
    last [return], which the two files share word for word. *)
Definition synthesize (E : env) (text : pyval) (cfg : config) : M bool :=
  head <- slice_to_50 E text ;;
  logger INFO ("Converting text to speech: " ++ py_str E head ++ "...") ;;
  sdk (SdkSpeechConfig (azure_speech_key cfg) (azure_speech_region cfg))
      (sdk_speech_config E (azure_speech_key cfg) (azure_speech_region cfg)) ;;
  sdk (SdkSetVoice (azure_speech_voice cfg)) (sdk_set_voice E (azure_speech_voice cfg)) ;;
  sdk SdkSynthesizer (sdk_synthesizer E) ;;
  result <- sdk (SdkSpeak text) (sdk_speak E text) ;;
  match reason result with
  | SynthesizingAudioCompleted =>
      logger INFO "Speech synthesis completed successfully" ;;
      ret true
  | Canceled =>
      logger ERROR ("Speech synthesis canceled: "
                      ++ fmt_cancellation_reason (cancellation_reason_of result)) ;;
      match cancellation_reason_of result with
      | CancelError => logger ERROR ("Error details: " ++ error_details result)
      | _ => ret tt
      end ;;
      ret false
  | OtherReason _ =>
      logger ERROR ("Speech synthesis failed with reason: "
                      ++ fmt_result_reason (reason result)) ;;
      ret false
  end.

Definition text_to_speech_handler (e : exn) : M bool :=
  logger ERROR ("Text-to-speech error: " ++ exn_str e) ;;
  ret false.

(** ** Audio capture, the same in both files *)

Definition CHUNK : N := 1024.
Definition RATE : N := 44100.

(** *** [int(RATE / CHUNK * duration)]

    Python divides and multiplies in binary64.  A float that is zero or
    at least one is written [(m, s)] here, for [m * 2^s] with [m] of at
    most 53 bits; only such floats occur.

    [round53 n] is the integer [n >= 0] rounded to 53 significant bits,
    to nearest and ties to even: [n] is about [m * 2^s]. *)
Definition round53 (n : Z) : Z * Z :=
  let s := Z.max 0 (Z.log2 n + 1 - 53) in
  let q := Z.shiftr n s in
  let r := (n - Z.shiftl q s)%Z in
  let half := Z.shiftl 1 (s - 1) in
  if (s =? 0)%Z then (n, 0%Z)
  else if (half <? r)%Z || ((half =? r)%Z && Z.odd q) then ((q + 1)%Z, s)
  else (q, s).

(** The conversion of the [int] [n >= 0] to a float, as [float * int]
    does it: [OverflowError] when the rounded value is no binary64. *)
Definition float_of_int (n : Z) : exn + Z * Z :=
  let (m, s) := round53 n in
  if (2 ^ 1024 <=? Z.shiftl m s)%Z
  then inl (mkExn OtherError "int too large to convert to float")
  else inr (m, s).

(** [RATE / CHUNK]: 44100 / 1024 is 11025 * 2^-8, a binary64. *)
Definition RATE_over_CHUNK : Z * Z := (11025, -8)%Z.

(** [x * y] for two such floats whose product is zero or at least one;
    [None] is [inf]. *)
Definition float_mul (x y : Z * Z) : option (Z * Z) :=
  let (m, s) := round53 (fst x * fst y) in
  if (2 ^ 1024 <=? Z.shiftl m (s + snd x + snd y))%Z then None
  else Some (m, (s + snd x + snd y)%Z).

(** [int(x)]: the fraction is cut off; [OverflowError] on [inf]. *)
Definition int_of_float (x : option (Z * Z)) : exn + Z :=
  match x with
  | None => inl (mkExn OtherError "cannot convert float infinity to integer")
  | Some (m, s) => inr (Z.shiftl m s)
  end.

(** [int(RATE / CHUNK * duration)] *)
Definition float_chunks (duration : Z) : exn + Z :=
  match float_of_int duration with
  | inl e => inl e
  | inr d => int_of_float (float_mul RATE_over_CHUNK d)
  end.

Definition chunk_count (duration : nat) : exn + nat :=
  match float_chunks (Z.of_nat duration) with
  | inl e => inl e
  | inr n => inr (Z.to_nat n)
  end.

(** [pyaudio.PyAudio()] *)
Definition PyAudio (E : env) : M unit :=
  fun w =>
    match pa_init E with
    | inr _ => (inr tt, set_audio (S (w_pa_live w)) (w_streams_open w) w)
    | inl e => (inl e, w)
    end.

(** [p.open(...)] *)
Definition p_open (E : env) : M unit :=
  fun w =>
    match pa_open E with
    | inr _ => (inr tt, set_audio (w_pa_live w) (S (w_streams_open w)) w)
    | inl e => (inl e, w)
    end.

(** [stream.close()] *)
Definition stream_close_ (E : env) : M unit :=
  fun w =>
    match stream_close E with
    | inr _ => (inr tt, set_audio (w_pa_live w) (Nat.pred (w_streams_open w)) w)
    | inl e => (inl e, w)
    end.

(** [p.terminate()] *)
Definition p_terminate (E : env) : M unit :=
  fun w =>
    match pa_terminate E with
    | inr _ => (inr tt, set_audio (Nat.pred (w_pa_live w)) (w_streams_open w) w)
    | inl e => (inl e, w)
    end.

(** [wave.open(name, 'wb')] up to [wf.close()] *)
Definition wave_save (E : env) (name : string) (frames : list string) : M unit :=
  fun w =>
    match wave_write E name frames with
    | inr _ => (inr tt, add_file (name, frames) w)
    | inl e => (inl e, w)
    end.

(** [for i in range(0, n): data = stream.read(CHUNK); frames.append(data)],
    started at iteration [i]. *)
Fixpoint read_frames (E : env) (i n : nat) (frames : list string) : M (list string) :=
  match n with
  | O => ret frames
  | S n' =>
      data <- lift (stream_read E i) ;;
      read_frames E (S i) n' (frames ++ [data])
  end.

Definition record_audio (E : env) (duration : nat) : M (option string) :=
  try_except
    (logger INFO "Starting microphone recording" ;;
     PyAudio E ;;
     p_open E ;;
     logger INFO ("Recording for " ++ string_of_nat duration ++ " seconds...") ;;
     n <- lift (chunk_count duration) ;;
     frames <- read_frames E 0 n [] ;;
     lift (stream_stop E) ;;
     stream_close_ E ;;
     p_terminate E ;;
     logger INFO "Recording completed" ;;
     temp_filename <- lift (mktemp E) ;;
     wave_save E temp_filename frames ;;
     ret (Some temp_filename))
    (fun e =>
       logger ERROR ("Error recording audio: " ++ exn_str e) ;;
       ret None).

(** ** Transcription

    The two files differ only in the bytes of the three placeholder
    literals, which are therefore arguments here. *)

Section Transcription.

Variables (unrecognized recognition_error conversion_error : string).

Definition transcribe_handler (e : exn) : M string :=
  if isinstance e cls_UnknownValueError then
    logger ERROR "Could not understand audio" ;;
    ret unrecognized
  else if isinstance e cls_RequestError then
    logger ERROR ("Speech recognition service error: " ++ exn_str e) ;;
    ret (recognition_error ++ exn_str e)
  else
    logger ERROR ("Audio transcription error: " ++ exn_str e) ;;
    ret (conversion_error ++ exn_str e).

Definition transcribe_audio_with (E : env) (audio_file_path : option string)
  : M string :=
  try_except
    (logger INFO "Starting audio transcription" ;;
     source <- lift (sr_audio_file E audio_file_path) ;;
     logger INFO "Reading audio file" ;;
     audio <- lift (sr_record E source) ;;
     logger INFO "Attempting speech recognition" ;;
     text <- lift (sr_recognize_google E audio "th-TH") ;;
     logger INFO ("Successfully transcribed: " ++ text) ;;
     ret text)
    transcribe_handler.

End Transcription.

(** ** The Streamlit session *)

(** [st.session_state.messages.append], [st.session_state.logs.append],
    [st.error] and [st.rerun].  [st.rerun] leaves the script run by
    raising Streamlit's [RerunException], which is no [Exception] and
    which nothing in the two files catches.  In both files it is the last
    statement of [process_query], and every call of [process_query] is the
    last statement of its block of [main].  The call is recorded as the
    event [UiRerun]: the world after it is the world at the call, and the
    [tt] that follows it stands for the end of the run, not for a return
    to the caller. *)
Definition session_append_message (m : chat_message) : M unit := modify (add_message m).
Definition session_append_log (s : string) : M unit := modify (add_session_log s).
Definition st_error (msg : string) : M unit := modify (add_ui (UiError msg)).
Definition st_rerun : M unit := modify (add_ui UiRerun).

(** ** main_add_chatconsole.py *)

Module AddChatConsole.

Definition load_config (getenv : string -> option string) : config :=
  mkConfig (getenv "AZURE_OAI_ENDPOINT") (getenv "AZURE_OAI_KEY")
           (getenv "AZURE_OAI_DEPLOYMENT") (getenv "AZURE_SEARCH_ENDPOINT")
           (getenv "AZURE_SEARCH_KEY") (getenv "AZURE_SEARCH_INDEX")
           (getenv "AZURE_API_VERSION") (getenv "AZURE_SPEECH_KEY")
           (getenv "AZURE_SPEECH_REGION") (getenv "AZURE_SPEECH_VOICE").

(** [payloads_to_try]: a list literal, the same four entries whatever the
    search arguments are. *)
Definition payloads_to_try (search_endpoint search_key search_index : option string)
  (query : string) : list pyval :=
  [ payload_azure_search search_endpoint search_key search_index query;
    payload_cognitive_search search_endpoint search_key search_index query;
    payload_simplified search_endpoint search_key search_index query;
    payload_fallback query ].

Definition status_error_msg (i : nat) (r : response) : string :=
  "Payload " ++ string_of_nat i ++ " failed with status code: "
    ++ string_of_nat (status_code r) ++ ", Response: " ++ text r.

Definition exception_error_msg (i : nat) (e : exn) : string :=
  "Payload " ++ string_of_nat i ++ " failed with error: " ++ exn_str e.

(** The body of [for i, payload in enumerate(payloads_to_try, 1)]. *)
Definition attempt (E : env) (url : string) (headers : list (string * pyval))
  (i : nat) (payload : pyval) : M (pass pyval) :=
  try_except
    (logger INFO ("Attempting payload structure " ++ string_of_nat i) ;;
     response <- requests_post E (mkRequest url headers payload 60) ;;
     if Nat.eqb (status_code response) 200 then
       (result <- lift (json response) ;;
        logger INFO "Successfully received response from Azure OpenAI" ;;
        (if Nat.eqb i 4
         then logger WARNING "Used fallback mode without search integration"
         else ret tt) ;;
        content <- extract_content E result ;;
        ret (Return content))
     else
       (logger WARNING (status_error_msg i response) ;;
        ret (Continue (status_error_msg i response))))
    (fun e =>
       logger ERROR (exception_error_msg i e) ;;
       ret (Continue (exception_error_msg i e))).

Fixpoint try_payloads (E : env) (url : string) (headers : list (string * pyval))
  (i : nat) (payloads : list pyval) (last_error : option string)
  : M (loop_end pyval) :=
  match payloads with
  | [] => ret (Exhausted last_error)
  | payload :: rest =>
      r <- attempt E url headers i payload ;;
      match r with
      | Return content => ret (Returned content)
      | Continue msg => try_payloads E url headers (S i) rest (Some msg)
      end
  end.

Definition call_azure_openai_with_search_rest (E : env)
  (endpoint api_key deployment search_endpoint search_key search_index : option string)
  (query : string) (api_version : option string) : M pyval :=
  endpoint <- match endpoint with
              | Some s => ret (rstrip "/" s)
              | None => raise (attribute_error E PNone "rstrip")
              end ;;
  r <- try_payloads E (completions_url endpoint deployment api_version)
         (request_headers api_key) 1
         (payloads_to_try search_endpoint search_key search_index query) None ;;
  match r with
  | Returned content => ret content
  | Exhausted last_error =>
      logger ERROR (all_failed_message last_error) ;;
      raise (Exception (all_failed_message last_error))
  end.

Definition text_to_speech (E : env) (text : pyval) (cfg : config) : M bool :=
  try_except (synthesize E text cfg) text_to_speech_handler.

Definition unrecognized_speech : string := "‡πÑ‡∏°‡πà‡∏™‡∏≤‡∏°‡∏≤‡∏£‡∏ñ‡πÄ‡∏Ç‡πâ‡∏≤‡πÉ‡∏à‡πÄ‡∏™‡∏µ‡∏¢‡∏á‡∏û‡∏π‡∏î‡πÑ‡∏î‡πâ".
Definition recognition_error : string := "‡πÄ‡∏Å‡∏¥‡∏î‡∏Ç‡πâ‡∏≠‡∏ú‡∏¥‡∏î‡∏û‡∏•‡∏≤‡∏î‡πÉ‡∏ô‡∏Å‡∏≤‡∏£‡∏£‡∏π‡πâ‡∏à‡∏≥‡πÄ‡∏™‡∏µ‡∏¢‡∏á: ".
Definition conversion_error : string := "‡πÄ‡∏Å‡∏¥‡∏î‡∏Ç‡πâ‡∏≠‡∏ú‡∏¥‡∏î‡∏û‡∏•‡∏≤‡∏î‡πÉ‡∏ô‡∏Å‡∏≤‡∏£‡πÅ‡∏õ‡∏•‡∏á‡πÄ‡∏™‡∏µ‡∏¢‡∏á: ".

Definition transcribe_audio : env -> option string -> M string :=
  transcribe_audio_with unrecognized_speech recognition_error conversion_error.

Definition error_prefix : string := "‡πÄ‡∏Å‡∏¥‡∏î‡∏Ç‡πâ‡∏≠‡∏ú‡∏¥‡∏î‡∏û‡∏•‡∏≤‡∏î: ".

Definition search_unavailable : string := "‡∏£‡∏∞‡∏ö‡∏ö‡∏Ñ‡πâ‡∏ô‡∏´‡∏≤‡πÑ‡∏°‡πà‡∏û‡∏£‡πâ‡∏≠‡∏°‡πÉ‡∏ä‡πâ‡∏á‡∏≤‡∏ô ‡∏Å‡∏£‡∏∏‡∏ì‡∏≤‡∏ï‡∏£‡∏ß‡∏à‡∏™‡∏≠‡∏ö‡∏Å‡∏≤‡∏£‡∏ï‡∏±‡πâ‡∏á‡∏Ñ‡πà‡∏≤".

Definition process_query (E : env) (query : string) (cfg : config) : M unit :=
  timestamp <- now E ;;
  session_append_message (mkMessage user (PStr query) timestamp) ;;
  session_append_log ("[" ++ timestamp ++ "] User Query: " ++ query) ;;
  logger INFO ("[" ++ timestamp ++ "] User Query: " ++ query) ;;
  try_except
    (answer <-
       (if negb (py_all [azure_search_endpoint cfg; azure_search_key cfg;
                         azure_search_index cfg])
        then ret (PStr search_unavailable,
                  "[" ++ timestamp ++ "] Warning: Search parameters missing")
        else
          response <- call_azure_openai_with_search_rest E
                        (azure_oai_endpoint cfg) (azure_oai_key cfg)
                        (azure_oai_deployment cfg) (azure_search_endpoint cfg)
                        (azure_search_key cfg) (azure_search_index cfg)
                        query (azure_api_version cfg) ;;
          ret (response, "[" ++ timestamp ++ "] Successfully received AI response")) ;;
     session_append_log (snd answer) ;;
     logger INFO (snd answer) ;;
     stamp <- now E ;;
     session_append_message (mkMessage assistant (fst answer) stamp))
    (fun e =>
       session_append_log ("[" ++ timestamp ++ "] Error: " ++ exn_str e) ;;
       logger ERROR ("[" ++ timestamp ++ "] Error: " ++ exn_str e) ;;
       stamp <- now E ;;
       session_append_message
         (mkMessage assistant (PStr (error_prefix ++ exn_str e)) stamp) ;;
       st_error (error_prefix ++ exn_str e)) ;;
  st_rerun.

End AddChatConsole.

(** ** main_voice_chat_console.py *)

Module VoiceChatConsole.

Definition load_config (getenv : string -> option string) : config :=
  mkConfig (getenv "AZURE_OAI_ENDPOINT") (getenv "AZURE_OAI_KEY")
           (getenv "AZURE_OAI_DEPLOYMENT") (getenv "AZURE_SEARCH_ENDPOINT")
           (getenv "AZURE_SEARCH_KEY") (getenv "AZURE_SEARCH_INDEX")
           (getenv_default getenv "AZURE_API_VERSION" "2024-06-01")
           (getenv "AZURE_SPEECH_KEY") (getenv "AZURE_SPEECH_REGION")
           (getenv_default getenv "AZURE_SPEECH_VOICE" "th-TH-PremwadaNeural").

(** The value [validate_azure_endpoint_format] computes for a truthy
    endpoint: trailing slashes off, then [https://] in front unless the
    stripped value already starts with it. *)
Definition fix_endpoint (endpoint : string) : string :=
  let endpoint := rstrip "/" endpoint in
  if startswith endpoint "https://" then endpoint else "https://" ++ endpoint.

Definition validate_azure_endpoint_format (endpoint : option string)
  : M (option string) :=
  match endpoint with
  | None => ret None
  | Some endpoint =>
      if negb (truthy (Some endpoint)) then ret None
      else
        (if negb (py_in "openai.azure.com" (fix_endpoint endpoint))
         then logger WARNING
                ("Endpoint doesn't appear to be a valid Azure OpenAI endpoint: "
                   ++ fix_endpoint endpoint)
         else ret tt) ;;
        ret (Some (fix_endpoint endpoint))
  end.

(** [payloads_to_try]: the two search-enabled bodies are appended only
    under [all([search_endpoint, search_key, search_index])]; the fallback
    is appended always. *)
Definition payloads_to_try (search_endpoint search_key search_index : option string)
  (query : string) : list pyval :=
  (if py_all [search_endpoint; search_key; search_index]
   then [ payload_azure_search search_endpoint search_key search_index query;
          payload_cognitive_search search_endpoint search_key search_index query ]
   else [])
  ++ [ payload_fallback query ].

(** The message of a non-200 answer; the inner [try] falls back to the
    first 200 characters of the body when it is not JSON. *)
Definition status_error_msg (E : env) (i : nat) (r : response) : string :=
  match json r with
  | inr error_details =>
      "Payload " ++ string_of_nat i ++ " failed - Status: "
        ++ string_of_nat (status_code r) ++ ", Error: " ++ py_str E error_details
  | inl _ =>
      "Payload " ++ string_of_nat i ++ " failed - Status: "
        ++ string_of_nat (status_code r) ++ ", Response: " ++ str_slice_to 200 (text r)
  end.

(** The message the [except] clauses give an exception, first matching
    clause first. *)
Definition exception_error_msg (i : nat) (e : exn) : string :=
  if isinstance e cls_Timeout
  then "Payload " ++ string_of_nat i ++ " failed - Request timeout"
  else if isinstance e cls_ConnectionError
  then "Payload " ++ string_of_nat i ++ " failed - Connection error"
  else "Payload " ++ string_of_nat i ++ " failed with error: " ++ exn_str e.

(** The body of [for i, payload in enumerate(payloads_to_try, 1)];
    [n] is [len(payloads_to_try)]. *)
Definition attempt (E : env) (url : string) (headers : list (string * pyval))
  (n i : nat) (payload : pyval) : M (pass pyval) :=
  try_except
    (logger INFO ("Attempting payload structure " ++ string_of_nat i ++ "/"
                    ++ string_of_nat n) ;;
     response <- requests_post E (mkRequest url headers payload 60) ;;
     if Nat.eqb (status_code response) 200 then
       (result <- lift (json response) ;;
        logger INFO "Successfully received response from Azure OpenAI" ;;
        (if Nat.eqb i n
         then logger WARNING "Used fallback mode without search integration"
         else ret tt) ;;
        content <- extract_content E result ;;
        ret (Return content))
     else
       (logger WARNING (status_error_msg E i response) ;;
        ret (Continue (status_error_msg E i response))))
    (fun e =>
       logger ERROR (exception_error_msg i e) ;;
       ret (Continue (exception_error_msg i e))).

Fixpoint try_payloads (E : env) (url : string) (headers : list (string * pyval))
  (n i : nat) (payloads : list pyval) (last_error : option string)
  : M (loop_end pyval) :=
  match payloads with
  | [] => ret (Exhausted last_error)
  | payload :: rest =>
      r <- attempt E url headers n i payload ;;
      match r with
      | Return content => ret (Returned content)
      | Continue msg => try_payloads E url headers n (S i) rest (Some msg)
      end
  end.

Definition call_azure_openai_with_search_rest (E : env)
  (endpoint api_key deployment search_endpoint search_key search_index : option string)
  (query : string) (api_version : option string) : M pyval :=
  endpoint <- validate_azure_endpoint_format endpoint ;;
  match endpoint with
  | None => raise (Exception "Invalid Azure OpenAI endpoint format")
  | Some endpoint =>
      if negb (truthy (Some endpoint))
      then raise (Exception "Invalid Azure OpenAI endpoint format")
      else
        let payloads := payloads_to_try search_endpoint search_key search_index query in
        r <- try_payloads E (completions_url endpoint deployment api_version)
               (request_headers api_key) (length payloads) 1 payloads None ;;
        match r with
        | Returned content => ret content
        | Exhausted last_error =>
            logger ERROR (all_failed_message last_error) ;;
            raise (Exception (all_failed_message last_error))
        end
  end.

Definition text_to_speech (E : env) (text : pyval) (cfg : config) : M bool :=
  try_except
    (if negb (truthy (azure_speech_key cfg)) || negb (truthy (azure_speech_region cfg))
     then logger WARNING "Speech services not configured" ;; ret false
     else synthesize E text cfg)
    text_to_speech_handler.

Definition unrecognized_speech : string := "ไม่สามารถเข้าใจเสียงพูดได้".
Definition recognition_error : string := "เกิดข้อผิดพลาดในการรู้จำเสียง: ".
Definition conversion_error : string := "เกิดข้อผิดพลาดในการแปลงเสียง: ".

Definition transcribe_audio : env -> option string -> M string :=
  transcribe_audio_with unrecognized_speech recognition_error conversion_error.

Definition error_prefix : string := "เกิดข้อผิดพลาด: ".

Definition process_query (E : env) (query : string) (cfg : config) : M unit :=
  timestamp <- now E ;;
  session_append_message (mkMessage user (PStr query) timestamp) ;;
  session_append_log ("[" ++ timestamp ++ "] User Query: " ++ query) ;;
  logger INFO ("[" ++ timestamp ++ "] User Query: " ++ query) ;;
  try_except
    (response <- call_azure_openai_with_search_rest E
                   (azure_oai_endpoint cfg) (azure_oai_key cfg)
                   (azure_oai_deployment cfg) (azure_search_endpoint cfg)
                   (azure_search_key cfg) (azure_search_index cfg)
                   query (azure_api_version cfg) ;;
     session_append_log ("[" ++ timestamp ++ "] Successfully received AI response") ;;
     logger INFO ("[" ++ timestamp ++ "] Successfully received AI response") ;;
     stamp <- now E ;;
     session_append_message (mkMessage assistant response stamp) ;;
     if truthy (azure_speech_key cfg) && truthy (azure_speech_region cfg)
     then text_to_speech E response cfg ;; ret tt
     else ret tt)
    (fun e =>
       session_append_log ("[" ++ timestamp ++ "] Error: " ++ exn_str e) ;;
       logger ERROR ("[" ++ timestamp ++ "] Error: " ++ exn_str e) ;;
       stamp <- now E ;;
       session_append_message
         (mkMessage assistant (PStr (error_prefix ++ exn_str e)) stamp) ;;
       st_error (error_prefix ++ exn_str e)) ;;
  st_rerun.

End VoiceChatConsole.

(** ** Reading a run of the completion client

    The vocabulary of the statements below: which of the two programs is
    meant, the requests it would send for given arguments, the answers the
    outside gives to them one after the other, and what one answer makes
    the loop do. *)

Inductive console : Type := add_console | voice_console.

Definition payloads (c : console) (search_endpoint search_key search_index : option string)
  (query : string) : list pyval :=
  match c with
  | add_console =>
      AddChatConsole.payloads_to_try search_endpoint search_key search_index query
  | voice_console =>
      VoiceChatConsole.payloads_to_try search_endpoint search_key search_index query
  end.

Definition complete (c : console) : env -> option string -> option string ->
  option string -> option string -> option string -> option string -> string ->
  option string -> M pyval :=
  match c with
  | add_console => AddChatConsole.call_azure_openai_with_search_rest
  | voice_console => VoiceChatConsole.call_azure_openai_with_search_rest
  end.

(** The endpoint as it enters the request URL. *)
Definition normalized (c : console) (endpoint : string) : string :=
  match c with
  | add_console => rstrip "/" endpoint
  | voice_console => VoiceChatConsole.fix_endpoint endpoint
  end.

(** The requests a call would send if no answer stopped it. *)
Definition requests (c : console)
  (endpoint : string) (api_key deployment search_endpoint search_key search_index : option string)
  (query : string) (api_version : option string) : list request :=
  map (fun payload =>
         mkRequest (completions_url (normalized c endpoint) deployment api_version)
                   (request_headers api_key) payload 60)
      (payloads c search_endpoint search_key search_index query).

(** The answers to [rs] when they are sent one after the other after the
    requests [sent]. *)
Fixpoint answers (E : env) (sent : list request) (rs : list request)
  : list (exn + response) :=
  match rs with
  | [] => []
  | r :: rs' => http_post E sent r :: answers E (sent ++ [r]) rs'
  end.

(** What an answer amounts to. *)
Inductive outcome : Type :=
| Answered (content : pyval)
| Rejected (r : response)
| Broke (e : exn).

Definition extracted (E : env) (result : pyval) : exn + pyval :=
  fst (extract_content E result world0).

Definition outcome_of (E : env) (a : exn + response) : outcome :=
  match a with
  | inl e => Broke e
  | inr r =>
      if Nat.eqb (status_code r) 200 then
        match json r with
        | inl e => Broke e
        | inr result =>
            match extracted E result with
            | inl e => Broke e
            | inr content => Answered content
            end
        end
      else Rejected r
  end.

Definition answered (E : env) (a : exn + response) : bool :=
  match outcome_of E a with
  | Answered _ => true
  | _ => false
  end.

(** The answer is no response with status 200: another status, or no
    response at all. *)
Definition not_200 (a : exn + response) : Prop :=
  match a with
  | inl _ => True
  | inr r => status_code r <> 200
  end.

(** The message kept in [last_error] for an answer that does not end the
    call. *)
Definition failure_msg (c : console) (E : env) (i : nat) (a : exn + response) : string :=
  match c, outcome_of E a with
  | add_console, Rejected r => AddChatConsole.status_error_msg i r
  | add_console, Broke e => AddChatConsole.exception_error_msg i e
  | voice_console, Rejected r => VoiceChatConsole.status_error_msg E i r
  | voice_console, Broke e => VoiceChatConsole.exception_error_msg i e
  | _, Answered _ => EmptyString
  end.

Definition failure_level (E : env) (a : exn + response) : level :=
  match outcome_of E a with
  | Rejected _ => WARNING
  | _ => ERROR
  end.

Definition announcement (c : console) (n i : nat) : string :=
  match c with
  | add_console => "Attempting payload structure " ++ string_of_nat i
  | voice_console =>
      "Attempting payload structure " ++ string_of_nat i ++ "/" ++ string_of_nat n
  end.

Definition fallback_test (c : console) (n i : nat) : bool :=
  match c with
  | add_console => Nat.eqb i 4
  | voice_console => Nat.eqb i n
  end.

(** The lines pass [i] of the loop writes to the logger for answer [a]. *)
Definition attempt_log (c : console) (E : env) (n i : nat) (a : exn + response)
  : list (level * string) :=
  (INFO, announcement c n i) ::
  (match a with
   | inr r =>
       if Nat.eqb (status_code r) 200 then
         match json r with
         | inr _ =>
             (INFO, "Successfully received response from Azure OpenAI") ::
             (if fallback_test c n i
              then [(WARNING, "Used fallback mode without search integration")]
              else [])
         | inl _ => []
         end
       else []
   | inl _ => []
   end) ++
  (if answered E a then [] else [(failure_level E a, failure_msg c E i a)]).

(** The answers the loop gets to see: up to and including the first one
    that ends the call. *)
Fixpoint seen (E : env) (l : list (exn + response)) : list (exn + response) :=
  match l with
  | [] => []
  | a :: l' => a :: (if answered E a then [] else seen E l')
  end.

Fixpoint seen_log (c : console) (E : env) (n i : nat) (l : list (exn + response))
  : list (level * string) :=
  match l with
  | [] => []
  | a :: l' => attempt_log c E n i a ++ seen_log c E n (S i) l'
  end.

(** The failure messages of the answers [l], numbered from [i]: the
    attempt records of a call. *)
Fixpoint failure_records (c : console) (E : env) (i : nat) (l : list (exn + response))
  : list (level * string) :=
  match l with
  | [] => []
  | a :: l' => (failure_level E a, failure_msg c E i a) :: failure_records c E (S i) l'
  end.

Fixpoint loop_result (c : console) (E : env) (i : nat) (l : list (exn + response))
  (last_error : option string) : loop_end pyval :=
  match l with
  | [] => Exhausted last_error
  | a :: l' =>
      match outcome_of E a with
      | Answered content => Returned content
      | _ => loop_result c E (S i) l' (Some (failure_msg c E i a))
      end
  end.

(** [w] after the log lines [lines] and the requests [sent]. *)
Definition touch (lines : list (level * string)) (sent : list request) (w : world)
  : world :=
  mkWorld (w_log w ++ lines) (w_posts w ++ sent) (w_sdk w) (w_messages w) (w_logs w)
          (w_ui w) (w_clock w) (w_pa_live w) (w_streams_open w) (w_files w).

(** [l] is [sub] with further elements in between, order kept. *)
Inductive scattered_in {A : Type} : list A -> list A -> Prop :=
| scattered_nil : forall l, scattered_in [] l
| scattered_keep : forall x sub l, scattered_in sub l -> scattered_in (x :: sub) (x :: l)
| scattered_skip : forall x sub l, scattered_in sub l -> scattered_in sub (x :: l).

(** The search fields Python treats as true: set and not empty. *)
Definition present_count (search_endpoint search_key search_index : option string) : nat :=
  length (filter truthy [search_endpoint; search_key; search_index]).

(** *** Outsides to run the programs against *)

Definition no_exn : exn := Exception "".

(** An outside given by its HTTP side, the speech SDK's constructor and
    synthesis call, the opening of and reading from the audio stream, and
    the recognizer; its other sides all work. *)
Definition outside_with
  (post : list request -> request -> exn + response)
  (speech_config : option string -> option string -> exn + unit)
  (speak : pyval -> exn + synthesis_result)
  (open : exn + unit) (read : nat -> exn + string)
  (recognize : string -> string -> exn + string) : env :=
  mkEnv post (fun _ => "2026-01-01 00:00:00") (fun _ => "<repr>")
        (fun _ _ => mkExn OtherError "subscript") (fun _ => mkExn OtherError "slice")
        (fun _ _ => mkExn OtherError "attribute")
        speech_config (fun _ => inr tt) (inr tt) speak
        (inr tt) open read (inr tt) (inr tt) (inr tt)
        (inr "/tmp/rec.wav") (fun _ _ => inr tt)
        (fun _ => inr "source") (fun _ => inr "audio") recognize.

Definition spoken : synthesis_result := mkSynthesis SynthesizingAudioCompleted CancelError "".

(** An outside whose HTTP side is [post] and whose other sides all work. *)
Definition outside (post : list request -> request -> exn + response) : env :=
  outside_with post (fun _ _ => inr tt) (fun _ => inr spoken)
               (inr tt) (fun _ => inr "frame") (fun _ _ => inr "hello").

Definition answering : list request -> request -> exn + response :=
  fun _ _ => inr (mkResponse 200 "{...}"
                    (inr (PDict [("choices",
                            PList [PDict [("message",
                              PDict [("content", PStr "sawasdee")])]])]))).

(** No input device: [p.open] raises. *)
Definition no_microphone : env :=
  outside_with answering (fun _ _ => inr tt) (fun _ => inr spoken)
               (inl (mkExn OtherError "[Errno -9996] Invalid input device (no default output device)"))
               (fun _ => inr "frame") (fun _ _ => inr "hello").

(** The third [stream.read] raises. *)
Definition input_overflow : env :=
  outside_with answering (fun _ _ => inr tt) (fun _ => inr spoken)
               (inr tt)
               (fun i => match i with
                         | 2 => inl (mkExn OtherError "[Errno -9981] Input overflowed")
                         | _ => inr "frame"
                         end)
               (fun _ _ => inr "hello").

(** The recognizer does not understand the audio. *)
Definition silence : env :=
  outside_with answering (fun _ _ => inr tt) (fun _ => inr spoken)
               (inr tt) (fun _ => inr "frame")
               (fun _ _ => inl (mkExn UnknownValueError "")).

(** The speech service cancels the synthesis. *)
Definition cancelling : env :=
  outside_with answering (fun _ _ => inr tt)
               (fun _ => inr (mkSynthesis Canceled CancelError "quota exceeded"))
               (inr tt) (fun _ => inr "frame") (fun _ _ => inr "hello").

Definition ok_body (content : string) : pyval :=
  PDict [("choices", PList [PDict [("message", PDict [("content", PStr content)])]])].

Definition ok_response (content : string) : response :=
  mkResponse 200 "{...}" (inr (ok_body content)).

Definition status_response (status : nat) (body : string) : response :=
  mkResponse status body (inl (mkExn OtherError "Expecting value")).

(** Every request is refused with [status]. *)
Definition refusing (status : nat) : env :=
  outside (fun _ _ => inr (status_response status "denied")).

(** The first request of a call is refused with [status], later ones with
    503. *)
Definition refusing_first (status : nat) : env :=
  outside (fun sent _ =>
             match sent with
             | [] => inr (status_response status "denied")
             | _ => inr (status_response 503 "busy")
             end).

(** The first request gets status 200 with a body that is not JSON, later
    ones a well-formed completion. *)
Definition garbled_then_fine : env :=
  outside (fun sent _ =>
             match sent with
             | [] => inr (mkResponse 200 "<html>" (inl (mkExn OtherError "Expecting value")))
             | _ => inr (ok_response "sawasdee")
             end).

(** Search-enabled bodies are refused, the plain one is answered. *)
Definition search_down : env :=
  outside (fun _ r =>
             if search_enabled (req_json r)
             then inr (status_response 400 "bad request")
             else inr (ok_response "sawasdee")).

Definition demo_config : config :=
  mkConfig (Some "myresource.openai.azure.com/") (Some "key") (Some "gpt")
           (Some "https://s.search.windows.net") (Some "skey") (Some "idx")
           (Some "2024-06-01") None None None.

Definition partial_config : config :=
  mkConfig (Some "https://myresource.openai.azure.com") (Some "key") (Some "gpt")
           (Some "https://s.search.windows.net") None None
           (Some "2024-06-01") None None None.

Definition plain_config : config :=
  mkConfig (Some "https://myresource.openai.azure.com") (Some "key") (Some "gpt")
           None None None (Some "2024-06-01") None None None.


Definition pure_op {A : Type} (c : M A) : Prop :=
  forall w, c w = (fst (c world0), w).

Definition pass_of (c : console) (E : env) (i : nat) (a : exn + response) : pass pyval :=
  match outcome_of E a with
  | Answered content => Return content
  | _ => Continue (failure_msg c E i a)
  end.

(** What the call writes to the logger before the loop and after it. *)
Definition prelude_log (c : console) (endpoint : string) : list (level * string) :=
  match c with
  | add_console => []
  | voice_console =>
      if negb (py_in "openai.azure.com" (VoiceChatConsole.fix_endpoint endpoint))
      then [(WARNING, "Endpoint doesn't appear to be a valid Azure OpenAI endpoint: "
                        ++ VoiceChatConsole.fix_endpoint endpoint)]
      else []
  end.

Definition closing_log (r : loop_end pyval) : list (level * string) :=
  match r with
  | Returned _ => []
  | Exhausted last_error => [(ERROR, all_failed_message last_error)]
  end.

Definition call_result (r : loop_end pyval) : exn + pyval :=
  match r with
  | Returned content => inr content
  | Exhausted last_error => inl (Exception (all_failed_message last_error))
  end.

(** The answer is a response with status 200 whose body does not decode
    or does not hold [choices[0].message.content]. *)
Definition malformed_200 (E : env) (a : exn + response) : Prop :=
  match a with
  | inl _ => False
  | inr r =>
      status_code r = 200 /\
      match json r with
      | inl _ => True
      | inr result =>
          match extracted E result with
          | inl _ => True
          | inr _ => False
          end
      end
  end.

(** The client called the way [process_query] calls it. *)
Definition call_with (c : console) (E : env) (cfg : config) (query : string) : M pyval :=
  complete c E (azure_oai_endpoint cfg) (azure_oai_key cfg) (azure_oai_deployment cfg)
    (azure_search_endpoint cfg) (azure_search_key cfg) (azure_search_index cfg)
    query (azure_api_version cfg).

Definition requests_for (c : console) (cfg : config) (query : string) : list request :=
  requests c (fmt_opt (azure_oai_endpoint cfg)) (azure_oai_key cfg)
    (azure_oai_deployment cfg) (azure_search_endpoint cfg) (azure_search_key cfg)
    (azure_search_index cfg) query (azure_api_version cfg).


Fixpoint last_char (s : string) : option ascii :=
  match s with
  | EmptyString => None
  | String a EmptyString => Some a
  | String _ s' => last_char s'
  end.

(** ** The companions, by program *)

Definition transcribe (c : console) : env -> option string -> M string :=
  match c with
  | add_console => AddChatConsole.transcribe_audio
  | voice_console => VoiceChatConsole.transcribe_audio
  end.

Definition unrecognized_placeholder (c : console) : string :=
  match c with
  | add_console => AddChatConsole.unrecognized_speech
  | voice_console => VoiceChatConsole.unrecognized_speech
  end.

Definition recognition_placeholder (c : console) : string :=
  match c with
  | add_console => AddChatConsole.recognition_error
  | voice_console => VoiceChatConsole.recognition_error
  end.

Definition conversion_placeholder (c : console) : string :=
  match c with
  | add_console => AddChatConsole.conversion_error
  | voice_console => VoiceChatConsole.conversion_error
  end.

(** What the body of the [try] in [transcribe_audio] comes to. *)
Definition heard (E : env) (audio_file_path : option string) : exn + string :=
  match sr_audio_file E audio_file_path with
  | inl e => inl e
  | inr source =>
      match sr_record E source with
      | inl e => inl e
      | inr audio => sr_recognize_google E audio "th-TH"
      end
  end.

Definition synthesize_speech (c : console) : env -> pyval -> config -> M bool :=
  match c with
  | add_console => AddChatConsole.text_to_speech
  | voice_console => VoiceChatConsole.text_to_speech
  end.


Definition process (c : console) : env -> string -> config -> M unit :=
  match c with
  | add_console => AddChatConsole.process_query
  | voice_console => VoiceChatConsole.process_query
  end.

Definition error_text (c : console) (e : exn) : pyval :=
  match c with
  | add_console => PStr (AddChatConsole.error_prefix ++ exn_str e)
  | voice_console => PStr (VoiceChatConsole.error_prefix ++ exn_str e)
  end.

(** A computation that leaves the chat history and the clock alone. *)
Definition keeps_session {A : Type} (m : M A) : Prop :=
  forall w, w_messages (snd (m w)) = w_messages w /\ w_clock (snd (m w)) = w_clock w.

(** A computation that leaves the audio device as it found it. *)
Definition device_released (w w' : world) : Prop :=
  w_pa_live w' = w_pa_live w /\ w_streams_open w' = w_streams_open w.

(** [text[:50]] succeeds on strings and lists only. *)
Definition sliceable (v : pyval) : bool :=
  match v with
  | PStr _ | PList _ => true
  | _ => false
  end.

(** The SDK calls [synthesize] gets to make. *)
Definition synthesis_calls (E : env) (text : pyval) (cfg : config) : list sdk_call :=
  if sliceable text then
    SdkSpeechConfig (azure_speech_key cfg) (azure_speech_region cfg) ::
    match sdk_speech_config E (azure_speech_key cfg) (azure_speech_region cfg) with
    | inl _ => []
    | inr _ =>
        SdkSetVoice (azure_speech_voice cfg) ::
        match sdk_set_voice E (azure_speech_voice cfg) with
        | inl _ => []
        | inr _ =>
            SdkSynthesizer ::
            match sdk_synthesizer E with
            | inl _ => []
            | inr _ => [SdkSpeak text]
            end
        end
    end
  else [].

(** Every step of [synthesize] worked and the service reports the audio
    as synthesized. *)
Definition synthesis_completed (E : env) (text : pyval) (cfg : config) : bool :=
  sliceable text &&
  match sdk_speech_config E (azure_speech_key cfg) (azure_speech_region cfg),
        sdk_set_voice E (azure_speech_voice cfg), sdk_synthesizer E, sdk_speak E text with
  | inr _, inr _, inr _, inr r =>
      match reason r with
      | SynthesizingAudioCompleted => true
      | _ => false
      end
  | _, _, _, _ => false
  end.

Definition speech_configured (cfg : config) : bool :=
  truthy (azure_speech_key cfg) && truthy (azure_speech_region cfg).

Definition speaking_config : config :=
  mkConfig (Some "https://myresource.openai.azure.com") (Some "key") (Some "gpt")
           None None None (Some "2024-06-01")
           (Some "speechkey") (Some "southeastasia") (Some "th-TH-PremwadaNeural").

(** The world [process_query] calls the client in: the clock read once,
    the user's message appended, the query logged twice. *)
Definition asked (E : env) (query : string) (w : world) : world :=
  add_log (INFO, "[" ++ now_strftime E (w_clock w) ++ "] User Query: " ++ query)
    (add_session_log ("[" ++ now_strftime E (w_clock w) ++ "] User Query: " ++ query)
       (add_message (mkMessage user (PStr query) (now_strftime E (w_clock w)))
          (tick w))).

(** ** The rest of the two programs

    [validate_config], the connectivity test of
    [main_voice_chat_console.py], and the two blocks of [main] that call
    the functions above.  Of the display calls only [st.error] leaves a
    trace in the world, as in [process_query]. *)

(** [sep.join(l)] *)
Fixpoint join (sep : string) (l : list string) : string :=
  match l with
  | [] => EmptyString
  | s :: rest =>
      match rest with
      | [] => s
      | _ :: _ => s ++ sep ++ join sep rest
      end
  end.

Definition required_params : list (string * (config -> option string)) :=
  [ ("azure_oai_endpoint", azure_oai_endpoint);
    ("azure_oai_key", azure_oai_key);
    ("azure_oai_deployment", azure_oai_deployment) ].

(** [[param for param in required_params if not config[param]]] *)
Definition missing_params (cfg : config) : list string :=
  map fst (filter (fun p => negb (truthy (snd p cfg))) required_params).

(** [validate_config], word for word the same in both files. *)
Definition validate_config (cfg : config) : M bool :=
  match missing_params cfg with
  | [] => ret true
  | missing =>
      st_error ("Missing required configuration: " ++ join ", " missing) ;;
      ret false
  end.

(** The payload of the connectivity test. *)
Definition test_payload : pyval :=
  PDict [ ("messages", PList [PDict [("role", PStr "user"); ("content", PStr "Hello")]]);
          ("max_tokens", PInt 10) ].

Definition test_status_message (cfg : config) (r : response) : bool * string :=
  if Nat.eqb (status_code r) 200 then (true, "Connection successful")
  else if Nat.eqb (status_code r) 404 then
    (false, "Resource not found (404). Check deployment name '"
              ++ fmt_opt (azure_oai_deployment cfg) ++ "' and endpoint URL.")
  else if Nat.eqb (status_code r) 401 then
    (false, "Authentication failed (401). Check your API key.")
  else if Nat.eqb (status_code r) 403 then
    (false, "Access forbidden (403). Check your API key permissions.")
  else (false, "HTTP " ++ string_of_nat (status_code r) ++ ": " ++ text r).

Definition test_exception_message (e : exn) : bool * string :=
  if isinstance e cls_Timeout
  then (false, "Connection timeout. Check your network connection.")
  else if isinstance e cls_ConnectionError
  then (false, "Connection error. Check your endpoint URL.")
  else (false, "Connection test failed: " ++ exn_str e).

(** [test_azure_connection] of [main_voice_chat_console.py]. *)
Definition test_azure_connection (E : env) (cfg : config) : M (bool * string) :=
  try_except
    (endpoint <- VoiceChatConsole.validate_azure_endpoint_format (azure_oai_endpoint cfg) ;;
     match endpoint with
     | None => ret (false, "Invalid endpoint format")
     | Some endpoint =>
         if negb (truthy (Some endpoint)) then ret (false, "Invalid endpoint format")
         else
           response <- requests_post E
                         (mkRequest
                            (completions_url endpoint (azure_oai_deployment cfg)
                               (azure_api_version cfg))
                            (request_headers (azure_oai_key cfg)) test_payload 10) ;;
           ret (test_status_message cfg response)
     end)
    (fun e => ret (test_exception_message e)).

(** *** The blocks of [main] *)

(** The two prefixes by which [main] tells a placeholder from a
    transcription, and the two messages of the recording block. *)
Definition cannot_prefix (c : console) : string :=
  match c with
  | add_console => "‡πÑ‡∏°‡πà‡∏™‡∏≤‡∏°‡∏≤‡∏£‡∏ñ"
  | voice_console => "ไม่สามารถ"
  end.

Definition failure_prefix (c : console) : string :=
  match c with
  | add_console => "‡πÄ‡∏Å‡∏¥‡∏î‡∏Ç‡πâ‡∏≠‡∏ú‡∏¥‡∏î‡∏û‡∏•‡∏≤‡∏î"
  | voice_console => "เกิดข้อผิดพลาด"
  end.

Definition could_not_transcribe (c : console) : string :=
  match c with
  | add_console => "‚ùå Could not transcribe audio. Please try again."
  | voice_console => "❌ Could not transcribe audio. Please try again."
  end.

Definition failed_to_record (c : console) : string :=
  match c with
  | add_console => "‚ùå Failed to record audio. Please check your microphone."
  | voice_console => "❌ Failed to record audio. Please check your microphone."
  end.

(** [transcribed_text and not transcribed_text.startswith(...) and not
    transcribed_text.startswith(...)] *)
Definition accepted_transcription (c : console) (transcribed_text : string) : bool :=
  negb (String.eqb transcribed_text EmptyString)
  && negb (startswith transcribed_text (cannot_prefix c))
  && negb (startswith transcribed_text (failure_prefix c)).

Definition remove_file (name : string) (w : world) : world :=
  mkWorld (w_log w) (w_posts w) (w_sdk w) (w_messages w) (w_logs w)
          (w_ui w) (w_clock w) (w_pa_live w) (w_streams_open w)
          (filter (fun f => negb (String.eqb (fst f) name)) (w_files w)).

(** [try: os.remove(name)  except: pass]; what [os.remove] answers is
    [remove name]. *)
Definition os_remove_quietly (remove : string -> exn + unit) (name : string) : M unit :=
  try_except
    (fun w =>
       match remove name with
       | inr _ => (inr tt, remove_file name w)
       | inl e => (inl e, w)
       end)
    (fun _ => ret tt).

(** The block under the "Start Recording" button.  The flag
    [st.session_state.recording] comes in ([None]: not yet in the session)
    and goes out; between its two assignments only [record_audio] runs,
    and the second one comes before [process_query], whose [st.rerun]
    ends the run. *)
Definition main_start_recording (c : console) (E : env)
  (remove : string -> exn + unit) (duration : nat) (cfg : config)
  (recording : option bool) : M (option bool) :=
  valid <- validate_config cfg ;;
  if valid then
    if negb (match recording with Some b => b | None => false end) then
      audio_file_path <- record_audio E duration ;;
      (if truthy audio_file_path then
         transcribed_text <- transcribe c E audio_file_path ;;
         os_remove_quietly remove (fmt_opt audio_file_path) ;;
         if accepted_transcription c transcribed_text
         then process c E transcribed_text cfg
         else st_error (could_not_transcribe c)
       else st_error (failed_to_record c)) ;;
      ret (Some false)
    else ret (Some true)
  else ret recording.

(** The block under the "Send" button: [if text_input and
    validate_config(config): process_query(text_input, config)]. *)
Definition main_send_text (c : console) (E : env) (text_input : string) (cfg : config)
  : M unit :=
  if negb (String.eqb text_input EmptyString) then
    valid <- validate_config cfg ;;
    if valid then process c E text_input cfg else ret tt
  else ret tt.

(** *** Vocabulary for the statements about them *)

(** The computation leaves the part [f] of the world as it found it. *)
Definition leaves {X A : Type} (f : world -> X) (m : M A) : Prop :=
  forall w, f (snd (m w)) = f w.

(** All three required parameters are true for Python. *)
Definition all_required (cfg : config) : bool :=
  truthy (azure_oai_endpoint cfg) && truthy (azure_oai_key cfg)
  && truthy (azure_oai_deployment cfg).

(** The request of the connectivity test for endpoint [endpoint]. *)
Definition test_request (endpoint : string) (cfg : config) : request :=
  mkRequest (completions_url (VoiceChatConsole.fix_endpoint endpoint)
               (azure_oai_deployment cfg) (azure_api_version cfg))
            (request_headers (azure_oai_key cfg)) test_payload 10.

(** A field of a request's JSON body. *)
Definition body_field (k : string) (r : request) : option pyval :=
  match req_json r with
  | PDict items => dict_get k items
  | _ => None
  end.

Definition fallback_warning : level * string :=
  (WARNING, "Used fallback mode without search integration").

(** What [transcribe_audio] returns when the body of its [try] raised [e]. *)
Definition placeholder_for (c : console) (e : exn) : string :=
  match exn_kind_of e with
  | UnknownValueError => unrecognized_placeholder c
  | RequestError => recognition_placeholder c ++ exn_str e
  | _ => conversion_placeholder c ++ exn_str e
  end.

Definition load (c : console) : (string -> option string) -> config :=
  match c with
  | add_console => AddChatConsole.load_config
  | voice_console => VoiceChatConsole.load_config
  end.

(** An environment file that sets the three required variables and
    nothing else. *)
Definition bare_environment (name : string) : option string :=
  if String.eqb name "AZURE_OAI_ENDPOINT" then Some "https://myresource.openai.azure.com/"
  else if String.eqb name "AZURE_OAI_KEY" then Some "key"
  else if String.eqb name "AZURE_OAI_DEPLOYMENT" then Some "gpt"
  else None.

(** Every step of a recording of [duration] seconds works; the file is
    called [name] and the chunks read are [frames]. *)
Definition recording_works (E : env) (duration : nat) (name : string)
  (frames : list string) : Prop :=
  pa_init E = inr tt /\ pa_open E = inr tt /\
  chunk_count duration = inr (length frames) /\
  Forall2 (fun i data => stream_read E i = inr data) (seq 0 (length frames)) frames /\
  stream_stop E = inr tt /\ stream_close E = inr tt /\ pa_terminate E = inr tt /\
  mktemp E = inr name /\ wave_write E name frames = inr tt.

(** [w'] has the requests, the chat history and the clock of [w]. *)
Definition same_chat (w w' : world) : Prop :=
  w_posts w' = w_posts w /\ w_messages w' = w_messages w /\ w_clock w' = w_clock w.

(** An outside in which the recognizer returns [text]. *)
Definition hearing (text : string) : env :=
  outside_with answering (fun _ _ => inr tt) (fun _ => inr spoken)
               (inr tt) (fun _ => inr "frame") (fun _ _ => inr text).

Definition removing : string -> exn + unit := fun _ => inr tt.

(** The two lines [process_query] adds to [st.session_state.logs]. *)
Definition query_line (E : env) (query : string) (w : world) : string :=
  "[" ++ now_strftime E (w_clock w) ++ "] User Query: " ++ query.

Definition success_line (E : env) (w : world) : string :=
  "[" ++ now_strftime E (w_clock w) ++ "] Successfully received AI response".

Definition error_line (E : env) (w : world) (e : exn) : string :=
  "[" ++ now_strftime E (w_clock w) ++ "] Error: " ++ exn_str e.

Definition warning_line (E : env) (w : world) : string :=
  "[" ++ now_strftime E (w_clock w) ++ "] Warning: Search parameters missing".

(** The text of [error_text], as [st.error] shows it. *)
Definition error_string (c : console) (e : exn) : string :=
  match c with
  | add_console => AddChatConsole.error_prefix ++ exn_str e
  | voice_console => VoiceChatConsole.error_prefix ++ exn_str e
  end.

(** [process_query] gets as far as the client: always in
    [main_voice_chat_console.py], with all three search fields in
    [main_add_chatconsole.py]. *)
Definition reaches_client (c : console) (cfg : config) : bool :=
  match c with
  | add_console =>
      py_all [azure_search_endpoint cfg; azure_search_key cfg; azure_search_index cfg]
  | voice_console => true
  end.

(** * Properties *)

(** ** The variant list *)

Lemma last_of_two {A : Type} (l : list A) (a b d : A) :
  last (l ++ [a; b]) d = b.
Proof.
  change (last (l ++ [a] ++ [b]) d = b).
  rewrite app_assoc. apply last_last.
Qed.

Lemma py_all_present_count (a b c : option string) :
  py_all [a; b; c] = Nat.eqb (present_count a b c) 3.
Proof.
  unfold py_all, present_count; simpl.
  destruct (truthy a), (truthy b), (truthy c); reflexivity.
Qed.

Lemma voice_payloads_without_search (a b c : option string) (query : string) :
  py_all [a; b; c] = false ->
  VoiceChatConsole.payloads_to_try a b c query = [payload_fallback query].
Proof.
  intros Hall. unfold VoiceChatConsole.payloads_to_try. rewrite Hall. reflexivity.
Qed.

(** In [main_add_chatconsole.py] the guard sits in [process_query]: when
    not all three search fields are true no request is sent, and the
    assistant's message is the fixed text. *)
Lemma add_process_query_search_missing (E : env) (query : string) (cfg : config)
  (w : world) :
  py_all [azure_search_endpoint cfg; azure_search_key cfg; azure_search_index cfg]
    = false ->
  fst (AddChatConsole.process_query E query cfg w) = inr tt /\
  w_posts (snd (AddChatConsole.process_query E query cfg w)) = w_posts w /\
  w_messages (snd (AddChatConsole.process_query E query cfg w)) =
    (w_messages w ++
      [ mkMessage user (PStr query) (now_strftime E (w_clock w));
        mkMessage assistant (PStr AddChatConsole.search_unavailable)
                  (now_strftime E (S (w_clock w))) ])%list.
Proof.
  intros Hall.
  unfold AddChatConsole.process_query, bind, try_except, now, session_append_message,
    session_append_log, logger, st_rerun, modify.
  cbv beta. rewrite Hall. simpl.
  rewrite <- app_assoc. simpl. auto.
Qed.

(** C1, as amended: with all three search fields present (set and not
    empty), [main_add_chatconsole.py] builds the modern, legacy, minimal and
    no-search bodies in this order, and [main_voice_chat_console.py] builds
    the modern, legacy and no-search bodies in this order; it has no
    minimal-schema body. *)
Theorem C1_variant_order (search_endpoint search_key search_index : option string)
  (query : string) :
  present_count search_endpoint search_key search_index = 3 ->
  AddChatConsole.payloads_to_try search_endpoint search_key search_index query =
    [ payload_azure_search search_endpoint search_key search_index query;
      payload_cognitive_search search_endpoint search_key search_index query;
      payload_simplified search_endpoint search_key search_index query;
      payload_fallback query ] /\
  VoiceChatConsole.payloads_to_try search_endpoint search_key search_index query =
    [ payload_azure_search search_endpoint search_key search_index query;
      payload_cognitive_search search_endpoint search_key search_index query;
      payload_fallback query ].
Proof.
  intros Hcount. split; [reflexivity|].
  unfold VoiceChatConsole.payloads_to_try.
  rewrite py_all_present_count, Hcount. reflexivity.
Qed.

Lemma C1_variant_order_witness :
  present_count (Some "https://s.search.windows.net") (Some "skey") (Some "idx") = 3 /\
  length (VoiceChatConsole.payloads_to_try
            (Some "https://s.search.windows.net") (Some "skey") (Some "idx") "hi") = 3.
Proof.
  split; [reflexivity|].
  rewrite (proj2 (C1_variant_order (Some "https://s.search.windows.net")
                    (Some "skey") (Some "idx") "hi" eq_refl)).
  reflexivity.
Defined.

(** C1 as stated fails on [main_voice_chat_console.py]: with all three
    search fields present its list is not A, B, C, D. *)
Lemma C1_voice_list_is_not_ABCD :
  present_count (Some "https://s.search.windows.net") (Some "skey") (Some "idx") = 3 /\
  VoiceChatConsole.payloads_to_try
    (Some "https://s.search.windows.net") (Some "skey") (Some "idx") "hi" <>
  [ payload_azure_search (Some "https://s.search.windows.net") (Some "skey") (Some "idx") "hi";
    payload_cognitive_search (Some "https://s.search.windows.net") (Some "skey") (Some "idx") "hi";
    payload_simplified (Some "https://s.search.windows.net") (Some "skey") (Some "idx") "hi";
    payload_fallback "hi" ].
Proof.
  split; [reflexivity|].
  intros Heq. apply (f_equal (@length pyval)) in Heq. discriminate Heq.
Qed.

(** C2, as amended: with one or two of the three search fields present,
    the list of [main_voice_chat_console.py] is the no-search body alone,
    so it holds no search-enabled body; the list of
    [main_add_chatconsole.py] holds all four bodies whatever the search
    fields are, and there [process_query] stops such a configuration
    before the client is called: no request is sent and the assistant's
    message is the fixed text. *)
Theorem C2_partial_search_is_disabled (E : env) (cfg : config) (query : string)
  (w : world) :
  present_count (azure_search_endpoint cfg) (azure_search_key cfg)
                (azure_search_index cfg) = 1 \/
  present_count (azure_search_endpoint cfg) (azure_search_key cfg)
                (azure_search_index cfg) = 2 ->
  VoiceChatConsole.payloads_to_try (azure_search_endpoint cfg) (azure_search_key cfg)
    (azure_search_index cfg) query = [payload_fallback query] /\
  existsb search_enabled
    (VoiceChatConsole.payloads_to_try (azure_search_endpoint cfg) (azure_search_key cfg)
       (azure_search_index cfg) query) = false /\
  AddChatConsole.payloads_to_try (azure_search_endpoint cfg) (azure_search_key cfg)
    (azure_search_index cfg) query =
    [ payload_azure_search (azure_search_endpoint cfg) (azure_search_key cfg)
        (azure_search_index cfg) query;
      payload_cognitive_search (azure_search_endpoint cfg) (azure_search_key cfg)
        (azure_search_index cfg) query;
      payload_simplified (azure_search_endpoint cfg) (azure_search_key cfg)
        (azure_search_index cfg) query;
      payload_fallback query ] /\
  w_posts (snd (AddChatConsole.process_query E query cfg w)) = w_posts w /\
  last (w_messages (snd (AddChatConsole.process_query E query cfg w)))
       (mkMessage user PNone "") =
    mkMessage assistant (PStr AddChatConsole.search_unavailable)
              (now_strftime E (S (w_clock w))).
Proof.
  intros Hcount.
  assert (Hall : py_all [azure_search_endpoint cfg; azure_search_key cfg;
                         azure_search_index cfg] = false).
  { rewrite py_all_present_count. destruct Hcount as [-> | ->]; reflexivity. }
  split; [exact (voice_payloads_without_search _ _ _ _ Hall)|].
  split.
  - rewrite (voice_payloads_without_search _ _ _ _ Hall). reflexivity.
  - split; [reflexivity|].
    destruct (add_process_query_search_missing E query cfg w Hall) as (_ & Hp & Hm).
    split; [exact Hp|].
    rewrite Hm. apply last_of_two.
Qed.

Lemma C2_partial_search_is_disabled_witness :
  present_count (azure_search_endpoint partial_config) (azure_search_key partial_config)
                (azure_search_index partial_config) = 1 /\
  VoiceChatConsole.payloads_to_try (Some "https://s.search.windows.net") None None "hi" =
    [payload_fallback "hi"] /\
  w_posts (snd (AddChatConsole.process_query search_down "hi" partial_config world0)) = [].
Proof.
  split; [reflexivity|].
  destruct (C2_partial_search_is_disabled search_down partial_config "hi" world0
              (or_introl eq_refl)) as (Hvoice & _ & _ & Hposts & _).
  split; [exact Hvoice | exact Hposts].
Defined.

(** C2 as stated fails on [main_add_chatconsole.py]: with only the search
    endpoint present its list still holds search-enabled bodies. *)
Lemma C2_add_list_keeps_search_bodies :
  present_count (Some "https://s.search.windows.net") None None = 1 /\
  existsb search_enabled
    (AddChatConsole.payloads_to_try (Some "https://s.search.windows.net") None None "hi")
    = true.
Proof. split; reflexivity. Qed.

(** C3, as amended: with none of the three search fields present, the
    list of [main_voice_chat_console.py] is the no-search body alone; the
    list of [main_add_chatconsole.py] still holds all four bodies, and there
    [process_query] sends no request for such a configuration. *)
Theorem C3_no_search_only_fallback (E : env) (cfg : config) (query : string)
  (w : world) :
  present_count (azure_search_endpoint cfg) (azure_search_key cfg)
                (azure_search_index cfg) = 0 ->
  VoiceChatConsole.payloads_to_try (azure_search_endpoint cfg) (azure_search_key cfg)
    (azure_search_index cfg) query = [payload_fallback query] /\
  AddChatConsole.payloads_to_try (azure_search_endpoint cfg) (azure_search_key cfg)
    (azure_search_index cfg) query =
    [ payload_azure_search (azure_search_endpoint cfg) (azure_search_key cfg)
        (azure_search_index cfg) query;
      payload_cognitive_search (azure_search_endpoint cfg) (azure_search_key cfg)
        (azure_search_index cfg) query;
      payload_simplified (azure_search_endpoint cfg) (azure_search_key cfg)
        (azure_search_index cfg) query;
      payload_fallback query ] /\
  w_posts (snd (AddChatConsole.process_query E query cfg w)) = w_posts w.
Proof.
  intros Hcount.
  assert (Hall : py_all [azure_search_endpoint cfg; azure_search_key cfg;
                         azure_search_index cfg] = false).
  { rewrite py_all_present_count, Hcount. reflexivity. }
  split; [exact (voice_payloads_without_search _ _ _ _ Hall)|].
  split; [reflexivity|].
  exact (proj1 (proj2 (add_process_query_search_missing E query cfg w Hall))).
Qed.

Lemma C3_no_search_only_fallback_witness :
  present_count (azure_search_endpoint plain_config) (azure_search_key plain_config)
                (azure_search_index plain_config) = 0 /\
  VoiceChatConsole.payloads_to_try None None None "hi" = [payload_fallback "hi"].
Proof.
  split; [reflexivity|].
  exact (proj1 (C3_no_search_only_fallback search_down plain_config "hi" world0 eq_refl)).
Defined.

(** C3 as stated fails on [main_add_chatconsole.py]: with no search field
    present its list is not the no-search body alone. *)
Lemma C3_add_list_is_not_fallback_alone :
  present_count None None None = 0 /\
  AddChatConsole.payloads_to_try None None None "hi" <> [payload_fallback "hi"].
Proof.
  split; [reflexivity|].
  intros Heq. apply (f_equal (@length pyval)) in Heq. discriminate Heq.
Qed.
(** ** Cutting a string *)

(** [s[:n]] counts characters, not bytes: a Thai letter is three bytes. *)
Example slice_counts_characters :
  str_slice_to 3 "ไม่สามารถ" = "ไม่" /\
  String.length "ไม่" = 9 /\
  str_slice_to 3 "abcdef" = "abc" /\
  str_slice_to 3 "ab" = "ab" /\
  str_slice_to 0 "ab" = "".
Proof. repeat split; reflexivity. Qed.

(** On text without a continuation byte, ASCII text for one, the cut is
    the cut of the bytes. *)
Lemma str_slice_to_bytes (s : string) :
  forallb (fun a => negb (continuation a)) (list_ascii_of_string s) = true ->
  forall n, str_slice_to n s = substring 0 n s.
Proof.
  induction s as [| a s IH]; intros Hall n.
  - destruct n; reflexivity.
  - cbn [list_ascii_of_string forallb] in Hall.
    apply andb_true_iff in Hall. destruct Hall as [Ha Hs].
    apply negb_true_iff in Ha. cbn [str_slice_to]. rewrite Ha.
    destruct n as [| n]; [reflexivity|].
    cbn [substring]. rewrite (IH Hs n). reflexivity.
Qed.

(** The message [main_voice_chat_console.py] keeps of a refused request
    whose body is not JSON holds the first 200 characters of the body. *)
Example status_message_keeps_200_characters :
  VoiceChatConsole.status_error_msg search_down 1
    (status_response 500 (String.concat "" (repeat "ก" 250))) =
  "Payload 1 failed - Status: 500, Response: " ++ String.concat "" (repeat "ก" 200).
Proof. vm_compute. reflexivity. Qed.


(** ** One pass of the loop, and the loop *)

Lemma pure_ret {A : Type} (a : A) : pure_op (ret a).
Proof. intros w. reflexivity. Qed.

Lemma pure_raise {A : Type} (e : exn) : pure_op (@raise A e).
Proof. intros w. reflexivity. Qed.

Lemma pure_bind {A B : Type} (c : M A) (k : A -> M B) :
  pure_op c -> (forall a, pure_op (k a)) -> pure_op (bind c k).
Proof.
  intros Hc Hk w. unfold bind.
  rewrite (Hc w), (Hc world0). simpl.
  destruct (fst (c world0)) as [e | a]; [reflexivity|].
  rewrite (Hk a w). reflexivity.
Qed.

Lemma pure_getitem_key (E : env) (v : pyval) (k : string) :
  pure_op (getitem_key E v k).
Proof.
  unfold getitem_key. destruct v; try apply pure_raise.
  destruct (dict_get k items); [apply pure_ret | apply pure_raise].
Qed.

Lemma pure_getitem_0 (E : env) (v : pyval) : pure_op (getitem_0 E v).
Proof.
  unfold getitem_0. destruct v; try apply pure_raise.
  - destruct s; [apply pure_raise | apply pure_ret].
  - destruct items; [apply pure_raise | apply pure_ret].
Qed.

Lemma extract_content_pure (E : env) (result : pyval) (w : world) :
  extract_content E result w = (extracted E result, w).
Proof.
  unfold extracted.
  assert (H : pure_op (extract_content E result)).
  { unfold extract_content.
    apply pure_bind; [apply pure_getitem_key|]. intros choices.
    apply pure_bind; [apply pure_getitem_0|]. intros choice.
    apply pure_bind; [apply pure_getitem_key|]. intros message.
    apply pure_getitem_key. }
  apply H.
Qed.

Lemma touch_nil (w : world) : touch [] [] w = w.
Proof. destruct w. unfold touch. simpl. rewrite !app_nil_r. reflexivity. Qed.

Lemma touch_touch (l1 l2 : list (level * string)) (p1 p2 : list request) (w : world) :
  touch l2 p2 (touch l1 p1 w) = touch (l1 ++ l2) (p1 ++ p2) w.
Proof. unfold touch. simpl. rewrite !app_assoc. reflexivity. Qed.

Lemma add_log_touch (x : level * string) (w : world) : add_log x w = touch [x] [] w.
Proof. unfold add_log, touch. rewrite app_nil_r. reflexivity. Qed.

Lemma add_post_touch (r : request) (w : world) : add_post r w = touch [] [r] w.
Proof. unfold add_post, touch. rewrite app_nil_r. reflexivity. Qed.

Ltac to_touch :=
  repeat rewrite add_log_touch; repeat rewrite add_post_touch;
  repeat rewrite touch_touch; simpl app.

Ltac attempt_cases E w url headers payload :=
  unfold pass_of, attempt_log, answered, failure_level, failure_msg, outcome_of,
    announcement, fallback_test;
  unfold try_except, bind, logger, requests_post, modify, lift, ret, raise; simpl;
  destruct (http_post E (w_posts w) (mkRequest url headers payload 60)) as [e | r];
  simpl; [to_touch; reflexivity|];
  destruct (Nat.eqb (status_code r) 200); simpl; [|to_touch; reflexivity];
  destruct (json r) as [e | result]; simpl; [to_touch; reflexivity|].

Lemma add_attempt_run (E : env) (url : string) (headers : list (string * pyval))
  (n i : nat) (payload : pyval) (w : world) :
  AddChatConsole.attempt E url headers i payload w =
  (inr (pass_of add_console E i (http_post E (w_posts w) (mkRequest url headers payload 60))),
   touch (attempt_log add_console E n i
            (http_post E (w_posts w) (mkRequest url headers payload 60)))
         [mkRequest url headers payload 60] w).
Proof.
  unfold AddChatConsole.attempt.
  attempt_cases E w url headers payload.
  destruct (Nat.eqb i 4); simpl; rewrite extract_content_pure;
    destruct (extracted E result); simpl; to_touch; reflexivity.
Qed.

Lemma voice_attempt_run (E : env) (url : string) (headers : list (string * pyval))
  (n i : nat) (payload : pyval) (w : world) :
  VoiceChatConsole.attempt E url headers n i payload w =
  (inr (pass_of voice_console E i
          (http_post E (w_posts w) (mkRequest url headers payload 60))),
   touch (attempt_log voice_console E n i
            (http_post E (w_posts w) (mkRequest url headers payload 60)))
         [mkRequest url headers payload 60] w).
Proof.
  unfold VoiceChatConsole.attempt.
  attempt_cases E w url headers payload.
  destruct (Nat.eqb i n); simpl; rewrite extract_content_pure;
    destruct (extracted E result); simpl; to_touch; reflexivity.
Qed.

Lemma answered_outcome (E : env) (a : exn + response) (content : pyval) :
  outcome_of E a = Answered content -> answered E a = true.
Proof. intros Ho. unfold answered. rewrite Ho. reflexivity. Qed.

Lemma not_answered_rejected (E : env) (a : exn + response) (r : response) :
  outcome_of E a = Rejected r -> answered E a = false.
Proof. intros Ho. unfold answered. rewrite Ho. reflexivity. Qed.

Lemma not_answered_broke (E : env) (a : exn + response) (e : exn) :
  outcome_of E a = Broke e -> answered E a = false.
Proof. intros Ho. unfold answered. rewrite Ho. reflexivity. Qed.

Ltac loop_by attempt_run n :=
  let payloads := fresh "payloads" in
  let payload := fresh "payload" in
  let IH := fresh "IH" in
  let Ho := fresh "Ho" in
  intros payloads; induction payloads as [| payload payloads IH];
  intros i last_error w;
  cbn [AddChatConsole.try_payloads VoiceChatConsole.try_payloads map answers
       seen seen_log loop_result length firstn];
  [ unfold ret; rewrite touch_nil; reflexivity |];
  unfold bind; rewrite (attempt_run _ _ _ n); unfold pass_of;
  match goal with
  | |- context [outcome_of ?E ?a] =>
      destruct (outcome_of E a) eqn:Ho;
      [ rewrite (answered_outcome _ _ _ Ho)
      | rewrite (not_answered_rejected _ _ _ Ho)
      | rewrite (not_answered_broke _ _ _ Ho) ]
  end;
  [ unfold ret; cbn [seen_log length firstn]; rewrite app_nil_r; reflexivity
  | rewrite IH; rewrite touch_touch; reflexivity
  | rewrite IH; rewrite touch_touch; reflexivity ].

Lemma add_loop_run (E : env) (url : string) (headers : list (string * pyval)) (n : nat) :
  forall (payloads : list pyval) (i : nat) (last_error : option string) (w : world),
  AddChatConsole.try_payloads E url headers i payloads last_error w =
  (inr (loop_result add_console E i
          (answers E (w_posts w) (map (fun p => mkRequest url headers p 60) payloads))
          last_error),
   touch
     (seen_log add_console E n i
        (seen E (answers E (w_posts w)
                   (map (fun p => mkRequest url headers p 60) payloads))))
     (firstn
        (length (seen E (answers E (w_posts w)
                           (map (fun p => mkRequest url headers p 60) payloads))))
        (map (fun p => mkRequest url headers p 60) payloads))
     w).
Proof. loop_by add_attempt_run n. Qed.

Lemma voice_loop_run (E : env) (url : string) (headers : list (string * pyval)) (n : nat) :
  forall (payloads : list pyval) (i : nat) (last_error : option string) (w : world),
  VoiceChatConsole.try_payloads E url headers n i payloads last_error w =
  (inr (loop_result voice_console E i
          (answers E (w_posts w) (map (fun p => mkRequest url headers p 60) payloads))
          last_error),
   touch
     (seen_log voice_console E n i
        (seen E (answers E (w_posts w)
                   (map (fun p => mkRequest url headers p 60) payloads))))
     (firstn
        (length (seen E (answers E (w_posts w)
                           (map (fun p => mkRequest url headers p 60) payloads))))
        (map (fun p => mkRequest url headers p 60) payloads))
     w).
Proof. loop_by voice_attempt_run n. Qed.

Lemma fix_endpoint_truthy (endpoint : string) :
  truthy (Some (VoiceChatConsole.fix_endpoint endpoint)) = true.
Proof.
  unfold VoiceChatConsole.fix_endpoint, startswith.
  destruct (rstrip "/" endpoint) as [| a s]; [reflexivity|].
  destruct (String.prefix "https://" (String a s)); reflexivity.
Qed.

Lemma validate_endpoint_run (endpoint : string) (w : world) :
  truthy (Some endpoint) = true ->
  VoiceChatConsole.validate_azure_endpoint_format (Some endpoint) w =
  (inr (Some (VoiceChatConsole.fix_endpoint endpoint)),
   touch (prelude_log voice_console endpoint) [] w).
Proof.
  intros Htrue.
  unfold VoiceChatConsole.validate_azure_endpoint_format, prelude_log.
  rewrite Htrue. cbn [negb].
  destruct (negb (py_in "openai.azure.com" (VoiceChatConsole.fix_endpoint endpoint)));
    unfold bind, logger, modify, ret.
  - rewrite add_log_touch. reflexivity.
  - rewrite touch_nil. reflexivity.
Qed.

(** A call of the client, read off the answers it gets. *)
Lemma complete_run (c : console) (E : env) (endpoint : string)
  (api_key deployment search_endpoint search_key search_index : option string)
  (query : string) (api_version : option string) (w : world) :
  truthy (Some endpoint) = true ->
  complete c E (Some endpoint) api_key deployment search_endpoint search_key
    search_index query api_version w =
  (call_result
     (loop_result c E 1
        (answers E (w_posts w)
           (requests c endpoint api_key deployment search_endpoint search_key
              search_index query api_version)) None),
   touch
     (prelude_log c endpoint ++
      seen_log c E (length (payloads c search_endpoint search_key search_index query)) 1
        (seen E (answers E (w_posts w)
                   (requests c endpoint api_key deployment search_endpoint search_key
                      search_index query api_version))) ++
      closing_log
        (loop_result c E 1
           (answers E (w_posts w)
              (requests c endpoint api_key deployment search_endpoint search_key
                 search_index query api_version)) None))
     (firstn
        (length (seen E (answers E (w_posts w)
                           (requests c endpoint api_key deployment search_endpoint
                              search_key search_index query api_version))))
        (requests c endpoint api_key deployment search_endpoint search_key
           search_index query api_version))
     w).
Proof.
  intros Htrue. destruct c.
  - unfold complete, AddChatConsole.call_azure_openai_with_search_rest, requests,
      payloads, normalized, prelude_log.
    unfold bind at 1. unfold ret at 1. unfold bind.
    rewrite (add_loop_run E _ _
               (length (AddChatConsole.payloads_to_try search_endpoint search_key
                          search_index query))).
    destruct (loop_result add_console E 1 _ None) as [content | last_error];
      unfold closing_log, call_result, ret, raise, logger, modify.
    + rewrite app_nil_r. reflexivity.
    + to_touch. rewrite app_nil_r. reflexivity.
  - unfold complete, VoiceChatConsole.call_azure_openai_with_search_rest, requests,
      payloads, normalized.
    unfold bind at 1. rewrite (validate_endpoint_run endpoint w Htrue).
    rewrite fix_endpoint_truthy. cbn [negb].
    unfold bind. rewrite voice_loop_run. cbn [w_posts touch]. rewrite app_nil_r.
    destruct (loop_result voice_console E 1 _ None) as [content | last_error];
      unfold closing_log, call_result, ret, raise, logger, modify;
      to_touch; rewrite ?app_nil_r; reflexivity.
Qed.

(** ** What the answers decide *)

Lemma not_200_not_answered (E : env) (a : exn + response) :
  not_200 a -> answered E a = false.
Proof.
  destruct a as [e | r]; intros H; unfold answered, outcome_of; [reflexivity|].
  simpl in H. apply Nat.eqb_neq in H. rewrite H. reflexivity.
Qed.

Lemma malformed_200_not_answered (E : env) (a : exn + response) :
  malformed_200 E a -> answered E a = false.
Proof.
  destruct a as [e | r]; intros H; [contradiction|].
  destruct H as [Hs Hbody]. unfold answered, outcome_of.
  rewrite Hs. cbn [Nat.eqb].
  destruct (json r) as [e | result]; [reflexivity|].
  destruct (extracted E result); [reflexivity | contradiction].
Qed.

Lemma failed_not_answered (E : env) (l : list (exn + response)) :
  Forall (fun a => not_200 a \/ malformed_200 E a) l ->
  Forall (fun a => answered E a = false) l.
Proof.
  intros H. eapply Forall_impl; [|exact H].
  intros a [Ha | Ha]; [apply not_200_not_answered | apply malformed_200_not_answered];
    exact Ha.
Qed.

Lemma answers_length (E : env) (rs : list request) :
  forall sent, length (answers E sent rs) = length rs.
Proof.
  induction rs as [| r rs IH]; intros sent; simpl; [reflexivity|].
  rewrite IH. reflexivity.
Qed.

Lemma seen_all_failed (E : env) (l : list (exn + response)) :
  Forall (fun a => answered E a = false) l -> seen E l = l.
Proof.
  induction 1 as [| a l Ha _ IH]; simpl; [reflexivity|].
  rewrite Ha, IH. reflexivity.
Qed.

Lemma seen_first_answer (E : env) (pre post : list (exn + response))
  (a : exn + response) :
  Forall (fun x => answered E x = false) pre ->
  answered E a = true ->
  seen E (pre ++ a :: post) = (pre ++ [a])%list.
Proof.
  intros Hpre Ha. induction Hpre as [| x pre Hx _ IH]; simpl.
  - rewrite Ha. reflexivity.
  - rewrite Hx, IH. reflexivity.
Qed.

Lemma not_answered_outcome (E : env) (a : exn + response) :
  answered E a = false ->
  forall content, outcome_of E a <> Answered content.
Proof.
  unfold answered. intros H content Ho. rewrite Ho in H. discriminate H.
Qed.

Lemma loop_result_failed_step (c : console) (E : env) (i : nat) (a : exn + response)
  (l : list (exn + response)) (last_error : option string) :
  answered E a = false ->
  loop_result c E i (a :: l) last_error =
  loop_result c E (S i) l (Some (failure_msg c E i a)).
Proof.
  intros Ha. cbn [loop_result].
  pose proof (not_answered_outcome E a Ha) as Hno.
  destruct (outcome_of E a) as [content | r | e]; [|reflexivity|reflexivity].
  exfalso. exact (Hno content eq_refl).
Qed.

Lemma loop_result_all_failed (c : console) (E : env) (d : exn + response) :
  forall (l : list (exn + response)) (i : nat) (a : exn + response)
         (last_error : option string),
  Forall (fun x => answered E x = false) (a :: l) ->
  loop_result c E i (a :: l) last_error =
  Exhausted (Some (failure_msg c E (i + length l) (last (a :: l) d))).
Proof.
  induction l as [| b l IH]; intros i a last_error Hall.
  - inversion Hall as [| ? ? Ha _]; subst.
    rewrite (loop_result_failed_step c E i a [] last_error Ha).
    cbn [loop_result length last]. rewrite Nat.add_0_r. reflexivity.
  - inversion Hall as [| ? ? Ha Hrest]; subst.
    rewrite (loop_result_failed_step c E i a (b :: l) last_error Ha).
    rewrite (IH (S i) b _ Hrest).
    cbn [length]. rewrite Nat.add_succ_r. reflexivity.
Qed.

Lemma loop_result_first_answer (c : console) (E : env) (a : exn + response)
  (content : pyval) (post : list (exn + response)) :
  outcome_of E a = Answered content ->
  forall (pre : list (exn + response)) (i : nat) (last_error : option string),
  Forall (fun x => answered E x = false) pre ->
  loop_result c E i (pre ++ a :: post) last_error = Returned content.
Proof.
  intros Ho pre. induction pre as [| x pre IH]; intros i last_error Hpre.
  - cbn [app loop_result]. rewrite Ho. reflexivity.
  - inversion Hpre as [| ? ? Hx Hrest]; subst.
    change ((x :: pre) ++ a :: post)%list with (x :: (pre ++ a :: post))%list.
    rewrite (loop_result_failed_step c E i x _ last_error Hx).
    apply IH. exact Hrest.
Qed.

(** *** Lines among other lines *)

Lemma scattered_app_l {A : Type} (pre sub l : list A) :
  scattered_in sub l -> scattered_in sub (pre ++ l).
Proof.
  intros H. induction pre as [| x pre IH]; simpl; [exact H|].
  apply scattered_skip. exact IH.
Qed.

Lemma scattered_app_r {A : Type} (sub l post : list A) :
  scattered_in sub l -> scattered_in sub (l ++ post).
Proof.
  induction 1 as [l | x sub l _ IH | x sub l _ IH]; simpl.
  - apply scattered_nil.
  - apply scattered_keep. exact IH.
  - apply scattered_skip. exact IH.
Qed.

Lemma attempt_log_failed (c : console) (E : env) (n i : nat) (a : exn + response) :
  answered E a = false ->
  exists before,
    attempt_log c E n i a = (before ++ [(failure_level E a, failure_msg c E i a)])%list.
Proof.
  intros Ha. unfold attempt_log. rewrite Ha.
  eexists ((INFO, announcement c n i) :: _). reflexivity.
Qed.

Lemma failures_in_seen_log (c : console) (E : env) (n : nat) :
  forall (l rest : list (exn + response)) (i : nat),
  Forall (fun x => answered E x = false) l ->
  scattered_in (failure_records c E i l) (seen_log c E n i (l ++ rest)).
Proof.
  induction l as [| a l IH]; intros rest i Hall.
  - apply scattered_nil.
  - inversion Hall as [| ? ? Ha Hrest]; subst.
    cbn [app seen_log failure_records].
    destruct (attempt_log_failed c E n i a Ha) as [before ->].
    rewrite <- app_assoc. apply scattered_app_l.
    cbn [app]. apply scattered_keep. apply IH. exact Hrest.
Qed.

Lemma requests_not_nil (c : console) (endpoint : string)
  (api_key deployment search_endpoint search_key search_index : option string)
  (query : string) (api_version : option string) :
  requests c endpoint api_key deployment search_endpoint search_key search_index
    query api_version <> [].
Proof.
  unfold requests, payloads. destruct c.
  - discriminate.
  - unfold VoiceChatConsole.payloads_to_try.
    destruct (py_all [search_endpoint; search_key; search_index]); discriminate.
Qed.

Lemma requests_url (c : console) (endpoint : string)
  (api_key deployment search_endpoint search_key search_index : option string)
  (query : string) (api_version : option string) :
  Forall (fun r => req_url r =
                   completions_url (normalized c endpoint) deployment api_version)
    (requests c endpoint api_key deployment search_endpoint search_key search_index
       query api_version).
Proof.
  unfold requests. apply Forall_forall. intros r Hin.
  apply in_map_iff in Hin. destruct Hin as (p & <- & _). reflexivity.
Qed.

(** ** A call of the completion client *)

Section CompletionCall.

Variables (c : console) (E : env) (endpoint : string).
Variables (api_key deployment search_endpoint search_key search_index : option string).
Variables (query : string) (api_version : option string) (w : world).

Let rs : list request :=
  requests c endpoint api_key deployment search_endpoint search_key search_index
    query api_version.

Let got : list (exn + response) := answers E (w_posts w) rs.

Let run : (exn + pyval) * world :=
  complete c E (Some endpoint) api_key deployment search_endpoint search_key
    search_index query api_version w.

Lemma run_read :
  truthy (Some endpoint) = true ->
  run =
  (call_result (loop_result c E 1 got None),
   touch
     (prelude_log c endpoint ++
      seen_log c E (length (payloads c search_endpoint search_key search_index query)) 1
        (seen E got) ++
      closing_log (loop_result c E 1 got None))
     (firstn (length (seen E got)) rs) w).
Proof. intros Htrue. exact (complete_run c E endpoint _ _ _ _ _ _ _ w Htrue). Qed.

(** C4, as amended: when every submission fails to return a 200 response,
    the call raises a plain [Exception] whose text is the fixed sentence
    followed by the message of the last attempt only; all variants have
    been submitted, in order, and the message of each attempt, in
    submission order, is in the log, not in the exception. *)
Theorem C4_all_variants_fail :
  truthy (Some endpoint) = true ->
  Forall not_200 got ->
  fst run =
    inl (Exception ("All API payload structures failed. Last error: "
                      ++ failure_msg c E (length got) (last got (inl no_exn)))) /\
  w_posts (snd run) = (w_posts w ++ rs)%list /\
  exists lines,
    w_log (snd run) = (w_log w ++ lines)%list /\
    scattered_in (failure_records c E 1 got) lines.
Proof.
  intros Htrue Hall.
  assert (Hfail : Forall (fun a => answered E a = false) got).
  { apply failed_not_answered. eapply Forall_impl; [|exact Hall].
    intros a Ha. left. exact Ha. }
  rewrite (run_read Htrue). cbn [fst snd touch w_posts w_log].
  rewrite (seen_all_failed E got Hfail).
  assert (Hlen : length got = length rs) by apply answers_length.
  destruct got as [| a l] eqn:Egot.
  { exfalso. apply (requests_not_nil c endpoint api_key deployment search_endpoint
                      search_key search_index query api_version).
    apply length_zero_iff_nil. symmetry. exact Hlen. }
  rewrite (loop_result_all_failed c E (inl no_exn) l 1 a None Hfail).
  split; [reflexivity|].
  split.
  - rewrite Hlen. rewrite firstn_all. reflexivity.
  - eexists. split; [reflexivity|].
    apply scattered_app_l. apply scattered_app_r.
    rewrite <- (app_nil_r (a :: l)) at 2.
    apply failures_in_seen_log. exact Hfail.
Qed.

(** C5, as amended: the candidate bodies are submitted in list order, each
    at most once; the call stops at the first response with status 200
    whose JSON body decodes and holds [choices[0].message.content], and
    returns that content; every earlier answer -- another status, a
    timeout or connection failure or other exception, or a response with
    status 200 whose body is malformed -- has its message logged, in
    order, and is followed by the next variant. *)
Theorem C5_first_answer_wins (pre post : list (exn + response)) (r : response)
  (result content : pyval) :
  truthy (Some endpoint) = true ->
  got = (pre ++ inr r :: post)%list ->
  Forall (fun a => not_200 a \/ malformed_200 E a) pre ->
  status_code r = 200 ->
  json r = inr result ->
  extracted E result = inr content ->
  fst run = inr content /\
  w_posts (snd run) = (w_posts w ++ firstn (S (length pre)) rs)%list /\
  exists lines,
    w_log (snd run) = (w_log w ++ lines)%list /\
    scattered_in (failure_records c E 1 pre) lines.
Proof.
  intros Htrue Hgot Hpre Hstatus Hjson Hcontent.
  assert (Hfail : Forall (fun a => answered E a = false) pre)
    by (apply failed_not_answered; exact Hpre).
  assert (Ho : outcome_of E (inr r) = Answered content).
  { unfold outcome_of. rewrite Hstatus, Hjson, Hcontent. reflexivity. }
  rewrite (run_read Htrue). cbn [fst snd touch w_posts w_log].
  rewrite Hgot.
  rewrite (seen_first_answer E pre post (inr r) Hfail (answered_outcome _ _ _ Ho)).
  rewrite (loop_result_first_answer c E (inr r) content post Ho pre 1 None Hfail).
  split; [reflexivity|].
  split.
  - rewrite length_app. cbn [length]. rewrite Nat.add_1_r. reflexivity.
  - eexists. split; [reflexivity|].
    apply scattered_app_l. apply scattered_app_r.
    apply failures_in_seen_log. exact Hfail.
Qed.

End CompletionCall.

Lemma C4_all_variants_fail_witness :
  Forall not_200 (answers (refusing 500) [] (requests_for voice_console demo_config "hi")) /\
  fst (call_with voice_console (refusing 500) demo_config "hi" world0) =
    inl (Exception
           "All API payload structures failed. Last error: Payload 3 failed - Status: 500, Response: denied").
Proof.
  assert (H : Forall not_200
                (answers (refusing 500) [] (requests_for voice_console demo_config "hi"))).
  { repeat constructor; simpl; discriminate. }
  split; [exact H|].
  exact (proj1 (C4_all_variants_fail voice_console (refusing 500)
                  "myresource.openai.azure.com/" (Some "key") (Some "gpt")
                  (Some "https://s.search.windows.net") (Some "skey") (Some "idx")
                  "hi" (Some "2024-06-01") world0 eq_refl H)).
Defined.

(** C4 as stated fails: two runs in which every variant is refused, the
    first variant with status 500 in one and 404 in the other, have
    different attempt records and raise the very same exception, whose
    text names the last attempt alone.  The exception therefore does not
    carry one record per attempted variant. *)
Lemma C4_exception_names_last_attempt_only :
  Forall not_200
    (answers (refusing_first 500) [] (requests_for voice_console demo_config "hi")) /\
  Forall not_200
    (answers (refusing_first 404) [] (requests_for voice_console demo_config "hi")) /\
  failure_records voice_console (refusing_first 500) 1
    (answers (refusing_first 500) [] (requests_for voice_console demo_config "hi")) <>
  failure_records voice_console (refusing_first 404) 1
    (answers (refusing_first 404) [] (requests_for voice_console demo_config "hi")) /\
  fst (call_with voice_console (refusing_first 500) demo_config "hi" world0) =
  fst (call_with voice_console (refusing_first 404) demo_config "hi" world0) /\
  fst (call_with voice_console (refusing_first 500) demo_config "hi" world0) =
    inl (Exception
           "All API payload structures failed. Last error: Payload 3 failed - Status: 503, Response: busy").
Proof.
  split; [repeat constructor; simpl; discriminate|].
  split; [repeat constructor; simpl; discriminate|].
  split; [|split; reflexivity].
  intros Heq. vm_compute in Heq. discriminate Heq.
Qed.

Lemma C5_first_answer_wins_witness :
  answers search_down [] (requests_for add_console demo_config "hi") =
    [ inr (status_response 400 "bad request"); inr (status_response 400 "bad request");
      inr (status_response 400 "bad request"); inr (ok_response "sawasdee") ] /\
  fst (call_with add_console search_down demo_config "hi" world0) = inr (PStr "sawasdee") /\
  w_posts (snd (call_with add_console search_down demo_config "hi" world0)) =
    requests_for add_console demo_config "hi".
Proof.
  split; [reflexivity|].
  pose proof (C5_first_answer_wins add_console search_down
                "myresource.openai.azure.com/" (Some "key") (Some "gpt")
                (Some "https://s.search.windows.net") (Some "skey") (Some "idx")
                "hi" (Some "2024-06-01") world0
                [ inr (status_response 400 "bad request");
                  inr (status_response 400 "bad request");
                  inr (status_response 400 "bad request") ]
                [] (ok_response "sawasdee") (ok_body "sawasdee") (PStr "sawasdee")
                eq_refl eq_refl) as H.
  assert (Hpre : Forall (fun a => not_200 a \/ malformed_200 search_down a)
                   [ inr (status_response 400 "bad request");
                     inr (status_response 400 "bad request");
                     inr (status_response 400 "bad request") ]).
  { repeat (apply Forall_cons; [left; simpl; discriminate|]). apply Forall_nil. }
  destruct (H Hpre eq_refl eq_refl eq_refl) as (Hres & Hposts & _).
  split; [exact Hres | exact Hposts].
Defined.

(** C5 as stated fails: the first answer has status 200, its body is not
    JSON, and the call does not stop there; it submits the second variant
    and returns the content of that answer. *)
Lemma C5_status_200_alone_does_not_stop :
  nth_error (answers garbled_then_fine [] (requests_for voice_console demo_config "hi")) 0
    = Some (inr (mkResponse 200 "<html>" (inl (mkExn OtherError "Expecting value")))) /\
  w_posts (snd (call_with voice_console garbled_then_fine demo_config "hi" world0)) =
    firstn 2 (requests_for voice_console demo_config "hi") /\
  fst (call_with voice_console garbled_then_fine demo_config "hi" world0) =
    inr (PStr "sawasdee").
Proof. repeat split; reflexivity. Qed.

(** With the search-enabled bodies refused and the plain one answered,
    the client of [main_voice_chat_console.py] returns the answer to its
    third and last request and warns that it fell back. *)
Example voice_falls_back :
  fst (call_with voice_console search_down demo_config "hi" world0) = inr (PStr "sawasdee") /\
  length (w_posts (snd (call_with voice_console search_down demo_config "hi" world0))) = 3 /\
  In (WARNING, "Used fallback mode without search integration")
     (w_log (snd (call_with voice_console search_down demo_config "hi" world0))).
Proof.
  split; [reflexivity|]. split; [reflexivity|].
  vm_compute. intuition.
Qed.

(** ** Endpoint normalization *)



Lemma rstrip_last (s : string) : last_char (rstrip "/" s) <> Some "/"%char.
Proof.
  induction s as [| a s IH]; [discriminate|].
  cbn [rstrip].
  destruct (rstrip "/" s) as [| b t] eqn:Hr.
  - destruct (Ascii.eqb a "/") eqn:Ha; [discriminate|].
    apply Ascii.eqb_neq in Ha. simpl. congruence.
  - exact IH.
Qed.


Lemma prefix_append (p t : string) : String.prefix p (p ++ t) = true.
Proof.
  induction p as [| a p IH]; [destruct t; reflexivity|].
  simpl. destruct (ascii_dec a a) as [_ | Hne]; [exact IH | congruence].
Qed.




Lemma in_firstn_in {A : Type} (x : A) :
  forall (n : nat) (l : list A), In x (firstn n l) -> In x l.
Proof.
  induction n as [| n IH]; intros l H; [contradiction|].
  destruct l as [| y l]; [contradiction|].
  destruct H as [H | H]; [left; exact H | right; exact (IH l H)].
Qed.




(** ** Transcription *)

Lemma transcribe_with_run (u r cv : string) (E : env) (path : option string) (w : world) :
  exists w',
    transcribe_audio_with u r cv E path w =
    (inr match heard E path with
         | inr text => text
         | inl e =>
             match exn_kind_of e with
             | UnknownValueError => u
             | RequestError => (r ++ exn_str e)%string
             | _ => (cv ++ exn_str e)%string
             end
         end, w').
Proof.
  unfold transcribe_audio_with, heard, try_except, bind, logger, modify, lift, ret, raise.
  destruct (sr_audio_file E path) as [e | source].
  - unfold transcribe_handler, isinstance.
    destruct e as [k msg]; destruct k; cbn; eexists; reflexivity.
  - destruct (sr_record E source) as [e | audio].
    + unfold transcribe_handler, isinstance.
      destruct e as [k msg]; destruct k; cbn; eexists; reflexivity.
    + destruct (sr_recognize_google E audio "th-TH") as [e | text].
      * unfold transcribe_handler, isinstance.
        destruct e as [k msg]; destruct k; cbn; eexists; reflexivity.
      * eexists; reflexivity.
Qed.

(** C7: [transcribe_audio] never raises.  Whatever the audio file and the
    recognition service do, it returns a string: the recognized text, or
    the fixed "unrecognized speech" placeholder when the recognizer raises
    [UnknownValueError], or the "recognition error" placeholder followed by
    the service's message when it raises [RequestError], or the "conversion
    error" placeholder followed by the message on any other exception. *)
Theorem C7_transcribe_never_raises (c : console) (E : env) (path : option string)
  (w : world) :
  exists (s : string) (w' : world),
    transcribe c E path w = (inr s, w') /\
    match heard E path with
    | inr text => s = text
    | inl e =>
        match exn_kind_of e with
        | UnknownValueError => s = unrecognized_placeholder c
        | RequestError => s = (recognition_placeholder c ++ exn_str e)%string
        | _ => s = (conversion_placeholder c ++ exn_str e)%string
        end
    end.
Proof.
  destruct c;
    [ destruct (transcribe_with_run AddChatConsole.unrecognized_speech
                  AddChatConsole.recognition_error AddChatConsole.conversion_error
                  E path w) as [w' Hrun]
    | destruct (transcribe_with_run VoiceChatConsole.unrecognized_speech
                  VoiceChatConsole.recognition_error VoiceChatConsole.conversion_error
                  E path w) as [w' Hrun] ];
    eexists; exists w'; (split; [exact Hrun|]);
    destruct (heard E path) as [e | text]; [| reflexivity | | reflexivity];
    destruct (exn_kind_of e); reflexivity.
Qed.

Example transcribe_silence :
  fst (transcribe voice_console silence (Some "/tmp/rec.wav") world0) =
    inr VoiceChatConsole.unrecognized_speech /\
  startswith VoiceChatConsole.unrecognized_speech "ไม่สามารถ" = true.
Proof. split; reflexivity. Qed.

(** ** Audio capture *)

Lemma read_frames_ok (E : env) :
  (forall i, exists data, stream_read E i = inr data) ->
  forall (n i : nat) (frames : list string) (w : world),
  exists frames', read_frames E i n frames w = (inr frames', w).
Proof.
  intros Hread. induction n as [| n IH]; intros i frames w.
  - exists frames. reflexivity.
  - cbn [read_frames]. unfold bind, lift.
    destruct (Hread i) as [data ->]. unfold ret at 1.
    apply IH.
Qed.

(** An integer of at most 53 bits is a float. *)
Lemma round53_small (n : Z) : (0 <= n < 2 ^ 53)%Z -> round53 n = (n, 0%Z).
Proof.
  intros [Hn Hlt]. unfold round53.
  assert (Hs : Z.max 0 (Z.log2 n + 1 - 53) = 0%Z).
  { apply Z.max_l.
    destruct (Z.eq_dec n 0) as [-> | Hne]; [cbn; lia|].
    assert (Hlog : (Z.log2 n < 53)%Z) by (apply Z.log2_lt_pow2; lia).
    lia. }
  rewrite Hs. reflexivity.
Qed.

(** As long as [11025 * duration] has at most 53 bits the float product
    is exact, and the number of chunks is the integer quotient of
    [RATE * duration] by [CHUNK]; a recording of some 25000 years is
    within that range. *)
Lemma chunk_count_exact (duration : nat) :
  (11025 * Z.of_nat duration < 2 ^ 53)%Z ->
  chunk_count duration = inr (N.to_nat (RATE * N.of_nat duration / CHUNK)).
Proof.
  intros Hlt. unfold chunk_count, float_chunks, float_of_int.
  assert (Hpow : (2 ^ 53 < 2 ^ 1024)%Z) by (apply Z.pow_lt_mono_r; lia).
  rewrite round53_small by lia.
  rewrite Z.shiftl_0_r.
  destruct (Z.leb_spec (2 ^ 1024) (Z.of_nat duration)) as [Hbig | _]; [lia|].
  unfold float_mul, RATE_over_CHUNK. cbn [fst snd].
  rewrite round53_small by lia.
  change (0 + -8 + 0)%Z with (- 8)%Z.
  rewrite (Z.shiftl_opp_r _ 8), Z.shiftr_div_pow2 by lia.
  assert (Hq : (11025 * Z.of_nat duration / 2 ^ 8 <= 11025 * Z.of_nat duration)%Z).
  { apply Z.div_le_upper_bound; [reflexivity|]. change (2 ^ 8)%Z with 256%Z. lia. }
  destruct (Z.leb_spec (2 ^ 1024) (11025 * Z.of_nat duration / 2 ^ 8)) as [Hbig | _];
    [lia|].
  cbn [int_of_float]. f_equal.
  rewrite (Z.shiftl_opp_r _ 8), Z.shiftr_div_pow2 by lia.
  unfold RATE, CHUNK.
  rewrite <- Z_N_nat. f_equal. apply N2Z.inj.
  rewrite Z2N.id by (apply Z.div_pos; lia).
  rewrite N2Z.inj_div, N2Z.inj_mul, nat_N_Z.
  change (Z.of_N 44100) with (4 * 11025)%Z.
  change (Z.of_N 1024) with (4 * 2 ^ 8)%Z.
  rewrite <- Z.mul_assoc. symmetry. apply Z.div_mul_cancel_l; discriminate.
Qed.

Lemma chunk_count_bounds (duration n : nat) :
  (11025 * Z.of_nat duration < 2 ^ 53)%Z ->
  chunk_count duration = inr n ->
  (N.of_nat n * CHUNK <= RATE * N.of_nat duration
   /\ RATE * N.of_nat duration < (N.of_nat n + 1) * CHUNK)%N.
Proof.
  intros Hlt Hn. rewrite (chunk_count_exact duration Hlt) in Hn.
  assert (Hn' : n = N.to_nat (RATE * N.of_nat duration / CHUNK)) by congruence.
  subst n. clear Hn. unfold CHUNK, RATE. rewrite N2Nat.id.
  set (a := (44100 * N.of_nat duration)%N).
  assert (Hnz : 1024%N <> 0%N) by discriminate.
  pose proof (N.div_mod a 1024 Hnz) as Hdm.
  pose proof (N.mod_lt a 1024 Hnz) as Hlt'.
  set (q := (a / 1024)%N) in *. set (r := (a mod 1024)%N) in *.
  clearbody q r. lia.
Qed.

(** Beyond that range the product is rounded: the count is no longer the
    integer quotient; and from [2^1024 - 2^970] on the conversion of the
    duration to a float raises. *)
Example chunk_count_rounds :
  float_chunks 817000000015 = inr 35185253906896%Z /\
  (44100 * 817000000015 / 1024 = 35185253906895)%Z /\
  float_of_int (2 ^ 1024 - 2 ^ 970 - 1) = inr ((2 ^ 53 - 1)%Z, 971%Z) /\
  float_chunks (2 ^ 1024 - 2 ^ 970) =
    inl (mkExn OtherError "int too large to convert to float") /\
  float_chunks (2 ^ 1020) =
    inl (mkExn OtherError "cannot convert float infinity to integer").
Proof. vm_compute. repeat split. Qed.

(** On the path on which nothing raises, the stream and the device handle
    are released and the file name is returned. *)
Lemma record_audio_success_releases (E : env) (duration : nat) (w : world)
  (name : string) :
  (11025 * Z.of_nat duration < 2 ^ 53)%Z ->
  pa_init E = inr tt -> pa_open E = inr tt ->
  (forall i, exists data, stream_read E i = inr data) ->
  stream_stop E = inr tt -> stream_close E = inr tt -> pa_terminate E = inr tt ->
  mktemp E = inr name -> (forall frames, wave_write E name frames = inr tt) ->
  fst (record_audio E duration w) = inr (Some name) /\
  device_released w (snd (record_audio E duration w)).
Proof.
  intros Hshort Hinit Hopen Hread Hstop Hclose Hterm Htemp Hwave.
  assert (Hrun : exists w', record_audio E duration w = (inr (Some name), w') /\
                            device_released w w').
  { unfold record_audio, try_except, bind, logger, modify, PyAudio, p_open.
    rewrite Hinit, Hopen, (chunk_count_exact duration Hshort).
    unfold lift at 1. unfold ret at 1.
    match goal with
    | |- context [read_frames E 0 ?n [] ?w0] =>
        destruct (read_frames_ok E Hread n 0 [] w0) as [frames ->]
    end.
    unfold lift, stream_close_, p_terminate, wave_save.
    rewrite Hstop. unfold ret at 1. rewrite Hclose, Hterm, Htemp. unfold ret at 1.
    rewrite Hwave. unfold ret. eexists. split; [reflexivity|].
    unfold device_released. cbn. auto. }
  destruct Hrun as (w' & -> & Hdev). split; [reflexivity | exact Hdev].
Qed.

(** C8 fails on the code: when [p.open] raises (no input device), the
    [except] clause returns [None] and the PyAudio instance created just
    before is never terminated; there is no [finally]. *)
Theorem C8_open_failure_keeps_device_handle (E : env) (duration : nat) (w : world)
  (e : exn) :
  pa_init E = inr tt ->
  pa_open E = inl e ->
  fst (record_audio E duration w) = inr None /\
  w_pa_live (snd (record_audio E duration w)) = S (w_pa_live w) /\
  ~ device_released w (snd (record_audio E duration w)).
Proof.
  intros Hinit Hopen.
  unfold record_audio, try_except, bind, logger, modify, PyAudio, p_open.
  rewrite Hinit, Hopen. cbn.
  split; [reflexivity|]. split; [reflexivity|].
  unfold device_released. cbn. intros [H _]. lia.
Qed.

Lemma C8_open_failure_keeps_device_handle_witness :
  fst (record_audio no_microphone 5 world0) = inr None /\
  w_pa_live (snd (record_audio no_microphone 5 world0)) = 1.
Proof.
  destruct (C8_open_failure_keeps_device_handle no_microphone 5 world0
              (mkExn OtherError "[Errno -9996] Invalid input device (no default output device)")
              eq_refl eq_refl) as (Hres & Hlive & _).
  split; [exact Hres | exact Hlive].
Defined.

(** The same happens when a [stream.read] raises in the middle of the
    recording: the stream stays open and the handle live. *)
Lemma record_audio_read_failure_leaks :
  fst (record_audio input_overflow 1 world0) = inr None /\
  w_pa_live (snd (record_audio input_overflow 1 world0)) = 1 /\
  w_streams_open (snd (record_audio input_overflow 1 world0)) = 1.
Proof. vm_compute. auto. Qed.

(** ** Speech synthesis *)

Ltac settle :=
  cbn; repeat split; rewrite <- ?app_assoc; rewrite ?app_nil_r; reflexivity.

Lemma synthesize_guarded_run (E : env) (text : pyval) (cfg : config) (w : world) :
  fst (try_except (synthesize E text cfg) text_to_speech_handler w) =
    inr (synthesis_completed E text cfg) /\
  w_sdk (snd (try_except (synthesize E text cfg) text_to_speech_handler w)) =
    (w_sdk w ++ synthesis_calls E text cfg)%list /\
  w_messages (snd (try_except (synthesize E text cfg) text_to_speech_handler w)) =
    w_messages w /\
  w_clock (snd (try_except (synthesize E text cfg) text_to_speech_handler w)) = w_clock w.
Proof.
  unfold try_except, synthesize, text_to_speech_handler, synthesis_completed,
    synthesis_calls, slice_to_50, sdk, bind, logger, modify, lift, ret, raise, sliceable.
  destruct text; try settle.
  all: destruct (sdk_speech_config E (azure_speech_key cfg) (azure_speech_region cfg));
    try settle.
  all: destruct (sdk_set_voice E (azure_speech_voice cfg)); try settle.
  all: destruct (sdk_synthesizer E); try settle.
  all: match goal with
       | |- context [sdk_speak ?E0 ?t] => destruct (sdk_speak E0 t) as [e | r]
       end; try settle.
  all: destruct (reason r); try settle.
  all: destruct (cancellation_reason_of r); settle.
Qed.

Lemma voice_text_to_speech_unconfigured (E : env) (text : pyval) (cfg : config)
  (w : world) :
  speech_configured cfg = false ->
  VoiceChatConsole.text_to_speech E text cfg w =
  (inr false, add_log (WARNING, "Speech services not configured") w).
Proof.
  unfold speech_configured, VoiceChatConsole.text_to_speech. intros H.
  assert (Hguard : negb (truthy (azure_speech_key cfg))
                   || negb (truthy (azure_speech_region cfg)) = true).
  { destruct (truthy (azure_speech_key cfg)), (truthy (azure_speech_region cfg));
      try reflexivity; discriminate H. }
  rewrite Hguard. reflexivity.
Qed.

Lemma voice_text_to_speech_configured (E : env) (text : pyval) (cfg : config) :
  speech_configured cfg = true ->
  VoiceChatConsole.text_to_speech E text cfg =
  try_except (synthesize E text cfg) text_to_speech_handler.
Proof.
  unfold speech_configured, VoiceChatConsole.text_to_speech. intros H.
  apply andb_true_iff in H. destruct H as [-> ->]. reflexivity.
Qed.

(** [text_to_speech] returns a boolean and touches neither the chat history
    nor the clock. *)
Lemma text_to_speech_returns (c : console) (E : env) (text : pyval) (cfg : config)
  (w : world) :
  exists (b : bool) (calls : list sdk_call) (w' : world),
    synthesize_speech c E text cfg w = (inr b, w') /\
    w_sdk w' = (w_sdk w ++ calls)%list /\
    w_messages w' = w_messages w /\
    w_clock w' = w_clock w /\
    (b = true -> synthesis_completed E text cfg = true) /\
    (calls = [] \/ calls = synthesis_calls E text cfg) /\
    (c = voice_console -> speech_configured cfg = false -> b = false /\ calls = []).
Proof.
  assert (Hplain :
    exists (b : bool) (calls : list sdk_call) (w' : world),
      try_except (synthesize E text cfg) text_to_speech_handler w = (inr b, w') /\
      w_sdk w' = (w_sdk w ++ calls)%list /\
      w_messages w' = w_messages w /\
      w_clock w' = w_clock w /\
      (b = true -> synthesis_completed E text cfg = true) /\
      (calls = [] \/ calls = synthesis_calls E text cfg)).
  { destruct (synthesize_guarded_run E text cfg w) as (Hb & Hs & Hm & Hc).
    destruct (try_except (synthesize E text cfg) text_to_speech_handler w) as [res w'].
    cbn [fst snd] in *. subst res.
    exists (synthesis_completed E text cfg), (synthesis_calls E text cfg), w'.
    repeat split; auto. }
  destruct c.
  - destruct Hplain as (b & calls & w' & Hrun & Hs & Hm & Hc & Hb & Hcalls).
    exists b, calls, w'. repeat split; auto; discriminate.
  - destruct (speech_configured cfg) eqn:Hcfg.
    + destruct Hplain as (b & calls & w' & Hrun & Hs & Hm & Hc & Hb & Hcalls).
      exists b, calls, w'. unfold synthesize_speech.
      rewrite (voice_text_to_speech_configured E text cfg Hcfg).
      repeat split; auto; discriminate.
    + exists false, [], (add_log (WARNING, "Speech services not configured") w).
      unfold synthesize_speech.
      rewrite (voice_text_to_speech_unconfigured E text cfg w Hcfg).
      cbn. rewrite app_nil_r. repeat split; auto; discriminate.
Qed.



Example text_to_speech_cancelled :
  fst (synthesize_speech voice_console cancelling (PStr "sawasdee") speaking_config world0)
    = inr false /\
  fst (synthesize_speech add_console cancelling (PStr "sawasdee") speaking_config world0)
    = inr false /\
  fst (synthesize_speech voice_console search_down (PStr "sawasdee") speaking_config world0)
    = inr true.
Proof. repeat split; reflexivity. Qed.




(** ** The chat history *)

Lemma keeps_ret {A : Type} (a : A) : keeps_session (ret a).
Proof. intros w. split; reflexivity. Qed.

Lemma keeps_raise {A : Type} (e : exn) : keeps_session (@raise A e).
Proof. intros w. split; reflexivity. Qed.

Lemma keeps_bind {A B : Type} (m : M A) (k : A -> M B) :
  keeps_session m -> (forall a, keeps_session (k a)) -> keeps_session (bind m k).
Proof.
  intros Hm Hk w. unfold bind.
  destruct (Hm w) as [Hmsg Hclk].
  destruct (m w) as [[e | a] w1]; cbn [snd] in *; [split; assumption|].
  destruct (Hk a w1) as [Hmsg' Hclk'].
  split; congruence.
Qed.

Lemma keeps_try {A : Type} (m : M A) (h : exn -> M A) :
  keeps_session m -> (forall e, keeps_session (h e)) -> keeps_session (try_except m h).
Proof.
  intros Hm Hh w. unfold try_except.
  destruct (Hm w) as [Hmsg Hclk].
  destruct (m w) as [[e | a] w1]; cbn [snd] in *; [|split; assumption].
  destruct (Hh e w1) as [Hmsg' Hclk'].
  split; congruence.
Qed.

Lemma keeps_logger (l : level) (msg : string) : keeps_session (logger l msg).
Proof. intros w. split; reflexivity. Qed.

Lemma keeps_touch {A : Type} (m : M A) :
  (forall w, exists lines sent, snd (m w) = touch lines sent w) -> keeps_session m.
Proof.
  intros H w. destruct (H w) as (lines & sent & ->). split; reflexivity.
Qed.

Lemma keeps_validate (endpoint : option string) :
  keeps_session (VoiceChatConsole.validate_azure_endpoint_format endpoint).
Proof.
  unfold VoiceChatConsole.validate_azure_endpoint_format.
  destruct endpoint as [e |]; [|apply keeps_ret].
  destruct (negb (truthy (Some e))); [apply keeps_ret|].
  apply keeps_bind; [|intros _; apply keeps_ret].
  destruct (negb (py_in "openai.azure.com" (VoiceChatConsole.fix_endpoint e)));
    [apply keeps_logger | apply keeps_ret].
Qed.

Lemma keeps_closing (r : loop_end pyval) :
  keeps_session
    match r with
    | Returned content => ret content
    | Exhausted last_error =>
        logger ERROR (all_failed_message last_error) ;;
        raise (Exception (all_failed_message last_error))
    end.
Proof.
  destruct r; [apply keeps_ret|].
  apply keeps_bind; [apply keeps_logger | intros _; apply keeps_raise].
Qed.

(** The completion client changes neither the chat history nor the
    clock. *)
Lemma keeps_complete (c : console) (E : env)
  (endpoint api_key deployment search_endpoint search_key search_index : option string)
  (query : string) (api_version : option string) :
  keeps_session (complete c E endpoint api_key deployment search_endpoint search_key
                   search_index query api_version).
Proof.
  destruct c; unfold complete.
  - unfold AddChatConsole.call_azure_openai_with_search_rest.
    apply keeps_bind; [destruct endpoint; [apply keeps_ret | apply keeps_raise]|].
    intros e. apply keeps_bind; [|apply keeps_closing].
    apply keeps_touch. intros w. rewrite (add_loop_run E _ _ 0). cbn [snd].
    eexists. eexists. reflexivity.
  - unfold VoiceChatConsole.call_azure_openai_with_search_rest.
    apply keeps_bind; [apply keeps_validate|].
    intros [e |]; [|apply keeps_raise].
    destruct (negb (truthy (Some e))); [apply keeps_raise|].
    apply keeps_bind; [|apply keeps_closing].
    apply keeps_touch. intros w. rewrite voice_loop_run. cbn [snd].
    eexists. eexists. reflexivity.
Qed.

Lemma call_with_keeps (c : console) (E : env) (cfg : config) (query : string)
  (w : world) (res : exn + pyval) (w' : world) :
  call_with c E cfg query w = (res, w') ->
  w_messages w' = w_messages w /\ w_clock w' = w_clock w.
Proof.
  intros Hcall.
  pose proof (keeps_complete c E (azure_oai_endpoint cfg) (azure_oai_key cfg)
                (azure_oai_deployment cfg) (azure_search_endpoint cfg)
                (azure_search_key cfg) (azure_search_index cfg) query
                (azure_api_version cfg) w) as H.
  unfold call_with in Hcall. rewrite Hcall in H. exact H.
Qed.

Ltac history_grows Hm1 Hm2 Hc1 Hc2 :=
  cbn; rewrite ?Hc2, ?Hc1, ?Hm2, ?Hm1; rewrite <- ?app_assoc; reflexivity.

Lemma voice_process_run (E : env) (query : string) (cfg : config) (w : world) :
  exists (content : pyval) (w' : world),
    VoiceChatConsole.process_query E query cfg w = (inr tt, w') /\
    w_messages w' =
      (w_messages w ++
       [ mkMessage user (PStr query) (now_strftime E (w_clock w));
         mkMessage assistant content (now_strftime E (S (w_clock w))) ])%list /\
    exists w2,
      call_with voice_console E cfg query (asked E query w) = (inr content, w2) \/
      exists e, call_with voice_console E cfg query (asked E query w) = (inl e, w2) /\
                content = error_text voice_console e.
Proof.
  unfold VoiceChatConsole.process_query.
  unfold bind, now, session_append_message, session_append_log, logger, modify,
    st_rerun, st_error, try_except.
  match goal with
  | |- context [VoiceChatConsole.call_azure_openai_with_search_rest
                  _ _ _ _ _ _ _ _ _ ?W] => set (w1 := W)
  end.
  assert (Hm1 : w_messages w1 =
                (w_messages w ++
                 [mkMessage user (PStr query) (now_strftime E (w_clock w))])%list)
    by reflexivity.
  assert (Hc1 : w_clock w1 = S (w_clock w)) by reflexivity.
  assert (Hw1 : w1 = asked E query w) by reflexivity.
  clearbody w1.
  destruct (VoiceChatConsole.call_azure_openai_with_search_rest E
              (azure_oai_endpoint cfg) (azure_oai_key cfg) (azure_oai_deployment cfg)
              (azure_search_endpoint cfg) (azure_search_key cfg)
              (azure_search_index cfg) query (azure_api_version cfg) w1)
    as [[e | response] w2] eqn:Hcall;
    destruct (call_with_keeps voice_console E cfg query w1 _ w2 Hcall) as [Hm2 Hc2].
  - exists (error_text voice_console e). eexists.
    split; [reflexivity|].
    split; [history_grows Hm1 Hm2 Hc1 Hc2|].
    exists w2. rewrite <- Hw1. right. exists e. split; [exact Hcall | reflexivity].
  - exists response.
    destruct (truthy (azure_speech_key cfg) && truthy (azure_speech_region cfg)).
    + match goal with
      | |- context [VoiceChatConsole.text_to_speech E response cfg ?W] =>
          destruct (text_to_speech_returns voice_console E response cfg W)
            as (b & calls & w4 & Hrun & _ & Hm4 & _)
      end.
      unfold synthesize_speech in Hrun. rewrite Hrun.
      eexists. split; [reflexivity|].
      split; [cbn; rewrite Hm4; history_grows Hm1 Hm2 Hc1 Hc2|].
      exists w2. rewrite <- Hw1. left. exact Hcall.
    + eexists. split; [reflexivity|].
      split; [history_grows Hm1 Hm2 Hc1 Hc2|].
      exists w2. rewrite <- Hw1. left. exact Hcall.
Qed.

Lemma add_process_run (E : env) (query : string) (cfg : config) (w : world) :
  py_all [azure_search_endpoint cfg; azure_search_key cfg; azure_search_index cfg]
    = true ->
  exists (content : pyval) (w' : world),
    AddChatConsole.process_query E query cfg w = (inr tt, w') /\
    w_messages w' =
      (w_messages w ++
       [ mkMessage user (PStr query) (now_strftime E (w_clock w));
         mkMessage assistant content (now_strftime E (S (w_clock w))) ])%list /\
    exists w2,
      call_with add_console E cfg query (asked E query w) = (inr content, w2) \/
      exists e, call_with add_console E cfg query (asked E query w) = (inl e, w2) /\
                content = error_text add_console e.
Proof.
  intros Hall.
  unfold AddChatConsole.process_query. rewrite Hall. cbn [negb].
  unfold bind, now, session_append_message, session_append_log, logger, modify,
    st_rerun, st_error, try_except.
  match goal with
  | |- context [AddChatConsole.call_azure_openai_with_search_rest
                  _ _ _ _ _ _ _ _ _ ?W] => set (w1 := W)
  end.
  assert (Hm1 : w_messages w1 =
                (w_messages w ++
                 [mkMessage user (PStr query) (now_strftime E (w_clock w))])%list)
    by reflexivity.
  assert (Hc1 : w_clock w1 = S (w_clock w)) by reflexivity.
  assert (Hw1 : w1 = asked E query w) by reflexivity.
  clearbody w1.
  destruct (AddChatConsole.call_azure_openai_with_search_rest E
              (azure_oai_endpoint cfg) (azure_oai_key cfg) (azure_oai_deployment cfg)
              (azure_search_endpoint cfg) (azure_search_key cfg)
              (azure_search_index cfg) query (azure_api_version cfg) w1)
    as [[e | response] w2] eqn:Hcall;
    destruct (call_with_keeps add_console E cfg query w1 _ w2 Hcall) as [Hm2 Hc2].
  - exists (error_text add_console e). eexists.
    split; [reflexivity|].
    split; [history_grows Hm1 Hm2 Hc1 Hc2|].
    exists w2. rewrite <- Hw1. right. exists e. split; [exact Hcall | reflexivity].
  - exists response. eexists. split; [reflexivity|].
    split; [history_grows Hm1 Hm2 Hc1 Hc2|].
    exists w2. rewrite <- Hw1. left. exact Hcall.
Qed.

(** C10: every run of [process_query] ends normally and leaves the chat
    history longer by exactly two messages: the user's message with the
    query, then one assistant message.  The assistant message carries the
    content the completion client returned, or the error text built from
    the exception the client raised, or -- in [main_add_chatconsole.py],
    when the search fields are not all present -- the fixed text that takes
    the client's place. *)
Theorem C10_two_messages_per_query (c : console) (E : env) (query : string)
  (cfg : config) (w : world) :
  exists (content : pyval) (w' : world),
    process c E query cfg w = (inr tt, w') /\
    w_messages w' =
      (w_messages w ++
       [ mkMessage user (PStr query) (now_strftime E (w_clock w));
         mkMessage assistant content (now_strftime E (S (w_clock w))) ])%list /\
    ((exists w2, call_with c E cfg query (asked E query w) = (inr content, w2)) \/
     (exists e w2, call_with c E cfg query (asked E query w) = (inl e, w2) /\
                   content = error_text c e) \/
     (c = add_console /\
      py_all [azure_search_endpoint cfg; azure_search_key cfg; azure_search_index cfg]
        = false /\
      content = PStr AddChatConsole.search_unavailable)).
Proof.
  destruct c; unfold process.
  - destruct (py_all [azure_search_endpoint cfg; azure_search_key cfg;
                      azure_search_index cfg]) eqn:Hall.
    + destruct (add_process_run E query cfg w Hall)
        as (content & w' & Hrun & Hm & w2 & Hcall).
      exists content, w'. split; [exact Hrun|]. split; [exact Hm|].
      destruct Hcall as [Hok | (e & Herr & Hc)].
      * left. exists w2. exact Hok.
      * right. left. exists e, w2. split; assumption.
    + destruct (add_process_query_search_missing E query cfg w Hall) as (Hres & _ & Hm).
      exists (PStr AddChatConsole.search_unavailable),
        (snd (AddChatConsole.process_query E query cfg w)).
      split; [|split; [exact Hm|]].
      * destruct (AddChatConsole.process_query E query cfg w) as [res w'].
        cbn [fst snd] in *. rewrite Hres. reflexivity.
      * right. right. auto.
  - destruct (voice_process_run E query cfg w)
      as (content & w' & Hrun & Hm & w2 & Hcall).
    exists content, w'. split; [exact Hrun|]. split; [exact Hm|].
    destruct Hcall as [Hok | (e & Herr & Hc)].
    + left. exists w2. exact Hok.
    + right. left. exists e, w2. split; assumption.
Qed.

(** * The rest of the programs *)

(** ** What a computation leaves alone *)

Lemma leaves_ret {X A : Type} (f : world -> X) (a : A) : leaves f (ret a).
Proof. intros w. reflexivity. Qed.

Lemma leaves_raise {X A : Type} (f : world -> X) (e : exn) : leaves f (@raise A e).
Proof. intros w. reflexivity. Qed.

Lemma leaves_lift {X A : Type} (f : world -> X) (r : exn + A) : leaves f (lift r).
Proof. destruct r; [apply leaves_raise | apply leaves_ret]. Qed.

Lemma leaves_bind {X A B : Type} (f : world -> X) (m : M A) (k : A -> M B) :
  leaves f m -> (forall a, leaves f (k a)) -> leaves f (bind m k).
Proof.
  intros Hm Hk w. unfold bind. pose proof (Hm w) as Hw.
  destruct (m w) as [[e | a] w1]; cbn [snd] in *; [exact Hw|].
  rewrite (Hk a w1). exact Hw.
Qed.

Lemma leaves_try {X A : Type} (f : world -> X) (m : M A) (h : exn -> M A) :
  leaves f m -> (forall e, leaves f (h e)) -> leaves f (try_except m h).
Proof.
  intros Hm Hh w. unfold try_except. pose proof (Hm w) as Hw.
  destruct (m w) as [[e | a] w1]; cbn [snd] in *; [|exact Hw].
  rewrite (Hh e w1). exact Hw.
Qed.

Lemma leaves_modify {X : Type} (f : world -> X) (g : world -> world) :
  (forall w, f (g w) = f w) -> leaves f (modify g).
Proof. intros Hg w. apply Hg. Qed.

Lemma leaves_answer {X A : Type} (f : world -> X) (g : world -> world) (r : exn + A) :
  (forall w, f (g w) = f w) -> leaves f (fun w => lift r (g w)).
Proof. intros Hg w. destruct r; cbn; apply Hg. Qed.

Lemma leaves_effect {X : Type} (f : world -> X) (g : world -> world) (r : exn + unit) :
  (forall w, f (g w) = f w) ->
  leaves f (fun w => match r with
                     | inr _ => (inr tt, g w)
                     | inl e => (inl e, w)
                     end).
Proof. intros Hg w. destruct r; cbn; [reflexivity | apply Hg]. Qed.

Lemma leaves_update {X A : Type} (f : world -> X) (r : world -> exn + A)
  (g : world -> world) :
  (forall w, f (g w) = f w) -> leaves f (fun w => (r w, g w)).
Proof. intros Hg w. apply Hg. Qed.

Lemma leaves_pure {X A : Type} (f : world -> X) (m : M A) : pure_op m -> leaves f m.
Proof. intros Hm w. rewrite (Hm w). reflexivity. Qed.

Lemma leaves_touch {X A : Type} (f : world -> X) (m : M A) :
  (forall lines sent w, f (touch lines sent w) = f w) ->
  (forall w, exists lines sent, snd (m w) = touch lines sent w) ->
  leaves f m.
Proof. intros Hf Hm w. destruct (Hm w) as (lines & sent & ->). apply Hf. Qed.

(** Goals [leaves f m] for a program text [m] without loops. *)
Ltac frame :=
  unfold logger, session_append_message, session_append_log, st_error, st_rerun, now,
    requests_post, sdk, PyAudio, p_open, stream_close_, p_terminate, wave_save;
  repeat match goal with
         | |- leaves _ (ret _) => apply leaves_ret
         | |- leaves _ (raise _) => apply leaves_raise
         | |- leaves _ (lift _) => apply leaves_lift
         | |- leaves _ (bind _ _) => apply leaves_bind; [| intro]
         | |- leaves _ (try_except _ _) => apply leaves_try; [| intro]
         | |- leaves _ (modify _) => apply leaves_modify; intro; auto
         | |- leaves _ (fun w => lift _ _) => apply leaves_answer; intro; auto
         | |- leaves _ (fun w => (_, _)) => apply leaves_update; intro; auto
         | |- leaves _ (fun w => match _ with inl _ => _ | inr _ => _ end) =>
             apply leaves_effect; intro; auto
         | |- leaves _ (if ?b then _ else _) => destruct b
         | |- leaves _ (match ?x with _ => _ end) => destruct x
         end.

Lemma leaves_validate_endpoint {X : Type} (f : world -> X) (endpoint : option string) :
  (forall x w, f (add_log x w) = f w) ->
  leaves f (VoiceChatConsole.validate_azure_endpoint_format endpoint).
Proof.
  intros Hlog. unfold VoiceChatConsole.validate_azure_endpoint_format, logger.
  destruct endpoint as [e |]; [|apply leaves_ret].
  destruct (negb (truthy (Some e))); [apply leaves_ret|].
  apply leaves_bind; [|intros _; apply leaves_ret].
  destruct (negb (py_in "openai.azure.com" (VoiceChatConsole.fix_endpoint e)));
    [apply leaves_modify; intro; apply Hlog | apply leaves_ret].
Qed.

(** Whatever its arguments, the completion client changes the log and
    the list of requests sent, and nothing else. *)
Lemma complete_touches (c : console) (E : env)
  (endpoint api_key deployment search_endpoint search_key search_index : option string)
  (query : string) (api_version : option string) (w : world) :
  exists lines sent,
    snd (complete c E endpoint api_key deployment search_endpoint search_key
           search_index query api_version w) = touch lines sent w.
Proof.
  destruct endpoint as [e |].
  - destruct (truthy (Some e)) eqn:Htrue.
    + rewrite (complete_run c E e _ _ _ _ _ _ _ w Htrue). cbn [snd].
      eexists. eexists. reflexivity.
    + destruct e; [|discriminate Htrue].
      destruct c; unfold complete.
      * unfold AddChatConsole.call_azure_openai_with_search_rest.
        unfold bind at 1. unfold ret at 1. unfold bind.
        rewrite (add_loop_run E _ _ 0).
        destruct (loop_result add_console E 1 _ None);
          unfold ret, raise, logger, modify; cbn [snd].
        -- eexists. eexists. reflexivity.
        -- rewrite add_log_touch, touch_touch. eexists. eexists. reflexivity.
      * exists [], []. rewrite touch_nil. reflexivity.
  - exists [], []. rewrite touch_nil. destruct c; reflexivity.
Qed.

Lemma leaves_complete {X : Type} (f : world -> X) (c : console) (E : env)
  (endpoint api_key deployment search_endpoint search_key search_index : option string)
  (query : string) (api_version : option string) :
  (forall lines sent w, f (touch lines sent w) = f w) ->
  leaves f (complete c E endpoint api_key deployment search_endpoint search_key
              search_index query api_version).
Proof. intros Hf. apply (leaves_touch f _ Hf). intros w. apply complete_touches. Qed.

(** ** Validation and the "Send" block *)

Lemma validate_config_run (cfg : config) (w : world) :
  validate_config cfg w =
  (inr (all_required cfg),
   if all_required cfg then w
   else add_ui (UiError ("Missing required configuration: "
                           ++ join ", " (missing_params cfg))) w).
Proof.
  unfold validate_config, missing_params, all_required, required_params.
  cbn [filter map snd fst].
  destruct (truthy (azure_oai_endpoint cfg)), (truthy (azure_oai_key cfg)),
    (truthy (azure_oai_deployment cfg)); reflexivity.
Qed.

(** X1: [validate_config] returns [True] exactly when the endpoint, the
    key and the deployment are all set and not empty, and then touches
    nothing; otherwise it returns [False] after one [st.error] whose text
    names exactly the parameters that are missing. *)
Theorem validate_config_names_what_is_missing (cfg : config) (w : world) :
  fst (validate_config cfg w) = inr (all_required cfg) /\
  if all_required cfg then snd (validate_config cfg w) = w
  else exists msg,
         snd (validate_config cfg w) = add_ui (UiError msg) w /\
         forall p, In p required_params ->
                   (py_in (fst p) msg = true <-> truthy (snd p cfg) = false).
Proof.
  rewrite validate_config_run. cbn [fst snd]. split; [reflexivity|].
  unfold all_required, missing_params, required_params. cbn [filter map snd fst].
  destruct (truthy (azure_oai_endpoint cfg)) eqn:He,
           (truthy (azure_oai_key cfg)) eqn:Hk,
           (truthy (azure_oai_deployment cfg)) eqn:Hd;
    cbn [andb negb]; try reflexivity;
    (eexists; split; [reflexivity|];
     intros p [<- | [<- | [<- | []]]]; cbn [fst snd];
     rewrite ?He, ?Hk, ?Hd; vm_compute; split; intros H;
     first [reflexivity | discriminate H]).
Qed.

Lemma leaves_validate_config {X : Type} (f : world -> X) (cfg : config) :
  (forall u w, f (add_ui u w) = f w) -> leaves f (validate_config cfg).
Proof.
  intros Hui w. rewrite validate_config_run. cbn [snd].
  destruct (all_required cfg); [reflexivity | apply Hui].
Qed.

Lemma process_grows (c : console) (E : env) (query : string) (cfg : config)
  (w : world) :
  exists (content : pyval) (w' : world),
    process c E query cfg w = (inr tt, w') /\
    w_messages w' =
      (w_messages w ++
       [ mkMessage user (PStr query) (now_strftime E (w_clock w));
         mkMessage assistant content (now_strftime E (S (w_clock w))) ])%list.
Proof.
  destruct c; unfold process.
  - destruct (py_all [azure_search_endpoint cfg; azure_search_key cfg;
                      azure_search_index cfg]) eqn:Hall.
    + destruct (add_process_run E query cfg w Hall) as (content & w' & Hrun & Hm & _).
      exists content, w'. split; assumption.
    + destruct (add_process_query_search_missing E query cfg w Hall) as (Hres & _ & Hm).
      exists (PStr AddChatConsole.search_unavailable),
        (snd (AddChatConsole.process_query E query cfg w)).
      split; [|exact Hm].
      destruct (AddChatConsole.process_query E query cfg w) as [res w'].
      cbn [fst snd] in *. rewrite Hres. reflexivity.
  - destruct (voice_process_run E query cfg w) as (content & w' & Hrun & Hm & _).
    exists content, w'. split; assumption.
Qed.

(** X2: the "Send" block sends a query only for a non-empty text and a
    valid configuration, and then the chat history grows by the user's
    text and one assistant message.  With an empty text nothing at all
    happens (the configuration is not even validated); with a text and a
    missing required parameter only the error is shown: no request is
    sent and the history is unchanged. *)
Theorem send_text_gate (c : console) (E : env) (text_input : string) (cfg : config)
  (w : world) :
  exists w',
    main_send_text c E text_input cfg w = (inr tt, w') /\
    if negb (String.eqb text_input EmptyString) && all_required cfg then
      exists content,
        w_messages w' =
          (w_messages w ++
           [ mkMessage user (PStr text_input) (now_strftime E (w_clock w));
             mkMessage assistant content (now_strftime E (S (w_clock w))) ])%list
    else
      w_posts w' = w_posts w /\ w_messages w' = w_messages w /\
      if String.eqb text_input EmptyString then w' = w
      else exists msg, w' = add_ui (UiError msg) w.
Proof.
  unfold main_send_text.
  destruct (String.eqb text_input EmptyString); cbn [negb andb].
  - exists w. repeat split; reflexivity.
  - unfold bind. rewrite validate_config_run.
    destruct (all_required cfg).
    + destruct (process_grows c E text_input cfg w) as (content & w' & Hrun & Hm).
      exists w'. split; [exact Hrun|]. exists content. exact Hm.
    + eexists. split; [reflexivity|].
      repeat split. eexists. reflexivity.
Qed.

(** ** The connectivity test *)

Lemma test_connection_run (E : env) (cfg : config) (w : world) :
  test_azure_connection E cfg w =
  match azure_oai_endpoint cfg with
  | Some endpoint =>
      if truthy (Some endpoint) then
        (inr match http_post E (w_posts w) (test_request endpoint cfg) with
             | inr r => test_status_message cfg r
             | inl e => test_exception_message e
             end,
         touch (prelude_log voice_console endpoint) [test_request endpoint cfg] w)
      else (inr (false, "Invalid endpoint format"), w)
  | None => (inr (false, "Invalid endpoint format"), w)
  end.
Proof.
  unfold test_azure_connection, try_except.
  destruct (azure_oai_endpoint cfg) as [endpoint |]; [|reflexivity].
  destruct (truthy (Some endpoint)) eqn:Htrue.
  - unfold bind at 1. rewrite (validate_endpoint_run endpoint w Htrue).
    rewrite fix_endpoint_truthy. cbn [negb].
    unfold bind, requests_post, test_request. cbn [touch w_posts].
    rewrite app_nil_r.
    destruct (http_post E (w_posts w) _) as [e | r]; cbn;
      rewrite add_post_touch, touch_touch, app_nil_r; reflexivity.
  - destruct endpoint; [reflexivity | discriminate Htrue].
Qed.

Lemma test_status_ok (cfg : config) (r : response) :
  fst (test_status_message cfg r) = true <-> status_code r = 200.
Proof.
  unfold test_status_message.
  destruct (Nat.eqb (status_code r) 200) eqn:H200.
  - apply Nat.eqb_eq in H200. cbn. tauto.
  - apply Nat.eqb_neq in H200.
    destruct (Nat.eqb (status_code r) 404), (Nat.eqb (status_code r) 401),
      (Nat.eqb (status_code r) 403); cbn; split; intros H;
      first [discriminate H | contradiction].
Qed.

Lemma test_exception_not_ok (e : exn) : fst (test_exception_message e) = false.
Proof.
  unfold test_exception_message.
  destruct (isinstance e cls_Timeout), (isinstance e cls_ConnectionError); reflexivity.
Qed.

(** X3: [test_azure_connection] never raises.  It reports success exactly
    when the endpoint is set and the answer to its one request is a
    response with status 200; a timeout, a connection failure and any
    other exception are turned into a failure report.  Without an endpoint
    it reports "Invalid endpoint format" and sends nothing. *)
Theorem test_connection_verdict (E : env) (cfg : config) (w : world) :
  exists (ok : bool) (message : string) (w' : world),
    test_azure_connection E cfg w = (inr (ok, message), w') /\
    w_messages w' = w_messages w /\
    if truthy (azure_oai_endpoint cfg) then
      w_posts w' = (w_posts w ++ [test_request (fmt_opt (azure_oai_endpoint cfg)) cfg])%list /\
      (ok = true <->
       exists r, http_post E (w_posts w)
                   (test_request (fmt_opt (azure_oai_endpoint cfg)) cfg) = inr r /\
                 status_code r = 200)
    else w' = w /\ ok = false /\ message = "Invalid endpoint format".
Proof.
  rewrite test_connection_run.
  destruct (azure_oai_endpoint cfg) as [endpoint |]; cbn [truthy fmt_opt].
  - destruct (truthy (Some endpoint)) eqn:Htrue.
    + change (match endpoint with
              | EmptyString => false
              | String _ _ => true
              end) with (truthy (Some endpoint)).
      rewrite Htrue.
      destruct (http_post E (w_posts w) (test_request endpoint cfg)) as [e | r] eqn:Hpost.
      * destruct (test_exception_message e) as [ok message] eqn:Hmsg.
        exists ok, message. eexists. split; [reflexivity|].
        split; [reflexivity|]. split; [reflexivity|].
        pose proof (test_exception_not_ok e) as Hno. rewrite Hmsg in Hno. cbn in Hno.
        subst ok. split; [discriminate | intros (r & Hr & _); discriminate Hr].
      * destruct (test_status_message cfg r) as [ok message] eqn:Hmsg.
        exists ok, message. eexists. split; [reflexivity|].
        split; [reflexivity|]. split; [reflexivity|].
        pose proof (test_status_ok cfg r) as Hok. rewrite Hmsg in Hok. cbn in Hok.
        split.
        -- intros H. exists r. split; [reflexivity | apply Hok; exact H].
        -- intros (r' & Hr & Hs). injection Hr as <-. apply Hok. exact Hs.
    + change (match endpoint with
              | EmptyString => false
              | String _ _ => true
              end) with (truthy (Some endpoint)).
      rewrite Htrue.
      exists false, "Invalid endpoint format", w. repeat split; reflexivity.
  - exists false, "Invalid endpoint format", w. repeat split; reflexivity.
Qed.

(** ** More about the completion client *)

Lemma requests_shape (c : console) (endpoint : string)
  (api_key deployment search_endpoint search_key search_index : option string)
  (query : string) (api_version : option string) :
  Forall (fun r =>
            req_url r = completions_url (normalized c endpoint) deployment api_version /\
            req_headers r = request_headers api_key /\
            req_timeout r = 60 /\
            body_field "messages" r = Some (chat_messages query) /\
            body_field "temperature" r = Some (PFloat 0 0) /\
            body_field "max_tokens" r = Some (PInt 1000))
    (requests c endpoint api_key deployment search_endpoint search_key search_index
       query api_version).
Proof.
  unfold requests. apply Forall_forall. intros r Hin.
  apply in_map_iff in Hin. destruct Hin as (p & <- & Hp).
  destruct c; unfold payloads in Hp.
  - destruct Hp as [<- | [<- | [<- | [<- | []]]]]; repeat split; reflexivity.
  - unfold VoiceChatConsole.payloads_to_try in Hp.
    destruct (py_all [search_endpoint; search_key; search_index]);
      cbn [app] in Hp.
    + destruct Hp as [<- | [<- | [<- | []]]]; repeat split; reflexivity.
    + destruct Hp as [<- | []]; repeat split; reflexivity.
Qed.

Lemma requests_count (c : console) (endpoint : string)
  (api_key deployment search_endpoint search_key search_index : option string)
  (query : string) (api_version : option string) :
  length (requests c endpoint api_key deployment search_endpoint search_key
            search_index query api_version) =
  match c with
  | add_console => 4
  | voice_console => if py_all [search_endpoint; search_key; search_index] then 3 else 1
  end.
Proof.
  unfold requests. rewrite length_map. destruct c; [reflexivity|].
  unfold payloads, VoiceChatConsole.payloads_to_try.
  destruct (py_all [search_endpoint; search_key; search_index]); reflexivity.
Qed.

Lemma seen_length (E : env) (l : list (exn + response)) :
  length (seen E l) <= length l /\ (l <> [] -> 1 <= length (seen E l)).
Proof.
  induction l as [| a l [IH _]]; [split; [reflexivity | congruence]|].
  cbn [seen length]. split; [|intros _; lia].
  destruct (answered E a); cbn [length]; lia.
Qed.

Lemma loop_result_exhausted (c : console) (E : env) :
  forall (l : list (exn + response)) (i : nat) (le le' : option string),
  loop_result c E i l le = Exhausted le' ->
  Forall (fun a => answered E a = false) l /\
  (l <> [] -> exists msg, le' = Some msg).
Proof.
  induction l as [| a l IH]; intros i le le' H.
  - split; [constructor | congruence].
  - cbn [loop_result] in H.
    destruct (outcome_of E a) as [content | r | e] eqn:Ho; [discriminate H| |].
    + destruct (IH _ _ _ H) as [Hall Hmsg]. split.
      * constructor; [exact (not_answered_rejected _ _ _ Ho) | exact Hall].
      * intros _. destruct l as [| b l]; [|apply Hmsg; discriminate].
        cbn in H. injection H as <-. eexists. reflexivity.
    + destruct (IH _ _ _ H) as [Hall Hmsg]. split.
      * constructor; [exact (not_answered_broke _ _ _ Ho) | exact Hall].
      * intros _. destruct l as [| b l]; [|apply Hmsg; discriminate].
        cbn in H. injection H as <-. eexists. reflexivity.
Qed.

Lemma complete_posts (c : console) (E : env) (endpoint : string)
  (api_key deployment search_endpoint search_key search_index : option string)
  (query : string) (api_version : option string) (w : world) :
  truthy (Some endpoint) = true ->
  exists k,
    w_posts (snd (complete c E (Some endpoint) api_key deployment search_endpoint
                    search_key search_index query api_version w)) =
      (w_posts w ++
       firstn k (requests c endpoint api_key deployment search_endpoint search_key
                   search_index query api_version))%list /\
    1 <= k <= length (requests c endpoint api_key deployment search_endpoint search_key
                        search_index query api_version).
Proof.
  intros Htrue.
  rewrite (complete_run c E endpoint _ _ _ _ _ _ _ w Htrue).
  cbn [snd touch w_posts]. eexists. split; [reflexivity|].
  match goal with
  | |- context [seen E ?l] =>
      destruct (seen_length E l) as [Hle Hge];
      assert (Hlen : length l = length (requests c endpoint api_key deployment
                                          search_endpoint search_key search_index
                                          query api_version))
        by apply answers_length;
      assert (Hne : l <> [])
  end.
  { intros Hnil.
    apply (requests_not_nil c endpoint api_key deployment search_endpoint search_key
             search_index query api_version).
    apply length_zero_iff_nil. rewrite <- Hlen, Hnil. reflexivity. }
  specialize (Hge Hne). lia.
Qed.

Section CompletionCallMore.

Variables (c : console) (E : env) (endpoint : string).
Variables (api_key deployment search_endpoint search_key search_index : option string).
Variables (query : string) (api_version : option string) (w : world).

Let rs : list request :=
  requests c endpoint api_key deployment search_endpoint search_key search_index
    query api_version.

Let got : list (exn + response) := answers E (w_posts w) rs.

Let run : (exn + pyval) * world :=
  complete c E (Some endpoint) api_key deployment search_endpoint search_key
    search_index query api_version w.

(** X4: whatever the answers are, a call sends the variants in list
    order and none twice -- the requests it sends are the first [k] of
    the list, with [1 <= k] -- so at most four requests per call in
    [main_add_chatconsole.py] and at most three (one without a full search
    configuration) in [main_voice_chat_console.py]. *)
Theorem complete_sends_a_prefix :
  truthy (Some endpoint) = true ->
  exists k,
    w_posts (snd run) = (w_posts w ++ firstn k rs)%list /\
    1 <= k <= length rs /\
    length rs =
      match c with
      | add_console => 4
      | voice_console =>
          if py_all [search_endpoint; search_key; search_index] then 3 else 1
      end.
Proof.
  intros Htrue.
  destruct (complete_posts c E endpoint api_key deployment search_endpoint search_key
              search_index query api_version w Htrue) as (k & Hposts & Hk).
  exists k. split; [exact Hposts|]. split; [exact Hk|].
  apply requests_count.
Qed.

(** X5: nothing but the aggregated failure escapes the client.  When a
    call with an endpoint raises, the exception is the plain [Exception]
    with the fixed sentence, every variant has been submitted and none was
    answered; a timeout, a connection failure or a malformed body of a
    single attempt never reaches the caller. *)
Theorem complete_raises_only_when_exhausted (e : exn) :
  truthy (Some endpoint) = true ->
  fst run = inl e ->
  (exists msg,
      e = Exception ("All API payload structures failed. Last error: " ++ msg)) /\
  w_posts (snd run) = (w_posts w ++ rs)%list /\
  Forall (fun a => answered E a = false) got.
Proof.
  intros Htrue. unfold run.
  rewrite (complete_run c E endpoint _ _ _ _ _ _ _ w Htrue).
  cbn [fst snd touch w_posts]. fold rs got.
  destruct (loop_result c E 1 got None) as [content | last_error] eqn:Hloop;
    cbn [call_result]; intros He; [discriminate He|].
  injection He as <-.
  destruct (loop_result_exhausted c E got 1 None last_error Hloop) as [Hall Hmsg].
  assert (Hlen : length got = length rs) by apply answers_length.
  split; [|split; [|exact Hall]].
  - destruct Hmsg as [msg ->].
    + intros Hnil.
      apply (requests_not_nil c endpoint api_key deployment search_endpoint search_key
               search_index query api_version).
      apply length_zero_iff_nil. fold rs. rewrite <- Hlen, Hnil. reflexivity.
    + exists msg. reflexivity.
  - rewrite (seen_all_failed E got Hall), Hlen, firstn_all. reflexivity.
Qed.

(** X6: every request a call sends asks the same question in the same
    way: its body holds the system prompt and the user's query as
    [messages], temperature 0.0 and [max_tokens] 1000, whichever variant
    it is; it carries the [api-key] header and a timeout of 60 seconds. *)
Theorem every_request_asks_the_query :
  truthy (Some endpoint) = true ->
  exists sent,
    w_posts (snd run) = (w_posts w ++ sent)%list /\
    Forall (fun r =>
              body_field "messages" r = Some (chat_messages query) /\
              body_field "temperature" r = Some (PFloat 0 0) /\
              body_field "max_tokens" r = Some (PInt 1000) /\
              dict_get "api-key" (req_headers r) = Some (of_opt api_key) /\
              req_timeout r = 60)
           sent.
Proof.
  intros Htrue. unfold run.
  rewrite (complete_run c E endpoint _ _ _ _ _ _ _ w Htrue).
  cbn [snd touch w_posts]. eexists. split; [reflexivity|].
  apply Forall_forall. intros r Hin. apply in_firstn_in in Hin.
  pose proof (requests_shape c endpoint api_key deployment search_endpoint search_key
                search_index query api_version) as Hall.
  rewrite Forall_forall in Hall.
  destruct (Hall r Hin) as (_ & Hh & Ht & Hm & Htemp & Hmax).
  repeat split; try assumption. rewrite Hh. reflexivity.
Qed.

End CompletionCallMore.

Lemma complete_sends_a_prefix_witness :
  exists k,
    w_posts (snd (complete voice_console search_down
                    (Some "myresource.openai.azure.com/") (Some "key") (Some "gpt")
                    (Some "https://s.search.windows.net") (Some "skey") (Some "idx")
                    "hi" (Some "2024-06-01") world0)) =
      firstn k (requests voice_console "myresource.openai.azure.com/" (Some "key")
                  (Some "gpt") (Some "https://s.search.windows.net") (Some "skey")
                  (Some "idx") "hi" (Some "2024-06-01")) /\
    1 <= k <= 3.
Proof.
  destruct (complete_sends_a_prefix voice_console search_down
              "myresource.openai.azure.com/" (Some "key") (Some "gpt")
              (Some "https://s.search.windows.net") (Some "skey") (Some "idx")
              "hi" (Some "2024-06-01") world0 eq_refl) as (k & Hposts & Hk & Hlen).
  exists k. split; [exact Hposts|]. rewrite Hlen in Hk. exact Hk.
Defined.

Lemma complete_raises_only_when_exhausted_witness :
  exists e,
    fst (complete add_console (refusing 500) (Some "https://myresource.openai.azure.com")
           (Some "key") (Some "gpt") None None None "hi" (Some "2024-06-01") world0)
      = inl e /\
    length (w_posts (snd (complete add_console (refusing 500)
                            (Some "https://myresource.openai.azure.com")
                            (Some "key") (Some "gpt") None None None "hi"
                            (Some "2024-06-01") world0))) = 4.
Proof.
  eexists. split; [reflexivity|].
  rewrite (proj1 (proj2 (complete_raises_only_when_exhausted add_console (refusing 500)
                           "https://myresource.openai.azure.com" (Some "key")
                           (Some "gpt") None None None "hi" (Some "2024-06-01") world0
                           _ eq_refl eq_refl))).
  reflexivity.
Defined.

Lemma every_request_asks_the_query_witness :
  exists sent,
    w_posts (snd (complete add_console search_down
                    (Some "https://myresource.openai.azure.com") (Some "key")
                    (Some "gpt") None None None "hi" (Some "2024-06-01") world0)) = sent /\
    Forall (fun r => body_field "messages" r = Some (chat_messages "hi") /\
                     req_timeout r = 60) sent.
Proof.
  destruct (every_request_asks_the_query add_console search_down
              "https://myresource.openai.azure.com" (Some "key") (Some "gpt")
              None None None "hi" (Some "2024-06-01") world0 eq_refl)
    as (sent & Hposts & Hall).
  exists sent. split; [exact Hposts|].
  eapply Forall_impl; [|exact Hall].
  intros r (Hm & _ & _ & _ & Ht). split; assumption.
Defined.

(** X7: the connectivity test knocks at the door the client uses: its one
    request has the URL and the headers of every request a call of the
    client of [main_voice_chat_console.py] sends with the same
    configuration; it differs in its 10-token body and its timeout of 10
    seconds. *)
Theorem test_connection_addresses_like_the_client (E : env) (cfg : config)
  (endpoint query : string) (w : world) :
  azure_oai_endpoint cfg = Some endpoint ->
  truthy (Some endpoint) = true ->
  w_posts (snd (test_azure_connection E cfg w)) =
    (w_posts w ++ [test_request endpoint cfg])%list /\
  req_timeout (test_request endpoint cfg) = 10 /\
  body_field "max_tokens" (test_request endpoint cfg) = Some (PInt 10) /\
  exists sent,
    w_posts (snd (call_with voice_console E cfg query w)) = (w_posts w ++ sent)%list /\
    Forall (fun r => req_url r = req_url (test_request endpoint cfg) /\
                     req_headers r = req_headers (test_request endpoint cfg))
           sent.
Proof.
  intros Hcfg Htrue.
  rewrite test_connection_run, Hcfg, Htrue. cbn [snd touch w_posts].
  split; [reflexivity|]. split; [reflexivity|]. split; [reflexivity|].
  unfold call_with. rewrite Hcfg.
  rewrite (complete_run voice_console E endpoint _ _ _ _ _ _ _ w Htrue).
  cbn [snd touch w_posts]. eexists. split; [reflexivity|].
  apply Forall_forall. intros r Hin. apply in_firstn_in in Hin.
  pose proof (requests_shape voice_console endpoint (azure_oai_key cfg)
                (azure_oai_deployment cfg) (azure_search_endpoint cfg)
                (azure_search_key cfg) (azure_search_index cfg) query
                (azure_api_version cfg)) as Hall.
  rewrite Forall_forall in Hall.
  destruct (Hall r Hin) as (Hu & Hh & _). split; assumption.
Qed.

Lemma test_connection_addresses_like_the_client_witness :
  w_posts (snd (test_azure_connection search_down demo_config world0)) =
    [test_request "myresource.openai.azure.com/" demo_config] /\
  req_url (test_request "myresource.openai.azure.com/" demo_config) =
    "https://myresource.openai.azure.com/openai/deployments/gpt/chat/completions?api-version=2024-06-01".
Proof.
  split; [|reflexivity].
  exact (proj1 (test_connection_addresses_like_the_client search_down demo_config
                  "myresource.openai.azure.com/" "hi" world0 eq_refl eq_refl)).
Defined.

(** X8: a call without an endpoint sends nothing.  In
    [main_voice_chat_console.py] it raises the exception "Invalid Azure
    OpenAI endpoint format" for a missing and for an empty endpoint alike;
    in [main_add_chatconsole.py] a missing endpoint fails on [.rstrip]
    before anything is logged or sent, whereas an empty one is used as it
    is: every request goes to a URL that starts at [/openai/deployments/],
    without a host. *)
Theorem call_without_endpoint (c : console) (E : env)
  (endpoint api_key deployment search_endpoint search_key search_index : option string)
  (query : string) (api_version : option string) (w : world) :
  truthy endpoint = false ->
  match c, endpoint with
  | voice_console, _ =>
      complete c E endpoint api_key deployment search_endpoint search_key search_index
        query api_version w =
      (inl (Exception "Invalid Azure OpenAI endpoint format"), w)
  | add_console, None =>
      complete c E endpoint api_key deployment search_endpoint search_key search_index
        query api_version w =
      (inl (attribute_error E PNone "rstrip"), w)
  | add_console, Some _ =>
      exists sent,
        w_posts (snd (complete c E endpoint api_key deployment search_endpoint
                        search_key search_index query api_version w)) =
          (w_posts w ++ sent)%list /\
        sent <> [] /\
        Forall (fun r => req_url r =
                         ("/openai/deployments/" ++ fmt_opt deployment
                            ++ "/chat/completions?api-version="
                            ++ fmt_opt api_version)%string)
               sent
  end.
Proof.
  intros Hfalse. destruct c.
  - destruct endpoint as [e |]; [|reflexivity].
    destruct e; [|discriminate Hfalse].
    unfold complete, AddChatConsole.call_azure_openai_with_search_rest.
    unfold bind at 1. unfold ret at 1. unfold bind.
    rewrite (add_loop_run E _ _ 0).
    match goal with
    | |- context [seen E ?l] => set (got := l)
    end.
    exists (firstn (length (seen E got))
              (map (fun p => mkRequest (completions_url (rstrip "/" "") deployment
                                          api_version)
                                       (request_headers api_key) p 60)
                   (AddChatConsole.payloads_to_try search_endpoint search_key
                      search_index query))).
    split; [|split].
    + destruct (loop_result add_console E 1 got None);
        unfold ret, raise, logger, modify; cbn [snd touch w_posts]; reflexivity.
    + destruct (seen_length E got) as [_ Hge].
      assert (Hpos : 1 <= length (seen E got)) by (apply Hge; discriminate).
      destruct (seen E got); [cbn in Hpos; lia | discriminate].
    + apply Forall_forall. intros r Hin. apply in_firstn_in in Hin.
      apply in_map_iff in Hin. destruct Hin as (p & <- & _). reflexivity.
  - destruct endpoint as [e |]; [|reflexivity].
    destruct e; [reflexivity | discriminate Hfalse].
Qed.

Lemma call_without_endpoint_witness :
  complete voice_console search_down (Some "") (Some "key") (Some "gpt") None None None
    "hi" (Some "2024-06-01") world0 =
  (inl (Exception "Invalid Azure OpenAI endpoint format"), world0).
Proof.
  exact (call_without_endpoint voice_console search_down (Some "") (Some "key")
           (Some "gpt") None None None "hi" (Some "2024-06-01") world0 eq_refl).
Defined.

(** ** The fallback warning *)

Lemma failure_is_not_fallback_warning (c : console) (E : env) (i : nat)
  (a : exn + response) :
  answered E a = false ->
  (failure_level E a, failure_msg c E i a) <> fallback_warning.
Proof.
  unfold answered, failure_level, failure_msg, fallback_warning.
  destruct (outcome_of E a) as [content | r | e]; intros Ha H;
    [discriminate Ha | | discriminate H].
  destruct c.
  - unfold AddChatConsole.status_error_msg in H. cbn in H. discriminate H.
  - unfold VoiceChatConsole.status_error_msg in H.
    destruct (json r); cbn in H; discriminate H.
Qed.

Lemma fallback_warning_in_attempt (c : console) (E : env) (n i : nat)
  (a : exn + response) :
  In fallback_warning (attempt_log c E n i a) ->
  fallback_test c n i = true /\ exists r, a = inr r /\ status_code r = 200.
Proof.
  unfold attempt_log. intros [H | H]; [discriminate H|].
  apply in_app_or in H. destruct H as [H | H].
  - destruct a as [e | r]; [contradiction|].
    destruct (Nat.eqb (status_code r) 200) eqn:Hs; [|contradiction].
    destruct (json r); [contradiction|].
    destruct H as [H | H]; [discriminate H|].
    destruct (fallback_test c n i); [|contradiction].
    split; [reflexivity|]. exists r. split; [reflexivity|].
    apply Nat.eqb_eq. exact Hs.
  - destruct (answered E a) eqn:Ha; [contradiction|].
    destruct H as [H | []].
    exfalso. exact (failure_is_not_fallback_warning c E i a Ha H).
Qed.

Lemma fallback_warning_when_answered (c : console) (E : env) (n i : nat)
  (a : exn + response) :
  answered E a = true ->
  fallback_test c n i = true ->
  In fallback_warning (attempt_log c E n i a).
Proof.
  intros Ha Ht. unfold attempt_log.
  unfold answered, outcome_of in Ha.
  destruct a as [e | r]; [discriminate Ha|].
  destruct (Nat.eqb (status_code r) 200); [|discriminate Ha].
  destruct (json r) as [e | result]; [discriminate Ha|].
  rewrite Ht. right. cbn. right. left. reflexivity.
Qed.

Lemma seen_log_app (c : console) (E : env) (n : nat) :
  forall (l1 l2 : list (exn + response)) (i : nat),
  seen_log c E n i (l1 ++ l2) =
  (seen_log c E n i l1 ++ seen_log c E n (i + length l1) l2)%list.
Proof.
  induction l1 as [| a l1 IH]; intros l2 i.
  - cbn. rewrite Nat.add_0_r. reflexivity.
  - cbn [app seen_log length]. rewrite IH, <- app_assoc, Nat.add_succ_r. reflexivity.
Qed.

Lemma no_fallback_warning_before_last (c : console) (E : env) (n : nat) :
  forall (l : list (exn + response)) (i : nat),
  (forall j, i <= j < i + length l -> fallback_test c n j = false) ->
  ~ In fallback_warning (seen_log c E n i l).
Proof.
  induction l as [| a l IH]; intros i Htest H; [contradiction|].
  cbn [seen_log] in H. apply in_app_or in H. destruct H as [H | H].
  - destruct (fallback_warning_in_attempt c E n i a H) as [Ht _].
    rewrite (Htest i) in Ht; [discriminate Ht|]. cbn [length]. lia.
  - apply (IH (S i)); [|exact H].
    intros j Hj. apply Htest. cbn [length]. lia.
Qed.

Lemma fallback_test_last (c : console)
  (search_endpoint search_key search_index : option string) (query : string) (i : nat) :
  fallback_test c (length (payloads c search_endpoint search_key search_index query)) i =
  Nat.eqb i (length (payloads c search_endpoint search_key search_index query)).
Proof. destruct c; reflexivity. Qed.

Lemma prelude_has_no_fallback_warning (c : console) (endpoint : string) :
  ~ In fallback_warning (prelude_log c endpoint).
Proof.
  unfold prelude_log. destruct c; [intros []|].
  destruct (negb (py_in "openai.azure.com" (VoiceChatConsole.fix_endpoint endpoint)));
    [|intros []].
  intros [H | []]. cbn in H. discriminate H.
Qed.

(** X9: a successful call logs "Used fallback mode without search
    integration" exactly when the answer came from the last variant of
    the list.  In [main_voice_chat_console.py] without a full search
    configuration the list is the plain body alone, so there every
    successful call logs the warning although nothing was fallen back
    from. *)
Theorem fallback_warning_iff_last_variant (c : console) (E : env) (endpoint : string)
  (api_key deployment search_endpoint search_key search_index : option string)
  (query : string) (api_version : option string) (w : world)
  (pre post : list (exn + response)) (a : exn + response) :
  truthy (Some endpoint) = true ->
  answers E (w_posts w)
    (requests c endpoint api_key deployment search_endpoint search_key search_index
       query api_version) = (pre ++ a :: post)%list ->
  Forall (fun x => answered E x = false) pre ->
  answered E a = true ->
  exists lines,
    w_log (snd (complete c E (Some endpoint) api_key deployment search_endpoint
                  search_key search_index query api_version w)) =
      (w_log w ++ lines)%list /\
    (In fallback_warning lines <-> post = []).
Proof.
  intros Htrue Hgot Hpre Ha.
  rewrite (complete_run c E endpoint _ _ _ _ _ _ _ w Htrue).
  cbn [snd touch w_log]. eexists. split; [reflexivity|].
  rewrite Hgot.
  rewrite (seen_first_answer E pre post a Hpre Ha).
  assert (Hloop : loop_result c E 1 (pre ++ a :: post) None
                  = Returned match outcome_of E a with
                             | Answered content => content
                             | _ => PNone
                             end).
  { unfold answered in Ha. destruct (outcome_of E a) as [content | |] eqn:Ho;
      try discriminate Ha.
    exact (loop_result_first_answer c E a content post Ho pre 1 None Hpre). }
  rewrite Hloop. cbn [closing_log]. rewrite app_nil_r.
  rewrite seen_log_app. cbn [seen_log]. rewrite app_nil_r.
  assert (Hn : length (payloads c search_endpoint search_key search_index query)
               = length pre + S (length post)).
  { pose proof (answers_length E
                  (requests c endpoint api_key deployment search_endpoint search_key
                     search_index query api_version) (w_posts w)) as Hlen.
    rewrite Hgot in Hlen. unfold requests in Hlen.
    rewrite length_map, length_app in Hlen. cbn [length] in Hlen. lia. }
  split.
  - intros Hin. apply in_app_or in Hin. destruct Hin as [Hin | Hin];
      [exfalso; exact (prelude_has_no_fallback_warning c endpoint Hin)|].
    apply in_app_or in Hin. destruct Hin as [Hin | Hin].
    + exfalso. revert Hin. apply no_fallback_warning_before_last.
      intros j Hj. rewrite fallback_test_last. apply Nat.eqb_neq. lia.
    + destruct (fallback_warning_in_attempt c E _ _ a Hin) as [Ht _].
      rewrite fallback_test_last in Ht. apply Nat.eqb_eq in Ht.
      destruct post; [reflexivity | cbn [length] in *; lia].
  - intros ->. apply in_or_app. right. apply in_or_app. right.
    apply (fallback_warning_when_answered c E _ _ a Ha).
    rewrite fallback_test_last. apply Nat.eqb_eq. cbn [length] in Hn. lia.
Qed.

Lemma fallback_warning_iff_last_variant_witness :
  py_all [azure_search_endpoint plain_config; azure_search_key plain_config;
          azure_search_index plain_config] = false /\
  exists lines,
    w_log (snd (call_with voice_console search_down plain_config "hi" world0)) = lines /\
    In fallback_warning lines.
Proof.
  split; [reflexivity|].
  destruct (fallback_warning_iff_last_variant voice_console search_down
              "https://myresource.openai.azure.com" (Some "key") (Some "gpt")
              None None None "hi" (Some "2024-06-01") world0
              [] [] (inr (ok_response "sawasdee")) eq_refl eq_refl
              (Forall_nil _) eq_refl) as (lines & Hlog & Hiff).
  exists lines. split; [exact Hlog | apply Hiff; reflexivity].
Defined.

(** ** More about the endpoint *)

Lemma rstrip_fixed (s : string) :
  last_char s <> Some "/"%char -> rstrip "/" s = s.
Proof.
  induction s as [| a s IH]; intros Hlast; [reflexivity|].
  cbn [rstrip]. destruct s as [| b t].
  - cbn [rstrip]. destruct (Ascii.eqb a "/") eqn:Ha; [|reflexivity].
    apply Ascii.eqb_eq in Ha. subst a. exfalso. apply Hlast. reflexivity.
  - rewrite IH; [reflexivity|]. exact Hlast.
Qed.

Lemma rstrip_idempotent (s : string) : rstrip "/" (rstrip "/" s) = rstrip "/" s.
Proof. apply rstrip_fixed. apply rstrip_last. Qed.

Lemma last_char_append (p t : string) :
  t <> EmptyString -> last_char (p ++ t) = last_char t.
Proof.
  intros Ht. induction p as [| a p IH]; [reflexivity|].
  cbn [append last_char]. destruct (p ++ t)%string as [| b u] eqn:Hpt.
  - destruct p; cbn in Hpt; [contradiction | discriminate Hpt].
  - exact IH.
Qed.

(** X10: the endpoint [validate_azure_endpoint_format] returns always
    starts with [https://].  Unless the value consists of slashes only, the
    result has no trailing slash and is a fixed point: validating it
    again changes nothing, so an endpoint once corrected is not
    "corrected" a second time.  A value of slashes only becomes the bare
    [https://]. *)
Theorem corrected_endpoint_is_stable (endpoint : string) :
  startswith (VoiceChatConsole.fix_endpoint endpoint) "https://" = true /\
  match rstrip "/" endpoint with
  | EmptyString => VoiceChatConsole.fix_endpoint endpoint = "https://"
  | String _ _ =>
      last_char (VoiceChatConsole.fix_endpoint endpoint) <> Some "/"%char /\
      VoiceChatConsole.fix_endpoint (VoiceChatConsole.fix_endpoint endpoint) =
        VoiceChatConsole.fix_endpoint endpoint
  end.
Proof.
  assert (Hfixed : forall s, last_char s <> Some "/"%char ->
                             startswith s "https://" = true ->
                             VoiceChatConsole.fix_endpoint s = s).
  { intros s Hl Hs. unfold VoiceChatConsole.fix_endpoint.
    rewrite (rstrip_fixed s Hl), Hs. reflexivity. }
  pose proof (rstrip_last endpoint) as Hlast.
  assert (Hfe : VoiceChatConsole.fix_endpoint endpoint =
                if startswith (rstrip "/" endpoint) "https://"
                then rstrip "/" endpoint
                else ("https://" ++ rstrip "/" endpoint)%string) by reflexivity.
  destruct (rstrip "/" endpoint) as [| a s] eqn:Hr.
  - rewrite Hfe. split; reflexivity.
  - destruct (startswith (String a s) "https://") eqn:Hs; rewrite !Hfe.
    + split; [exact Hs|]. split; [exact Hlast|].
      apply Hfixed; assumption.
    + assert (Hl : last_char ("https://" ++ String a s) <> Some "/"%char).
      { rewrite last_char_append; [exact Hlast | discriminate]. }
      assert (Hp : startswith ("https://" ++ String a s) "https://" = true).
      { unfold startswith. apply prefix_append. }
      split; [exact Hp|]. split; [exact Hl|].
      apply Hfixed; assumption.
Qed.

(** X11: [AZURE_API_VERSION] is not among the validated parameters.  When
    it is unset, [main_add_chatconsole.py] formats the missing value into
    the URL, so every request goes to [...?api-version=None];
    [main_voice_chat_console.py] falls back to [2024-06-01]. *)
Theorem unset_api_version (c : console) (E : env) (getenv : string -> option string)
  (endpoint query : string) (w : world) :
  getenv "AZURE_API_VERSION" = None ->
  getenv "AZURE_OAI_ENDPOINT" = Some endpoint ->
  truthy (Some endpoint) = true ->
  exists sent,
    w_posts (snd (call_with c E (load c getenv) query w)) = (w_posts w ++ sent)%list /\
    sent <> [] /\
    Forall (fun r =>
              req_url r =
              (normalized c endpoint ++ "/openai/deployments/"
                 ++ fmt_opt (getenv "AZURE_OAI_DEPLOYMENT")
                 ++ "/chat/completions?api-version="
                 ++ match c with
                    | add_console => "None"
                    | voice_console => "2024-06-01"
                    end)%string)
           sent.
Proof.
  intros Hver Hend Htrue.
  assert (Hcfg : azure_oai_endpoint (load c getenv) = Some endpoint)
    by (destruct c; exact Hend).
  unfold call_with. rewrite Hcfg.
  destruct (complete_posts c E endpoint
              (azure_oai_key (load c getenv)) (azure_oai_deployment (load c getenv))
              (azure_search_endpoint (load c getenv)) (azure_search_key (load c getenv))
              (azure_search_index (load c getenv)) query
              (azure_api_version (load c getenv)) w Htrue) as (k & Hposts & [Hk _]).
  eexists. split; [exact Hposts|]. split.
  - destruct k as [| k]; [lia|].
    pose proof (requests_not_nil c endpoint
                  (azure_oai_key (load c getenv)) (azure_oai_deployment (load c getenv))
                  (azure_search_endpoint (load c getenv))
                  (azure_search_key (load c getenv))
                  (azure_search_index (load c getenv)) query
                  (azure_api_version (load c getenv))) as Hne.
    destruct (requests c endpoint _ _ _ _ _ query _); [congruence | discriminate].
  - apply Forall_forall. intros r Hin. apply in_firstn_in in Hin.
    pose proof (requests_url c endpoint
                  (azure_oai_key (load c getenv)) (azure_oai_deployment (load c getenv))
                  (azure_search_endpoint (load c getenv))
                  (azure_search_key (load c getenv))
                  (azure_search_index (load c getenv)) query
                  (azure_api_version (load c getenv))) as Hall.
    rewrite Forall_forall in Hall. rewrite (Hall r Hin).
    unfold completions_url.
    destruct c; cbn [load AddChatConsole.load_config VoiceChatConsole.load_config
                     azure_oai_deployment azure_api_version];
      unfold getenv_default; rewrite Hver; reflexivity.
Qed.

Lemma unset_api_version_witness :
  exists sent,
    w_posts (snd (call_with add_console search_down (load add_console bare_environment)
                    "hi" world0)) = sent /\
    sent <> [] /\
    Forall (fun r =>
              req_url r =
              "https://myresource.openai.azure.com/openai/deployments/gpt/chat/completions?api-version=None")
           sent.
Proof.
  destruct (unset_api_version add_console search_down bare_environment
              "https://myresource.openai.azure.com/" "hi" world0
              eq_refl eq_refl eq_refl) as (sent & Hposts & Hne & Hall).
  exists sent. split; [exact Hposts|]. split; [exact Hne | exact Hall].
Defined.

(** ** More about the recording *)

Lemma read_frames_run (E : env) :
  forall (n i : nat) (frames : list string) (w : world),
  match read_frames E i n frames w with
  | (inr frames', w') =>
      w' = w /\
      exists new, frames' = (frames ++ new)%list /\
                  Forall2 (fun j data => stream_read E j = inr data) (seq i n) new
  | (inl e, w') =>
      w' = w /\ exists j, i <= j < i + n /\ stream_read E j = inl e
  end.
Proof.
  induction n as [| n IH]; intros i frames w.
  - cbn. split; [reflexivity|]. exists []. rewrite app_nil_r. split; constructor.
  - cbn [read_frames]. unfold bind, lift.
    destruct (stream_read E i) as [e | data] eqn:Hread.
    + cbn. split; [reflexivity|]. exists i. split; [lia | exact Hread].
    + unfold ret at 1. specialize (IH (S i) (frames ++ [data])%list w).
      destruct (read_frames E (S i) n (frames ++ [data]) w) as [[e | frames'] w'].
      * destruct IH as [-> (j & Hj & Hr)]. split; [reflexivity|].
        exists j. split; [lia | exact Hr].
      * destruct IH as [-> (new & -> & Hall)]. split; [reflexivity|].
        exists (data :: new). rewrite <- app_assoc. split; [reflexivity|].
        cbn [seq]. constructor; assumption.
Qed.

Lemma reads_determined (E : env) :
  forall (n i : nat) (l1 l2 : list string),
  Forall2 (fun j data => stream_read E j = inr data) (seq i n) l1 ->
  Forall2 (fun j data => stream_read E j = inr data) (seq i n) l2 ->
  l1 = l2.
Proof.
  induction n as [| n IH]; intros i l1 l2 H1 H2; cbn [seq] in *.
  - inversion H1. inversion H2. reflexivity.
  - inversion H1 as [| ? d1 ? t1 Hd1 Ht1]; subst.
    inversion H2 as [| ? d2 ? t2 Hd2 Ht2]; subst.
    rewrite Hd1 in Hd2. injection Hd2 as ->.
    rewrite (IH (S i) t1 t2 Ht1 Ht2). reflexivity.
Qed.

Lemma reads_all_work (E : env) :
  forall (n i : nat) (l : list string),
  Forall2 (fun j data => stream_read E j = inr data) (seq i n) l ->
  forall j, i <= j < i + n -> exists data, stream_read E j = inr data.
Proof.
  induction n as [| n IH]; intros i l H j Hj; [lia|].
  cbn [seq] in H. inversion H as [| ? d ? t Hd Ht]; subst.
  destruct (Nat.eq_dec j i) as [-> | Hne]; [exists d; exact Hd|].
  apply (IH (S i) t Ht). lia.
Qed.

Ltac unit_answers :=
  repeat match goal with
         | u : unit |- _ => destruct u
         end.

(** [record_audio], read off the answers of the device and the file
    system. *)
Lemma record_audio_run (E : env) (duration : nat) (w : world) :
  exists (r : option string) (w' : world),
    record_audio E duration w = (inr r, w') /\
    match r with
    | Some name =>
        exists frames,
          recording_works E duration name frames /\
          w_files w' = (w_files w ++ [(name, frames)])%list /\
          device_released w w'
    | None => forall name frames, ~ recording_works E duration name frames
    end.
Proof.
  unfold record_audio, try_except, bind, logger, modify, PyAudio, p_open.
  destruct (pa_init E) as [e | u] eqn:Hinit.
  { eexists None, _. split; [reflexivity|].
    intros name frames (H1 & H2 & Hn & H3 & H4 & H5 & H6 & H7 & H8). congruence. }
  destruct (pa_open E) as [e | u0] eqn:Hopen.
  { eexists None, _. split; [reflexivity|].
    intros name frames (H1 & H2 & Hn & H3 & H4 & H5 & H6 & H7 & H8). congruence. }
  destruct (chunk_count duration) as [e | n] eqn:Hcount.
  { eexists None, _. split; [reflexivity|].
    intros name frames (H1 & H2 & Hn & H3 & H4 & H5 & H6 & H7 & H8). congruence. }
  unfold lift at 1. unfold ret at 1.
  match goal with
  | |- context [read_frames E 0 n [] ?w0] =>
      pose proof (read_frames_run E n 0 [] w0) as Hread;
      destruct (read_frames E 0 n [] w0) as [[e | frames] w1]
  end.
  { destruct Hread as [-> (j & Hj & Hr)].
    eexists None, _. split; [reflexivity|].
    intros name frames (H1 & H2 & Hn & H3 & H4 & H5 & H6 & H7 & H8).
    assert (Hlen : length frames = n) by congruence. rewrite Hlen in H3.
    destruct (reads_all_work E _ _ _ H3 j Hj) as [data Hd]. congruence. }
  destruct Hread as [-> (new & -> & Hall)]. cbn [app] in *.
  unfold lift, stream_close_, p_terminate, wave_save.
  destruct (stream_stop E) as [e | u1] eqn:Hstop.
  { eexists None, _. split; [reflexivity|].
    intros name frames (H1 & H2 & Hn & H3 & H4 & H5 & H6 & H7 & H8). congruence. }
  unfold ret at 1.
  destruct (stream_close E) as [e | u2] eqn:Hclose.
  { eexists None, _. split; [reflexivity|].
    intros name frames (H1 & H2 & Hn & H3 & H4 & H5 & H6 & H7 & H8). congruence. }
  destruct (pa_terminate E) as [e | u3] eqn:Hterm.
  { eexists None, _. split; [reflexivity|].
    intros name frames (H1 & H2 & Hn & H3 & H4 & H5 & H6 & H7 & H8). congruence. }
  destruct (mktemp E) as [e | name] eqn:Htemp.
  { eexists None, _. split; [reflexivity|].
    intros name frames (H1 & H2 & Hn & H3 & H4 & H5 & H6 & H7 & H8). congruence. }
  unfold ret at 1.
  destruct (wave_write E name new) as [e | u4] eqn:Hwave.
  { eexists None, _. split; [reflexivity|].
    intros name' frames (H1 & H2 & Hn & H3 & H4 & H5 & H6 & H7 & H8).
    assert (Hlen : length frames = n) by congruence. rewrite Hlen in H3.
    rewrite (reads_determined E _ _ _ _ H3 Hall) in H8. congruence. }
  eexists (Some name), _. split; [reflexivity|].
  exists new. unit_answers.
  assert (Hlen : length new = n).
  { apply Forall2_length in Hall. rewrite length_seq in Hall. symmetry. exact Hall. }
  split; [unfold recording_works; rewrite Hlen; repeat split; assumption|].
  split; [reflexivity|]. split; reflexivity.
Qed.

(** ** From the microphone to the query *)

Lemma leaves_transcribe {X : Type} (f : world -> X) (c : console) (E : env)
  (path : option string) :
  (forall x w, f (add_log x w) = f w) ->
  leaves f (transcribe c E path).
Proof.
  intros Hlog.
  destruct c; unfold transcribe, AddChatConsole.transcribe_audio,
    VoiceChatConsole.transcribe_audio, transcribe_audio_with, transcribe_handler;
    frame.
Qed.

Lemma leaves_read_frames {X : Type} (f : world -> X) (E : env) :
  forall (n i : nat) (frames : list string), leaves f (read_frames E i n frames).
Proof.
  intros n i frames w. pose proof (read_frames_run E n i frames w) as H.
  destruct (read_frames E i n frames w) as [[e | frames'] w']; destruct H as [-> _];
    reflexivity.
Qed.

Lemma leaves_record_audio {X : Type} (f : world -> X) (E : env) (duration : nat) :
  (forall x w, f (add_log x w) = f w) ->
  (forall a b w, f (set_audio a b w) = f w) ->
  (forall x w, f (add_file x w) = f w) ->
  leaves f (record_audio E duration).
Proof.
  intros Hlog Haudio Hfile. unfold record_audio.
  apply leaves_try; [|intro; frame].
  repeat (apply leaves_bind; [| intro]);
    first [apply leaves_read_frames | frame].
Qed.

(** X12: [record_audio] never raises, whatever the duration.  It returns
    a file name only when every step worked, and then the file holds
    exactly the chunks read, in order, [int(RATE / CHUNK * duration)] of
    them, and the stream and the device handle have been released.  As
    long as the float product is exact ([11025 * duration] below [2^53])
    these are as many chunks as fit into the duration, short of it by less
    than one chunk of 1024 samples.  It returns [None] only when a step
    raised.  It sends no request and leaves the chat history alone. *)
Theorem record_audio_never_raises (E : env) (duration : nat) (w : world) :
  exists (r : option string) (w' : world),
    record_audio E duration w = (inr r, w') /\
    w_posts w' = w_posts w /\ w_messages w' = w_messages w /\
    match r with
    | Some name =>
        exists frames,
          recording_works E duration name frames /\
          w_files w' = (w_files w ++ [(name, frames)])%list /\
          device_released w w' /\
          chunk_count duration = inr (length frames) /\
          ((11025 * Z.of_nat duration < 2 ^ 53)%Z ->
           (N.of_nat (length frames) * CHUNK <= RATE * N.of_nat duration
            /\ RATE * N.of_nat duration < (N.of_nat (length frames) + 1) * CHUNK)%N)
    | None => forall name frames, ~ recording_works E duration name frames
    end.
Proof.
  destruct (record_audio_run E duration w) as (r & w' & Hrun & Hr).
  exists r, w'. split; [exact Hrun|].
  pose proof (leaves_record_audio w_posts E duration
                (fun _ _ => eq_refl) (fun _ _ _ => eq_refl) (fun _ _ => eq_refl) w)
    as Hposts.
  pose proof (leaves_record_audio w_messages E duration
                (fun _ _ => eq_refl) (fun _ _ _ => eq_refl) (fun _ _ => eq_refl) w)
    as Hmsgs.
  rewrite Hrun in Hposts, Hmsgs. cbn [snd] in Hposts, Hmsgs.
  split; [exact Hposts|]. split; [exact Hmsgs|].
  destruct r as [name |]; [|exact Hr].
  destruct Hr as (frames & Hworks & Hfiles & Hdev).
  exists frames. split; [exact Hworks|]. split; [exact Hfiles|]. split; [exact Hdev|].
  destruct Hworks as (_ & _ & Hcount & _).
  split; [exact Hcount|].
  intros Hshort. exact (chunk_count_bounds duration (length frames) Hshort Hcount).
Qed.

Lemma leaves_os_remove {X : Type} (f : world -> X)
  (remove : string -> exn + unit) (name : string) :
  (forall n w, f (remove_file n w) = f w) ->
  leaves f (os_remove_quietly remove name).
Proof. intros Hrm. unfold os_remove_quietly. frame. Qed.

Lemma leaves_text_to_speech {X : Type} (f : world -> X) (c : console) (E : env)
  (text : pyval) (cfg : config) :
  (forall x w, f (add_log x w) = f w) ->
  (forall x w, f (add_sdk x w) = f w) ->
  leaves f (synthesize_speech c E text cfg).
Proof.
  intros Hlog Hsdk.
  destruct c; unfold synthesize_speech, AddChatConsole.text_to_speech,
    VoiceChatConsole.text_to_speech, synthesize, text_to_speech_handler, slice_to_50;
    frame.
Qed.

Lemma leaves_process {X : Type} (f : world -> X) (c : console) (E : env)
  (query : string) (cfg : config) :
  (forall x w, f (add_log x w) = f w) ->
  (forall x w, f (add_message x w) = f w) ->
  (forall x w, f (add_session_log x w) = f w) ->
  (forall x w, f (add_ui x w) = f w) ->
  (forall w, f (tick w) = f w) ->
  (forall x w, f (add_sdk x w) = f w) ->
  (forall lines sent w, f (touch lines sent w) = f w) ->
  leaves f (process c E query cfg).
Proof.
  intros Hlog Hmsg Hslog Hui Htick Hsdk Htouch.
  assert (Hcall : leaves f (call_with c E cfg query))
    by (apply leaves_complete; exact Htouch).
  assert (Htts : forall text, leaves f (synthesize_speech voice_console E text cfg))
    by (intro; apply leaves_text_to_speech; assumption).
  destruct c; unfold process, AddChatConsole.process_query,
    VoiceChatConsole.process_query.
  - unfold call_with, complete in Hcall.
    repeat first
      [ exact Hcall
      | apply leaves_bind; [| intro]
      | apply leaves_try; [| intro]
      | match goal with
        | |- leaves _ (if ?b then _ else _) => destruct b
        end
      | progress frame ].
  - unfold call_with, complete in Hcall. unfold synthesize_speech in Htts.
    repeat first
      [ exact Hcall
      | apply Htts
      | apply leaves_bind; [| intro]
      | apply leaves_try; [| intro]
      | match goal with
        | |- leaves _ (if ?b then _ else _) => destruct b
        end
      | progress frame ].
Qed.

Lemma prefix_app_r (a : string) :
  forall p s, String.prefix a p = true -> String.prefix a (p ++ s) = true.
Proof.
  induction a as [| x a IH]; intros p s H.
  - destruct (p ++ s)%string; reflexivity.
  - destruct p as [| y p]; [discriminate H|].
    cbn [append]. cbn in H |- *.
    destruct (ascii_dec x y); [|discriminate H].
    apply IH. exact H.
Qed.

Lemma rejected_by_prefix (c : console) (s : string) :
  startswith s (cannot_prefix c) = true \/ startswith s (failure_prefix c) = true ->
  accepted_transcription c s = false.
Proof.
  unfold accepted_transcription. intros [H | H]; rewrite H; cbn [negb].
  - rewrite andb_false_r. reflexivity.
  - apply andb_false_r.
Qed.

Lemma placeholder_rejected (c : console) (e : exn) :
  accepted_transcription c (placeholder_for c e) = false.
Proof.
  apply rejected_by_prefix. unfold placeholder_for, startswith.
  destruct (exn_kind_of e);
    first [ left; destruct c; reflexivity
          | right; apply prefix_app_r; destruct c; reflexivity ].
Qed.

Lemma transcribe_result (c : console) (E : env) (path : option string) (w : world) :
  exists w',
    transcribe c E path w =
    (inr match heard E path with
         | inr text => text
         | inl e => placeholder_for c e
         end, w').
Proof.
  destruct c; unfold transcribe, AddChatConsole.transcribe_audio,
    VoiceChatConsole.transcribe_audio.
  - exact (transcribe_with_run AddChatConsole.unrecognized_speech
             AddChatConsole.recognition_error AddChatConsole.conversion_error E path w).
  - exact (transcribe_with_run VoiceChatConsole.unrecognized_speech
             VoiceChatConsole.recognition_error VoiceChatConsole.conversion_error
             E path w).
Qed.

(** X13: the placeholders of [transcribe_audio] and the test in [main]
    fit together: whatever made the transcription fail, the string it
    returns is refused by [main]'s test, so a text [main] accepts is
    always the text the recognizer returned. *)
Theorem accepted_text_is_recognized_text (c : console) (E : env)
  (path : option string) (w : world) :
  exists (s : string) (w' : world),
    transcribe c E path w = (inr s, w') /\
    (accepted_transcription c s = true -> heard E path = inr s).
Proof.
  destruct (transcribe_result c E path w) as [w' Hrun].
  eexists. exists w'. split; [exact Hrun|].
  destruct (heard E path) as [e | text]; [|reflexivity].
  rewrite placeholder_rejected. discriminate.
Qed.

Lemma os_remove_returns (remove : string -> exn + unit) (name : string) (w : world) :
  exists w', os_remove_quietly remove name w = (inr tt, w') /\
             (remove name = inr tt -> w' = remove_file name w).
Proof.
  unfold os_remove_quietly, try_except.
  destruct (remove name) as [e | []].
  - exists w. split; [reflexivity | discriminate].
  - exists (remove_file name w). split; reflexivity.
Qed.

Lemma start_recording_steps (c : console) (E : env) (remove : string -> exn + unit)
  (duration : nat) (cfg : config) (recording : option bool) (w : world) :
  all_required cfg = true ->
  recording <> Some true ->
  main_start_recording c E remove duration cfg recording w =
  match record_audio E duration w with
  | (inl e, w1) => (inl e, w1)
  | (inr r, w1) =>
      if truthy r then
        match transcribe c E r w1 with
        | (inl e, w2) => (inl e, w2)
        | (inr s, w2) =>
            match os_remove_quietly remove (fmt_opt r) w2 with
            | (inl e, w3) => (inl e, w3)
            | (inr _, w3) =>
                if accepted_transcription c s then
                  match process c E s cfg w3 with
                  | (inl e, w4) => (inl e, w4)
                  | (inr _, w4) => (inr (Some false), w4)
                  end
                else (inr (Some false), add_ui (UiError (could_not_transcribe c)) w3)
            end
        end
      else (inr (Some false), add_ui (UiError (failed_to_record c)) w1)
  end.
Proof.
  intros Hvalid Hflag.
  assert (Hnot : negb match recording with Some b => b | None => false end = true).
  { destruct recording as [[|] |]; [congruence | reflexivity | reflexivity]. }
  unfold main_start_recording. unfold bind at 1.
  rewrite validate_config_run, Hvalid, Hnot.
  unfold bind.
  destruct (record_audio E duration w) as [[e | r] w1]; [reflexivity|].
  destruct (truthy r); [|reflexivity].
  destruct (transcribe c E r w1) as [[e | s] w2]; [reflexivity|].
  destruct (os_remove_quietly remove (fmt_opt r) w2) as [[e | u] w3]; [reflexivity|].
  destruct (accepted_transcription c s); [|reflexivity].
  destruct (process c E s cfg w3) as [[e | u'] w4]; reflexivity.
Qed.

Lemma same_chat_after {A : Type} (m : M A) (w : world) :
  leaves w_posts m -> leaves w_messages m -> leaves w_clock m ->
  same_chat w (snd (m w)).
Proof. intros Hp Hm Hc. repeat split; [apply Hp | apply Hm | apply Hc]. Qed.

Lemma same_chat_trans (w w1 w2 : world) :
  same_chat w w1 -> same_chat w1 w2 -> same_chat w w2.
Proof. intros (Hp & Hm & Hc) (Hp' & Hm' & Hc'). repeat split; congruence. Qed.

(** The block under "Start Recording", step by step, for a valid
    configuration and no recording under way. *)
Lemma start_recording_run (c : console) (E : env) (remove : string -> exn + unit)
  (duration : nat) (cfg : config) (recording : option bool) (w : world) :
  all_required cfg = true ->
  recording <> Some true ->
  exists r w1,
    record_audio E duration w = (inr r, w1) /\
    same_chat w w1 /\
    ((truthy r = false /\
      main_start_recording c E remove duration cfg recording w =
        (inr (Some false), add_ui (UiError (failed_to_record c)) w1)) \/
     (truthy r = true /\
      exists s w2 w3,
        transcribe c E r w1 = (inr s, w2) /\
        s = match heard E r with
            | inr text => text
            | inl e => placeholder_for c e
            end /\
        w_files w2 = w_files w1 /\
        os_remove_quietly remove (fmt_opt r) w2 = (inr tt, w3) /\
        (remove (fmt_opt r) = inr tt -> w3 = remove_file (fmt_opt r) w2) /\
        same_chat w w3 /\
        ((accepted_transcription c s = false /\
          main_start_recording c E remove duration cfg recording w =
            (inr (Some false), add_ui (UiError (could_not_transcribe c)) w3)) \/
         (accepted_transcription c s = true /\
          exists content w4,
            process c E s cfg w3 = (inr tt, w4) /\
            w_messages w4 =
              (w_messages w3 ++
               [ mkMessage user (PStr s) (now_strftime E (w_clock w3));
                 mkMessage assistant content (now_strftime E (S (w_clock w3))) ])%list /\
            w_files w4 = w_files w3 /\
            main_start_recording c E remove duration cfg recording w =
              (inr (Some false), w4))))).
Proof.
  intros Hvalid Hflag.
  rewrite (start_recording_steps c E remove duration cfg recording w Hvalid Hflag).
  destruct (record_audio_run E duration w) as (r & w1 & Hrec & _).
  assert (H1 : same_chat w w1).
  { pose proof (same_chat_after (record_audio E duration) w) as H.
    rewrite Hrec in H. apply H; apply leaves_record_audio; reflexivity. }
  exists r, w1. split; [exact Hrec|]. split; [exact H1|]. rewrite Hrec.
  destruct (truthy r); [right | left; split; reflexivity].
  split; [reflexivity|].
  destruct (transcribe_result c E r w1) as [w2 Htrans].
  destruct (os_remove_returns remove (fmt_opt r) w2) as (w3 & Hrm & Hgone).
  assert (H2 : same_chat w1 w2).
  { pose proof (same_chat_after (transcribe c E r) w1) as H.
    rewrite Htrans in H. apply H; apply leaves_transcribe; reflexivity. }
  assert (Hf2 : w_files w2 = w_files w1).
  { pose proof (leaves_transcribe w_files c E r (fun _ _ => eq_refl) w1) as H.
    rewrite Htrans in H. exact H. }
  assert (H3 : same_chat w2 w3).
  { pose proof (same_chat_after (os_remove_quietly remove (fmt_opt r)) w2) as H.
    rewrite Hrm in H. apply H; apply leaves_os_remove; reflexivity. }
  eexists. exists w2, w3. rewrite Htrans, Hrm.
  split; [reflexivity|]. split; [reflexivity|]. split; [exact Hf2|].
  split; [reflexivity|]. split; [exact Hgone|].
  split; [exact (same_chat_trans _ _ _ H1 (same_chat_trans _ _ _ H2 H3))|].
  match goal with
  | |- context [accepted_transcription c ?s] =>
      destruct (accepted_transcription c s); [right | left; split; reflexivity];
      (split; [reflexivity|]);
      destruct (process_grows c E s cfg w3) as (content & w4 & Hproc & Hm);
      pose proof (leaves_process w_files c E s cfg
                    (fun _ _ => eq_refl) (fun _ _ => eq_refl) (fun _ _ => eq_refl)
                    (fun _ _ => eq_refl) (fun _ => eq_refl) (fun _ _ => eq_refl)
                    (fun _ _ _ => eq_refl) w3) as Hf4
  end.
  rewrite Hproc in Hf4. cbn [snd] in Hf4.
  exists content, w4. rewrite Hproc. repeat split; assumption.
Qed.

Lemma start_recording_blocked (c : console) (E : env) (remove : string -> exn + unit)
  (duration : nat) (cfg : config) (recording : option bool) (w : world) :
  main_start_recording c E remove duration cfg recording w =
  if all_required cfg then
    match recording with
    | Some true => (inr (Some true), w)
    | _ => main_start_recording c E remove duration cfg recording w
    end
  else
    (inr recording,
     add_ui (UiError ("Missing required configuration: "
                        ++ join ", " (missing_params cfg))) w).
Proof.
  destruct (all_required cfg) eqn:Hvalid.
  - destruct recording as [[|] |]; try reflexivity.
    unfold main_start_recording. unfold bind at 1.
    rewrite validate_config_run, Hvalid. reflexivity.
  - unfold main_start_recording. unfold bind at 1.
    rewrite validate_config_run, Hvalid. reflexivity.
Qed.


Lemma recorded_file_name (E : env) (duration : nat) (w : world) (r : option string)
  (w1 : world) (name : string) (frames : list string) :
  record_audio E duration w = (inr r, w1) ->
  recording_works E duration name frames ->
  r = Some name /\ w_files w1 = (w_files w ++ [(name, frames)])%list.
Proof.
  intros Hrec Hworks.
  destruct (record_audio_run E duration w) as (r' & w1' & Hrec' & Hr).
  rewrite Hrec in Hrec'. injection Hrec' as <- <-.
  destruct r as [name' |]; [|exfalso; exact (Hr name frames Hworks)].
  destruct Hr as (frames' & Hworks' & Hfiles & _).
  destruct Hworks as (_ & _ & Hn & Hall & _ & _ & _ & Hname & _).
  destruct Hworks' as (_ & _ & Hn' & Hall' & _ & _ & _ & Hname' & _).
  rewrite Hname in Hname'. injection Hname' as <-.
  assert (Hlen : length frames' = length frames) by congruence.
  rewrite Hlen in Hall'.
  rewrite (reads_determined E _ _ _ _ Hall Hall'). split; [reflexivity | exact Hfiles].
Qed.

Lemma recorded_only_when_working (E : env) (duration : nat) (w : world)
  (name : string) (w1 : world) :
  record_audio E duration w = (inr (Some name), w1) -> mktemp E = inr name.
Proof.
  intros Hrec.
  destruct (record_audio_run E duration w) as (r' & w1' & Hrec' & Hr).
  rewrite Hrec in Hrec'. injection Hrec' as <- <-.
  destruct Hr as (frames & Hworks & _).
  destruct Hworks as (_ & _ & _ & _ & _ & _ & _ & Hname & _). exact Hname.
Qed.

(** X14: no exception of the recording, the transcription, the removal
    of the file or the completion client escapes from the block under
    "Start Recording"; with a valid configuration and no recording under
    way it leaves the flag [recording] at [False], whatever happened to
    the recording, the transcription or the query.  With the flag at
    [True] it does nothing at all, and with an invalid configuration it
    only shows the error and leaves the flag alone. *)
Theorem start_recording_always_finishes (c : console) (E : env)
  (remove : string -> exn + unit) (duration : nat) (cfg : config)
  (recording : option bool) (w : world) :
  exists (flag : option bool) (w' : world),
    main_start_recording c E remove duration cfg recording w = (inr flag, w') /\
    if all_required cfg then
      match recording with
      | Some true => flag = Some true /\ w' = w
      | _ => flag = Some false
      end
    else flag = recording /\ same_chat w w'.
Proof.
  rewrite start_recording_blocked.
  destruct (all_required cfg) eqn:Hvalid.
  - assert (Hrun : recording <> Some true ->
                   exists w', main_start_recording c E remove duration cfg recording w
                              = (inr (Some false), w')).
    { intros Hflag.
      destruct (start_recording_run c E remove duration cfg recording w Hvalid Hflag)
        as (r & w1 & _ & _ & [[_ H] | (_ & s & w2 & w3 & _ & _ & _ & _ & _ & _ & H)]).
      - eexists. exact H.
      - destruct H as [[_ H] | (_ & content & w4 & _ & _ & _ & H)];
          eexists; exact H. }
    destruct recording as [[|] |].
    + exists (Some true), w. repeat split.
    + destruct Hrun as [w' H]; [discriminate|]. exists (Some false), w'. split; auto.
    + destruct Hrun as [w' H]; [discriminate|]. exists (Some false), w'. split; auto.
  - eexists. eexists. split; [reflexivity|]. repeat split.
Qed.

(** X15: nothing but an accepted recognized text reaches the completion
    client from the microphone.  When the recognizer fails on the recorded
    file, or returns a text the test in [main] refuses (an empty one, or
    one that happens to begin like a placeholder), the block sends no
    request and the chat history is unchanged. *)
Theorem start_recording_sends_only_recognized_text (c : console) (E : env)
  (remove : string -> exn + unit) (duration : nat) (cfg : config)
  (recording : option bool) (w : world) :
  (forall name text,
      mktemp E = inr name -> heard E (Some name) = inr text ->
      accepted_transcription c text = false) ->
  exists (flag : option bool) (w' : world),
    main_start_recording c E remove duration cfg recording w = (inr flag, w') /\
    w_posts w' = w_posts w /\ w_messages w' = w_messages w.
Proof.
  intros Hrefused.
  rewrite start_recording_blocked.
  destruct (all_required cfg) eqn:Hvalid;
    [|eexists; eexists; split; [reflexivity|]; split; reflexivity].
  assert (Hrun : recording <> Some true ->
                 exists w', main_start_recording c E remove duration cfg recording w
                            = (inr (Some false), w')
                            /\ w_posts w' = w_posts w /\ w_messages w' = w_messages w).
  { intros Hflag.
    destruct (start_recording_run c E remove duration cfg recording w Hvalid Hflag)
      as (r & w1 & Hrec & (Hp1 & Hm1 & _) & [[_ H] | (Htr & s & w2 & w3 & _ & Hs & _ & _ & _
                                              & (Hp3 & Hm3 & _) & H)]).
    - eexists. split; [exact H|]. split; assumption.
    - destruct H as [[_ H] | (Hacc & _)].
      + eexists. split; [exact H|]. split; assumption.
      + exfalso. destruct r as [name |]; [|discriminate Htr].
        pose proof (recorded_only_when_working E duration w name w1 Hrec) as Hname.
        destruct (heard E (Some name)) as [e | text] eqn:Hheard; subst s.
        * rewrite placeholder_rejected in Hacc. discriminate Hacc.
        * rewrite (Hrefused name text Hname Hheard) in Hacc. discriminate Hacc. }
  destruct recording as [[|] |].
  - exists (Some true), w. repeat split.
  - destruct Hrun as (w' & H & Hp & Hm); [discriminate|]. exists (Some false), w'. auto.
  - destruct Hrun as (w' & H & Hp & Hm); [discriminate|]. exists (Some false), w'. auto.
Qed.

Lemma start_recording_sends_only_recognized_text_witness :
  exists flag w',
    main_start_recording voice_console (hearing "ไม่สามารถไปได้") removing 1 plain_config
      None world0 = (inr flag, w') /\
    w_posts w' = [] /\ w_messages w' = [].
Proof.
  apply (start_recording_sends_only_recognized_text voice_console
           (hearing "ไม่สามารถไปได้") removing 1 plain_config None world0).
  intros name text _ Hheard. cbn in Hheard. injection Hheard as <-. reflexivity.
Defined.

(** X16: when the recording works and the recognizer returns a text that
    [main] accepts, the chat history grows by exactly that text as the
    user's message and one assistant message. *)
Theorem start_recording_asks_what_was_said (c : console) (E : env)
  (remove : string -> exn + unit) (duration : nat) (cfg : config)
  (recording : option bool) (w : world) (name text : string) (frames : list string) :
  all_required cfg = true ->
  recording <> Some true ->
  recording_works E duration name frames ->
  name <> EmptyString ->
  heard E (Some name) = inr text ->
  accepted_transcription c text = true ->
  exists content w',
    main_start_recording c E remove duration cfg recording w = (inr (Some false), w') /\
    w_messages w' =
      (w_messages w ++
       [ mkMessage user (PStr text) (now_strftime E (w_clock w));
         mkMessage assistant content (now_strftime E (S (w_clock w))) ])%list.
Proof.
  intros Hvalid Hflag Hworks Hname Hheard Hacc.
  destruct (start_recording_run c E remove duration cfg recording w Hvalid Hflag)
    as (r & w1 & Hrec & _ & H).
  destruct (recorded_file_name E duration w r w1 name frames Hrec Hworks) as [-> _].
  destruct H as [[Htr _] | (_ & s & w2 & w3 & _ & Hs & _ & _ & _ & (_ & Hm3 & Hc3) & H)].
  { destruct name; [congruence | discriminate Htr]. }
  rewrite Hheard in Hs. subst s.
  destruct H as [[Hno _] | (_ & content & w4 & _ & Hm4 & _ & H)]; [congruence|].
  exists content, w4. split; [exact H|].
  rewrite Hm4, Hm3, Hc3. reflexivity.
Qed.

Lemma start_recording_asks_what_was_said_witness :
  exists content w',
    main_start_recording voice_console (hearing "hello") removing 1 plain_config
      None world0 = (inr (Some false), w') /\
    w_messages w' =
      [ mkMessage user (PStr "hello") "2026-01-01 00:00:00";
        mkMessage assistant content "2026-01-01 00:00:00" ].
Proof.
  apply (start_recording_asks_what_was_said voice_console (hearing "hello") removing 1
           plain_config None world0 "/tmp/rec.wav" "hello" (repeat "frame" 43)).
  - reflexivity.
  - discriminate.
  - unfold recording_works. repeat split; try reflexivity.
    vm_compute. repeat constructor.
  - discriminate.
  - reflexivity.
  - reflexivity.
Defined.

Lemma removed_name_is_gone (name : string) (w : world) :
  ~ In name (map fst (w_files (remove_file name w))).
Proof.
  unfold remove_file. cbn [w_files]. intros Hin.
  apply in_map_iff in Hin. destruct Hin as (f & Hf & Hin).
  apply filter_In in Hin. destruct Hin as [_ Hne].
  rewrite Hf, String.eqb_refl in Hne. discriminate Hne.
Qed.

(** X17: the temporary file of a recording does not outlive the block:
    once the recording has worked and [os.remove] succeeds, no file of
    that name is left, whether the transcription was accepted or not. *)
Theorem start_recording_removes_its_file (c : console) (E : env)
  (remove : string -> exn + unit) (duration : nat) (cfg : config)
  (recording : option bool) (w : world) (name : string) (frames : list string) :
  all_required cfg = true ->
  recording <> Some true ->
  recording_works E duration name frames ->
  name <> EmptyString ->
  remove name = inr tt ->
  exists w',
    main_start_recording c E remove duration cfg recording w = (inr (Some false), w') /\
    ~ In name (map fst (w_files w')).
Proof.
  intros Hvalid Hflag Hworks Hname Hremove.
  destruct (start_recording_run c E remove duration cfg recording w Hvalid Hflag)
    as (r & w1 & Hrec & _ & H).
  destruct (recorded_file_name E duration w r w1 name frames Hrec Hworks) as [-> _].
  destruct H as [[Htr _] | (_ & s & w2 & w3 & _ & _ & _ & _ & Hgone & _ & H)].
  { destruct name; [congruence | discriminate Htr]. }
  cbn [fmt_opt] in Hgone. specialize (Hgone Hremove). subst w3.
  destruct H as [[_ H] | (_ & content & w4 & _ & _ & Hf4 & H)].
  - eexists. split; [exact H|]. apply (removed_name_is_gone name w2).
  - exists w4. split; [exact H|]. rewrite Hf4. apply removed_name_is_gone.
Qed.

Lemma start_recording_removes_its_file_witness :
  exists w',
    main_start_recording voice_console (hearing "hello") removing 1 plain_config
      None world0 = (inr (Some false), w') /\
    ~ In "/tmp/rec.wav" (map fst (w_files w')).
Proof.
  apply (start_recording_removes_its_file voice_console (hearing "hello") removing 1
           plain_config None world0 "/tmp/rec.wav" (repeat "frame" 43)).
  - reflexivity.
  - discriminate.
  - unfold recording_works. repeat split; try reflexivity.
    vm_compute. repeat constructor.
  - discriminate.
  - reflexivity.
Defined.

(** ** More about [process_query] *)

Lemma last_pair {A : Type} (l : list A) (a b d : A) :
  last (l ++ [a; b]) d = b.
Proof.
  change [a; b] with ([a] ++ [b])%list. rewrite app_assoc. apply last_last.
Qed.

Lemma call_with_touches (c : console) (E : env) (cfg : config) (query : string)
  (w : world) (res : exn + pyval) (w' : world) :
  call_with c E cfg query w = (res, w') ->
  w_messages w' = w_messages w /\ w_logs w' = w_logs w /\ w_ui w' = w_ui w /\
  w_sdk w' = w_sdk w /\ w_clock w' = w_clock w.
Proof.
  intros Hcall. unfold call_with in Hcall.
  destruct (complete_touches c E (azure_oai_endpoint cfg) (azure_oai_key cfg)
              (azure_oai_deployment cfg) (azure_search_endpoint cfg)
              (azure_search_key cfg) (azure_search_index cfg) query
              (azure_api_version cfg) w) as (lines & sent & Ht).
  rewrite Hcall in Ht. cbn [snd] in Ht. subst w'. repeat split.
Qed.

(** What [process_query] leaves behind when it gets as far as the
    client, by the outcome of the call. *)
Lemma process_after_call (c : console) (E : env) (query : string) (cfg : config)
  (w : world) :
  reaches_client c cfg = true ->
  exists res w2 w' calls,
    call_with c E cfg query (asked E query w) = (res, w2) /\
    process c E query cfg w = (inr tt, w') /\
    w_sdk w' = (w_sdk w ++ calls)%list /\
    match res with
    | inr content =>
        last (w_messages w') (mkMessage user PNone "") =
          mkMessage assistant content (now_strftime E (S (w_clock w))) /\
        w_logs w' = (w_logs w ++ [query_line E query w; success_line E w])%list /\
        w_ui w' = (w_ui w ++ [UiRerun])%list /\
        match c with
        | add_console => calls = []
        | voice_console =>
            calls = if speech_configured cfg then synthesis_calls E content cfg else []
        end
    | inl e =>
        last (w_messages w') (mkMessage user PNone "") =
          mkMessage assistant (error_text c e) (now_strftime E (S (w_clock w))) /\
        w_logs w' = (w_logs w ++ [query_line E query w; error_line E w e])%list /\
        w_ui w' = (w_ui w ++ [UiError (error_string c e); UiRerun])%list /\
        calls = []
    end.
Proof.
  intros Hreach.
  destruct (call_with c E cfg query (asked E query w)) as [res w2] eqn:Hcall.
  destruct (call_with_touches c E cfg query _ res w2 Hcall)
    as (Hm2 & Hl2 & Hu2 & Hs2 & Hc2).
  exists res, w2.
  destruct c; unfold process, reaches_client in *.
  - unfold AddChatConsole.process_query. rewrite Hreach. cbn [negb].
    unfold bind, now, session_append_message, session_append_log, logger, modify,
      st_rerun, st_error, try_except.
    change (AddChatConsole.call_azure_openai_with_search_rest E
              (azure_oai_endpoint cfg) (azure_oai_key cfg) (azure_oai_deployment cfg)
              (azure_search_endpoint cfg) (azure_search_key cfg)
              (azure_search_index cfg) query (azure_api_version cfg)
              (add_log (INFO, "[" ++ now_strftime E (w_clock w) ++ "] User Query: "
                                ++ query)
                 (add_session_log ("[" ++ now_strftime E (w_clock w)
                                       ++ "] User Query: " ++ query)
                    (add_message (mkMessage user (PStr query)
                                    (now_strftime E (w_clock w))) (tick w)))))
      with (call_with add_console E cfg query (asked E query w)).
    rewrite Hcall.
    destruct res as [e | content]; eexists; exists [];
      (split; [reflexivity|]); (split; [reflexivity|]).
    all: cbn; rewrite ?Hm2, ?Hl2, ?Hu2, ?Hs2, ?Hc2; cbn;
      rewrite ?app_nil_r, <- ?app_assoc; cbn.
    all: repeat split; try reflexivity; apply last_pair.
  - unfold VoiceChatConsole.process_query.
    unfold bind, now, session_append_message, session_append_log, logger, modify,
      st_rerun, st_error, try_except.
    change (VoiceChatConsole.call_azure_openai_with_search_rest E
              (azure_oai_endpoint cfg) (azure_oai_key cfg) (azure_oai_deployment cfg)
              (azure_search_endpoint cfg) (azure_search_key cfg)
              (azure_search_index cfg) query (azure_api_version cfg)
              (add_log (INFO, "[" ++ now_strftime E (w_clock w) ++ "] User Query: "
                                ++ query)
                 (add_session_log ("[" ++ now_strftime E (w_clock w)
                                       ++ "] User Query: " ++ query)
                    (add_message (mkMessage user (PStr query)
                                    (now_strftime E (w_clock w))) (tick w)))))
      with (call_with voice_console E cfg query (asked E query w)).
    rewrite Hcall.
    destruct res as [e | content].
    + eexists; exists []; (split; [reflexivity|]); (split; [reflexivity|]).
      cbn; rewrite ?Hm2, ?Hl2, ?Hu2, ?Hs2, ?Hc2; cbn;
        rewrite ?app_nil_r, <- ?app_assoc; cbn;
        repeat split; try reflexivity; apply last_pair.
    + change (truthy (azure_speech_key cfg) && truthy (azure_speech_region cfg))
        with (speech_configured cfg).
      destruct (speech_configured cfg) eqn:Hcfg.
      * match goal with
        | |- context [VoiceChatConsole.text_to_speech E content cfg ?W] =>
            destruct (synthesize_guarded_run E content cfg W) as (Hb & Hs4 & Hm4 & _);
            pose proof (leaves_text_to_speech w_logs voice_console E content cfg
                          (fun _ _ => eq_refl) (fun _ _ => eq_refl) W) as Hl4;
            pose proof (leaves_text_to_speech w_ui voice_console E content cfg
                          (fun _ _ => eq_refl) (fun _ _ => eq_refl) W) as Hu4
        end.
        rewrite <- (voice_text_to_speech_configured E content cfg Hcfg) in Hb, Hs4, Hm4.
        unfold synthesize_speech in Hl4, Hu4.
        match goal with
        | |- context [VoiceChatConsole.text_to_speech E content cfg ?W] =>
            destruct (VoiceChatConsole.text_to_speech E content cfg W) as [res4 w4]
        end.
        cbn [fst snd] in Hb, Hs4, Hm4, Hl4, Hu4. subst res4.
        eexists; exists (synthesis_calls E content cfg);
          (split; [reflexivity|]); (split; [reflexivity|]).
        cbn. rewrite Hs4, Hm4, Hl4, Hu4. cbn.
        rewrite ?Hm2, ?Hl2, ?Hu2, ?Hs2, ?Hc2; cbn;
          rewrite <- ?app_assoc; cbn.
        repeat split; try reflexivity; apply last_pair.
      * eexists; exists []; (split; [reflexivity|]); (split; [reflexivity|]).
        cbn; rewrite ?Hm2, ?Hl2, ?Hu2, ?Hs2, ?Hc2; cbn;
          rewrite ?app_nil_r, <- ?app_assoc; cbn;
          repeat split; try reflexivity; apply last_pair.
Qed.

(** [process_query] of [main_add_chatconsole.py] without a full search
    configuration: the warning is logged, nothing is shown as an error. *)
Lemma process_without_search (E : env) (query : string) (cfg : config) (w : world) :
  reaches_client add_console cfg = false ->
  exists w',
    process add_console E query cfg w = (inr tt, w') /\
    w_sdk w' = w_sdk w /\
    w_logs w' = (w_logs w ++ [query_line E query w; warning_line E w])%list /\
    w_ui w' = (w_ui w ++ [UiRerun])%list.
Proof.
  unfold reaches_client, process. intros Hall.
  unfold AddChatConsole.process_query, bind, try_except, now, session_append_message,
    session_append_log, logger, st_rerun, modify.
  cbv beta. rewrite Hall. cbn [negb]. eexists. split; [reflexivity|].
  cbn. rewrite <- app_assoc. repeat split.
Qed.

Lemma error_text_string (c : console) (e : exn) :
  error_text c e = PStr (error_string c e).
Proof. destruct c; reflexivity. Qed.

Lemma in_synthesis_calls (E : env) (content t : pyval) (cfg : config) :
  In (SdkSpeak t) (synthesis_calls E content cfg) -> t = content.
Proof.
  unfold synthesis_calls.
  destruct (sliceable content); [|intros []].
  intros [H | H]; [discriminate H|].
  destruct (sdk_speech_config E _ _); [destruct H|].
  destruct H as [H | H]; [discriminate H|].
  destruct (sdk_set_voice E _); [destruct H|].
  destruct H as [H | H]; [discriminate H|].
  destruct (sdk_synthesizer E); [destruct H|].
  destruct H as [H | []]. injection H as <-. reflexivity.
Qed.

(** X18: by the time [process_query] calls [st.rerun] it has added
    exactly two lines to [st.session_state.logs], both stamped with the
    time the query arrived: the query, then the outcome (success, the
    error, or in [main_add_chatconsole.py] the warning that search is not
    configured).  [st.error] has been called exactly when the client
    raised, with the text of the assistant message, and on every path
    [st.rerun] is reached and is the last thing the page is asked: no
    failure of the client or of the speech synthesis keeps the run from
    it. *)
Theorem process_query_logs_and_page (c : console) (E : env) (query : string)
  (cfg : config) (w : world) :
  exists second : string,
    w_logs (snd (process c E query cfg w)) =
      (w_logs w ++ [query_line E query w; second])%list /\
    ((exists content w2,
         call_with c E cfg query (asked E query w) = (inr content, w2) /\
         reaches_client c cfg = true /\
         second = success_line E w /\
         w_ui (snd (process c E query cfg w)) = (w_ui w ++ [UiRerun])%list) \/
     (exists e w2,
         call_with c E cfg query (asked E query w) = (inl e, w2) /\
         reaches_client c cfg = true /\
         second = error_line E w e /\
         w_ui (snd (process c E query cfg w)) =
           (w_ui w ++ [UiError (error_string c e); UiRerun])%list /\
         msg_content (last (w_messages (snd (process c E query cfg w)))
                           (mkMessage user PNone "")) =
           PStr (error_string c e)) \/
     (c = add_console /\ reaches_client c cfg = false /\
      second = warning_line E w /\
      w_ui (snd (process c E query cfg w)) = (w_ui w ++ [UiRerun])%list)).
Proof.
  destruct (reaches_client c cfg) eqn:Hreach.
  - destruct (process_after_call c E query cfg w Hreach)
      as (res & w2 & w' & calls & Hcall & Hrun & _ & Hres).
    rewrite Hrun. cbn [snd].
    destruct res as [e | content].
    + destruct Hres as (Hlast & Hlogs & Hui & _).
      exists (error_line E w e). split; [exact Hlogs|].
      right. left. exists e, w2. repeat split; try assumption.
      rewrite Hlast. apply error_text_string.
    + destruct Hres as (_ & Hlogs & Hui & _).
      exists (success_line E w). split; [exact Hlogs|].
      left. exists content, w2. repeat split; assumption.
  - destruct c; [|discriminate Hreach].
    destruct (process_without_search E query cfg w Hreach) as (w' & Hrun & _ & Hlogs & Hui).
    rewrite Hrun. cbn [snd].
    exists (warning_line E w). split; [exact Hlogs|].
    right. right. repeat split. exact Hui.
Qed.

(** X19: [process_query] speaks nothing but the answer it shows.  The
    speech SDK is asked to speak a text only in
    [main_voice_chat_console.py], only with a speech key and region
    configured, only after the client returned, and the text is then the
    content of the assistant message just appended; an error message is
    never spoken, and [process_query] of [main_add_chatconsole.py] never
    touches the SDK. *)
Theorem process_query_speaks_the_answer (c : console) (E : env) (query : string)
  (cfg : config) (w : world) :
  exists (calls : list sdk_call) (w' : world),
    process c E query cfg w = (inr tt, w') /\
    w_sdk w' = (w_sdk w ++ calls)%list /\
    (c = add_console -> calls = []) /\
    (speech_configured cfg = false -> calls = []) /\
    (forall e w2, call_with c E cfg query (asked E query w) = (inl e, w2) -> calls = []) /\
    (forall t, In (SdkSpeak t) calls ->
       msg_content (last (w_messages w') (mkMessage user PNone "")) = t /\
       exists w2, call_with c E cfg query (asked E query w) = (inr t, w2)).
Proof.
  destruct (reaches_client c cfg) eqn:Hreach.
  - destruct (process_after_call c E query cfg w Hreach)
      as (res & w2 & w' & calls & Hcall & Hrun & Hsdk & Hres).
    exists calls, w'. split; [exact Hrun|]. split; [exact Hsdk|].
    destruct res as [e | content].
    + destruct Hres as (_ & _ & _ & ->).
      split; [intros; reflexivity|]. split; [intros; reflexivity|].
      split; [intros; reflexivity|]. intros t [].
    + destruct Hres as (Hlast & _ & _ & Hcalls).
      assert (Hin : forall t, In (SdkSpeak t) calls -> t = content).
      { intros t Hin. destruct c; subst calls; [destruct Hin|].
        destruct (speech_configured cfg); [|destruct Hin].
        exact (in_synthesis_calls E content t cfg Hin). }
      split; [intros ->; exact Hcalls|].
      split; [intros Hcfg; destruct c; [exact Hcalls|]; rewrite Hcfg in Hcalls;
              exact Hcalls|].
      split; [intros e w3 He; rewrite Hcall in He; discriminate He|].
      intros t Ht. rewrite (Hin t Ht). split; [rewrite Hlast; reflexivity|].
      exists w2. exact Hcall.
  - destruct c; [|discriminate Hreach].
    destruct (process_without_search E query cfg w Hreach) as (w' & Hrun & Hsdk & _).
    exists [], w'. split; [exact Hrun|]. rewrite app_nil_r.
    split; [exact Hsdk|].
    split; [intros; reflexivity|]. split; [intros; reflexivity|].
    split; [intros; reflexivity|]. intros t [].
Qed.

(** The outcome of the client as [process_query] calls it, read off the
    answers of the service. *)
Lemma call_with_result (c : console) (E : env) (cfg : config) (endpoint query : string)
  (w : world) :
  azure_oai_endpoint cfg = Some endpoint ->
  truthy (Some endpoint) = true ->
  fst (call_with c E cfg query (asked E query w)) =
  call_result (loop_result c E 1
                 (answers E (w_posts w) (requests_for c cfg query)) None).
Proof.
  intros Hep Htrue. unfold call_with, requests_for. rewrite Hep.
  rewrite (complete_run c E endpoint _ _ _ _ _ _ _ _ Htrue). reflexivity.
Qed.

(** X20: what the user sees when the service is down.  With an endpoint
    configured, when no request of the query gets a usable answer (another
    status than 200, no response at all, or a malformed body) the chat
    ends with an assistant message made of the error prefix, the sentence
    "All API payload structures failed. Last error: " and the message of
    the last attempt alone; the same text goes to [st.error], and the
    page is rerun. *)
Theorem process_query_shows_the_last_failure (c : console) (E : env)
  (query endpoint : string) (cfg : config) (w : world) :
  azure_oai_endpoint cfg = Some endpoint ->
  truthy (Some endpoint) = true ->
  reaches_client c cfg = true ->
  Forall (fun a => not_200 a \/ malformed_200 E a)
         (answers E (w_posts w) (requests_for c cfg query)) ->
  exists w',
    process c E query cfg w = (inr tt, w') /\
    last (w_messages w') (mkMessage user PNone "") =
      mkMessage assistant
        (PStr (error_string c
                 (Exception
                    ("All API payload structures failed. Last error: " ++
                     failure_msg c E (length (requests_for c cfg query))
                       (last (answers E (w_posts w) (requests_for c cfg query))
                             (inl no_exn))))))
        (now_strftime E (S (w_clock w))) /\
    w_ui w' =
      (w_ui w ++
       [UiError (error_string c
                   (Exception
                      ("All API payload structures failed. Last error: " ++
                       failure_msg c E (length (requests_for c cfg query))
                         (last (answers E (w_posts w) (requests_for c cfg query))
                               (inl no_exn)))));
        UiRerun])%list.
Proof.
  intros Hep Htrue Hreach Hall.
  apply failed_not_answered in Hall.
  destruct (process_after_call c E query cfg w Hreach)
    as (res & w2 & w' & calls & Hcall & Hrun & _ & Hres).
  pose proof (call_with_result c E cfg endpoint query w Hep Htrue) as Hfst.
  rewrite Hcall in Hfst. cbn [fst] in Hfst.
  pose proof (answers_length E (requests_for c cfg query) (w_posts w)) as Hlen.
  destruct (answers E (w_posts w) (requests_for c cfg query)) as [| a l] eqn:Egot.
  { exfalso. unfold requests_for in Hlen.
    apply (requests_not_nil c (fmt_opt (azure_oai_endpoint cfg)) (azure_oai_key cfg)
             (azure_oai_deployment cfg) (azure_search_endpoint cfg)
             (azure_search_key cfg) (azure_search_index cfg) query
             (azure_api_version cfg)).
    apply length_zero_iff_nil. symmetry. exact Hlen. }
  rewrite (loop_result_all_failed c E (inl no_exn) l 1 a None Hall) in Hfst.
  cbn [call_result] in Hfst. subst res.
  destruct Hres as (Hlast & _ & Hui & _).
  exists w'. split; [exact Hrun|].
  rewrite <- Hlen. cbn [length]. change (S (length l)) with (1 + length l).
  unfold all_failed_message, fmt_opt in Hlast, Hui.
  rewrite error_text_string in Hlast.
  split; [exact Hlast | exact Hui].
Qed.

Lemma process_query_shows_the_last_failure_witness :
  exists w',
    process voice_console (refusing 500) "hi" plain_config world0 = (inr tt, w') /\
    w_ui w' =
      [UiError (error_string voice_console
                  (Exception
                     ("All API payload structures failed. Last error: " ++
                      failure_msg voice_console (refusing 500) 1
                        (inr (status_response 500 "denied")))));
       UiRerun].
Proof.
  destruct (process_query_shows_the_last_failure voice_console (refusing 500) "hi"
              "https://myresource.openai.azure.com" plain_config world0
              eq_refl eq_refl eq_refl) as (w' & Hrun & _ & Hui).
  - apply Forall_cons; [|apply Forall_nil]. left. cbn. discriminate.
  - exists w'. split; [exact Hrun | exact Hui].
Defined.

(** X21: what the user sees when a request is answered.  With an
    endpoint configured, when the answers to the query's requests are
    failures followed by a response with status 200 that holds
    [choices[0].message.content], the chat ends with that content as the
    assistant message, nothing goes to [st.error], and the success line
    is logged; the answers to later variants do not matter. *)
Theorem process_query_shows_the_first_answer (c : console) (E : env)
  (query endpoint : string) (cfg : config) (w : world)
  (pre post : list (exn + response)) (r : response) (content : pyval) :
  azure_oai_endpoint cfg = Some endpoint ->
  truthy (Some endpoint) = true ->
  reaches_client c cfg = true ->
  answers E (w_posts w) (requests_for c cfg query) = (pre ++ inr r :: post)%list ->
  Forall (fun a => not_200 a \/ malformed_200 E a) pre ->
  outcome_of E (inr r) = Answered content ->
  exists w',
    process c E query cfg w = (inr tt, w') /\
    last (w_messages w') (mkMessage user PNone "") =
      mkMessage assistant content (now_strftime E (S (w_clock w))) /\
    w_ui w' = (w_ui w ++ [UiRerun])%list /\
    w_logs w' = (w_logs w ++ [query_line E query w; success_line E w])%list.
Proof.
  intros Hep Htrue Hreach Hgot Hpre Ho.
  apply failed_not_answered in Hpre.
  destruct (process_after_call c E query cfg w Hreach)
    as (res & w2 & w' & calls & Hcall & Hrun & _ & Hres).
  pose proof (call_with_result c E cfg endpoint query w Hep Htrue) as Hfst.
  rewrite Hcall, Hgot in Hfst. cbn [fst] in Hfst.
  rewrite (loop_result_first_answer c E (inr r) content post Ho pre 1 None Hpre) in Hfst.
  cbn [call_result] in Hfst. subst res.
  destruct Hres as (Hlast & Hlogs & Hui & _).
  exists w'. repeat split; assumption.
Qed.

Lemma process_query_shows_the_first_answer_witness :
  exists w',
    process add_console search_down "hi" demo_config world0 = (inr tt, w') /\
    last (w_messages w') (mkMessage user PNone "") =
      mkMessage assistant (PStr "sawasdee") "2026-01-01 00:00:00".
Proof.
  destruct (process_query_shows_the_first_answer add_console search_down "hi"
              "myresource.openai.azure.com/" demo_config world0
              [inr (status_response 400 "bad request");
               inr (status_response 400 "bad request");
               inr (status_response 400 "bad request")]
              [] (ok_response "sawasdee") (PStr "sawasdee")
              eq_refl eq_refl eq_refl eq_refl) as (w' & Hrun & Hlast & _).
  - repeat (apply Forall_cons; [left; cbn; discriminate|]). apply Forall_nil.
  - reflexivity.
  - exists w'. split; [exact Hrun | exact Hlast].
Defined.

(** X22: in [main_voice_chat_console.py] with a speech key and region, an
    answer of the client is spoken once: when the set-up steps work, the
    SDK is asked for the speech configuration, the voice, the synthesizer
    and one [speak_text_async] of the content, in this order.  An answer
    that is not text (a [null] content, say) fails on [text[:50]] before
    any SDK call: it is shown and not spoken.  Whatever the SDK does, the
    answer stays the last message of the chat and nothing goes to
    [st.error]. *)
Theorem process_query_speaks_once (E : env) (query : string) (cfg : config)
  (w : world) (content : pyval) :
  fst (call_with voice_console E cfg query (asked E query w)) = inr content ->
  speech_configured cfg = true ->
  exists w',
    process voice_console E query cfg w = (inr tt, w') /\
    last (w_messages w') (mkMessage user PNone "") =
      mkMessage assistant content (now_strftime E (S (w_clock w))) /\
    w_ui w' = (w_ui w ++ [UiRerun])%list /\
    (sliceable content = false -> w_sdk w' = w_sdk w) /\
    (sliceable content = true ->
     sdk_speech_config E (azure_speech_key cfg) (azure_speech_region cfg) = inr tt ->
     sdk_set_voice E (azure_speech_voice cfg) = inr tt ->
     sdk_synthesizer E = inr tt ->
     w_sdk w' =
       (w_sdk w ++
        [ SdkSpeechConfig (azure_speech_key cfg) (azure_speech_region cfg);
          SdkSetVoice (azure_speech_voice cfg);
          SdkSynthesizer;
          SdkSpeak content ])%list).
Proof.
  intros Hfst Hcfg.
  destruct (process_after_call voice_console E query cfg w eq_refl)
    as (res & w2 & w' & calls & Hcall & Hrun & Hsdk & Hres).
  rewrite Hcall in Hfst. cbn [fst] in Hfst. subst res.
  destruct Hres as (Hlast & _ & Hui & Hcalls).
  rewrite Hcfg in Hcalls. subst calls.
  exists w'. split; [exact Hrun|]. split; [exact Hlast|]. split; [exact Hui|].
  rewrite Hsdk. unfold synthesis_calls. split.
  - intros ->. apply app_nil_r.
  - intros -> -> -> ->. reflexivity.
Qed.

Lemma process_query_speaks_once_witness :
  exists w',
    process voice_console search_down "hi" speaking_config world0 = (inr tt, w') /\
    w_sdk w' =
      [ SdkSpeechConfig (Some "speechkey") (Some "southeastasia");
        SdkSetVoice (Some "th-TH-PremwadaNeural");
        SdkSynthesizer;
        SdkSpeak (PStr "sawasdee") ].
Proof.
  destruct (process_query_speaks_once search_down "hi" speaking_config world0
              (PStr "sawasdee") eq_refl eq_refl) as (w' & Hrun & _ & _ & _ & Hsdk).
  exists w'. split; [exact Hrun|].
  exact (Hsdk eq_refl eq_refl eq_refl eq_refl).
Defined.
